(** * The cross-timezone meeting-slot finder (POST /find-meeting-slots)

    A shallow embedding of the handler of [/find-meeting-slots] and of the
    ECMAScript built-ins it calls, followed by the properties of the
    slot finder.

    Conventions of the embedding.
    - A JavaScript string is a Rocq [string] read as a sequence of code
      units in the range 0..255 (the Latin-1 part of UTF-16).  [trim],
      [toLowerCase], [parseInt] and [encodeURIComponent] follow ECMAScript
      on that range.
    - A JavaScript number that the handler computes with has no fraction:
      it is a [Num], an integer that a double holds or an infinity, and
      [NaN] is the [None] of an option.  An integer is rounded to 53
      significant bits where ECMAScript rounds it: in [parseInt], in
      [duration/60], in [17 - ...] and in [hour++].
    - An Array holds at most 2^32 - 1 elements, as ECMAScript has it.  The
      storage limits of an engine (its heap, the longest string it can
      build) are outside the embedding.
    - A loop that may not end is run with fuel: [None] says that it is
      still running when the fuel is spent.
    - The zoned-time library (luxon) is not part of the repository: the
      handler is written against the interface [Luxon] below, one field per
      call the handler makes.  [FixedZones] is an instance of it that runs.
    - A JavaScript exception is the [Throw] of the monad [Exc]. *)

From Stdlib Require Import ZArith List String Ascii Bool Lia.
From Stdlib Require Import DecimalString Sorted.
Import ListNotations.
Local Open Scope string_scope.
Local Open Scope Z_scope.

(** ** Exceptions

    [Throw e] is a thrown JavaScript exception with its message [e]. *)

Inductive Exc (A : Type) : Type :=
| Ok (a : A)
| Throw (e : string).

Arguments Ok {A} a.
Arguments Throw {A} e.

Definition bind {A B : Type} (m : Exc A) (k : A -> Exc B) : Exc B :=
  match m with
  | Ok a => k a
  | Throw e => Throw e
  end.

Declare Scope exc_scope.
Delimit Scope exc_scope with exc.
Notation "x <- m ;; k" := (bind m (fun x => k))
  (at level 100, m at next level, right associativity) : exc_scope.
Local Open Scope exc_scope.

(** A loop over a list whose body pushes onto one array: each iteration
    returns what it pushed, in order; the first exception ends the loop. *)
Fixpoint forEach {A B : Type} (l : list A) (body : A -> Exc (list B))
  : Exc (list B) :=
  match l with
  | [] => Ok []
  | a :: r =>
      pushed <- body a ;;
      rest <- forEach r body ;;
      Ok (pushed ++ rest)%list
  end.

(** [l.map(f)] for a callback that can throw. *)
Fixpoint mapExc {A B : Type} (f : A -> Exc B) (l : list A) : Exc (list B) :=
  match l with
  | [] => Ok []
  | a :: r =>
      b <- f a ;;
      bs <- mapExc f r ;;
      Ok (b :: bs)
  end.

(** ** ECMAScript built-ins *)

Module Js.

(** Values that can sit in a field of a parsed JSON body; [JUndefined] is an
    absent field.  [JNumber n] is the Number that JSON reads from the
    integer literal [n], the double nearest to [n].  [JObject fields] is an
    object with its own members, in the order of the text. *)
#[warnings="-register-all"]
Inductive JsValue : Type :=
| JUndefined
| JNull
| JBool (b : bool)
| JNumber (n : Z)
| JString (s : string)
| JArray (elems : list JsValue)
| JObject (fields : list (string * JsValue)).

Definition code (c : ascii) : Z := Z.of_N (N_of_ascii c).

Definition chr (n : Z) : ascii := ascii_of_N (Z.to_N n).

(** WhiteSpace and LineTerminator code units below 256:
    TAB, LF, VT, FF, CR, SP and NBSP. *)
Definition isWhiteSpace (c : ascii) : bool :=
  let n := code c in
  ((9 <=? n) && (n <=? 13)) || (n =? 32) || (n =? 160).

Fixpoint trimStart (s : string) : string :=
  match s with
  | EmptyString => EmptyString
  | String c r => if isWhiteSpace c then trimStart r else s
  end.

Fixpoint trimEnd (s : string) : string :=
  match s with
  | EmptyString => EmptyString
  | String c r =>
      match trimEnd r with
      | EmptyString => if isWhiteSpace c then EmptyString else String c EmptyString
      | r' => String c r'
      end
  end.

(** [String.prototype.trim] *)
Definition trim (s : string) : string := trimEnd (trimStart s).

(** [String.prototype.toLowerCase] on one code unit: A-Z and the Latin-1
    capitals 0xC0..0xDE (0xD7, the multiplication sign, apart). *)
Definition lowerChar (c : ascii) : ascii :=
  let n := code c in
  if ((65 <=? n) && (n <=? 90))
     || ((192 <=? n) && (n <=? 222) && negb (n =? 215))
  then chr (n + 32) else c.

Fixpoint toLowerCase (s : string) : string :=
  match s with
  | EmptyString => EmptyString
  | String c r => String (lowerChar c) (toLowerCase r)
  end.

(** [s.split(sep)] for a one-character separator. *)
Fixpoint split (sep : ascii) (s : string) : list string :=
  match s with
  | EmptyString => [EmptyString]
  | String c r =>
      if Ascii.eqb c sep then EmptyString :: split sep r
      else match split sep r with
           | h :: t => String c h :: t
           | [] => [String c EmptyString]
           end
  end.

(** Truthiness of a string, as in [filter(Boolean)] and [a || b]. *)
Definition nonEmpty (s : string) : bool :=
  match s with EmptyString => false | _ => true end.

(** *** Numbers

    [Fin z] is a double that holds the integer [z]. *)
Inductive Num : Type :=
| Fin (z : Z)
| PosInf
| NegInf.

(** The first integer that a double cannot tell from its successor. *)
Definition twoTo53 : Z := 2 ^ 53.

(** [n / d] rounded to the nearest integer, a tie to the even one, for
    [0 <= n] and [0 < d]. *)
Definition roundHalfEven (n d : Z) : Z :=
  let q := n / d in
  let r := n mod d in
  if 2 * r <? d then q
  else if d <? 2 * r then q + 1
  else if Z.even q then q else q + 1.

(** The Number for the mathematical integer [m]: [m] rounded to 53
    significant bits, a tie to the even one, and an infinity when the
    rounded magnitude reaches 2^1024. *)
Definition toNumber (m : Z) : Num :=
  let a := Z.abs m in
  let e := Z.log2 a - 52 in
  if e <=? 0 then Fin m
  else
    let r := roundHalfEven a (2 ^ e) * 2 ^ e in
    if 2 ^ 1024 <=? r then (if m <? 0 then NegInf else PosInf)
    else Fin (Z.sgn m * r).

(** The decimal digits of an integer, [-] before a negative one. *)
Definition decimal (n : Z) : string :=
  NilZero.string_of_int (Z.to_int n).

Fixpoint zeros (k : nat) : string :=
  match k with
  | O => EmptyString
  | S k' => String "0" (zeros k')
  end.

(** Number::toString looks for the least [k] such that an integer [s] of
    [k] digits and an [n] have [s * 10^(n-k)] read back as [x].  For one
    [k], and [x] of [nd] digits: the [s] and [n] if there are any; of two
    that read back as [x] the nearer to [x], and of two as near the even
    one. *)
Definition digitsOfLength (x nd k : Z) : option (Z * Z) :=
  let scale := 10 ^ (nd - k) in
  let lo := x / scale in
  let hi := lo + 1 in
  let readsBack (c : Z) :=
    match toNumber (c * scale) with
    | Fin y => y =? x
    | _ => false
    end in
  let normal (c : Z) :=
    if c =? 10 ^ k then (10 ^ (k - 1), nd + 1) else (c, nd) in
  match readsBack lo, readsBack hi with
  | true, true =>
      let below := x - lo * scale in
      let above := hi * scale - x in
      Some (normal (if below <? above then lo
                    else if above <? below then hi
                    else if Z.even lo then lo else hi))
  | true, false => Some (normal lo)
  | false, true => Some (normal hi)
  | false, false => None
  end.

(** The [s], [k] and [n] of Number::toString, looked for from [k] digits
    on; 17 digits always read back. *)
Fixpoint shortestDigits (fuel : nat) (x nd k : Z) : Z * Z * Z :=
  match fuel with
  | O => (x, nd, nd)
  | S fuel' =>
      match digitsOfLength x nd k with
      | Some (s, n) => (s, k, n)
      | None => shortestDigits fuel' x nd (k + 1)
      end
  end.

(** Number::toString for a positive integer Number: below 2^53 the digits
    of the integer; from there on the shortest digits that read back,
    followed by zeros up to 21 digits, and in exponent notation beyond. *)
Definition positiveToString (x : Z) : string :=
  if x <? twoTo53 then decimal x
  else
    let nd := Z.of_nat (String.length (decimal x)) in
    let '(s, k, n) := shortestDigits 17 x nd 1 in
    if n <=? 21 then decimal s ++ zeros (Z.to_nat (n - k))
    else
      match decimal s with
      | String d EmptyString => String d EmptyString ++ "e+" ++ decimal (n - 1)
      | String d rest => String d (String "." rest) ++ "e+" ++ decimal (n - 1)
      | EmptyString => EmptyString
      end.

(** Number::toString *)
Definition numToString (x : Num) : string :=
  match x with
  | Fin z => if z <? 0 then "-" ++ positiveToString (- z) else positiveToString z
  | PosInf => "Infinity"
  | NegInf => "-Infinity"
  end.

(** Number::toString of the Number for the integer [n]. *)
Definition numberToString (n : Z) : string := numToString (toNumber n).

Fixpoint hasOwn (key : string) (fields : list (string * JsValue)) : bool :=
  match fields with
  | [] => false
  | (k, _) :: r => String.eqb k key || hasOwn key r
  end.

(** The abstract operation ToString.  An array joins its elements with
    commas, [null] and [undefined] elements giving the empty string.  An
    object of a parsed body has no callable member of its own: with an own
    [toString] member nothing converts it and ToString throws a TypeError;
    without one [Object.prototype.toString] answers. *)
Fixpoint ToString (v : JsValue) : Exc string :=
  match v with
  | JUndefined => Ok "undefined"
  | JNull => Ok "null"
  | JBool true => Ok "true"
  | JBool false => Ok "false"
  | JNumber n => Ok (numberToString n)
  | JString s => Ok s
  | JArray elems =>
      (fix join (l : list JsValue) : Exc string :=
         match l with
         | [] => Ok EmptyString
         | x :: r =>
             sx <- match x with
                   | JUndefined | JNull => Ok EmptyString
                   | _ => ToString x
                   end ;;
             match r with
             | [] => Ok sx
             | _ => rest <- join r ;; Ok (sx ++ "," ++ rest)
             end
         end) elems
  | JObject fields =>
      if hasOwn "toString" fields
      then Throw "Cannot convert object to primitive value"
      else Ok "[object Object]"
  end.

(** ToBoolean. *)
Definition truthy (v : JsValue) : bool :=
  match v with
  | JUndefined | JNull => false
  | JBool b => b
  | JNumber n => negb (n =? 0)
  | JString s => nonEmpty s
  | JArray _ | JObject _ => true
  end.

Definition digitValue (c : ascii) : option Z :=
  let n := code c in
  if (48 <=? n) && (n <=? 57) then Some (n - 48) else None.

(** The longest prefix of decimal digits of [s], read with accumulator
    [acc]; [seen] tells whether a digit was read. *)
Fixpoint readDigits (s : string) (acc : Z) (seen : bool) : option Z :=
  match s with
  | EmptyString => if seen then Some acc else None
  | String c r =>
      match digitValue c with
      | Some d => readDigits r (10 * acc + d) true
      | None => if seen then Some acc else None
      end
  end.

(** [parseInt(v, 10)]: ToString, which can throw; then skip leading white
    space, an optional sign, and read the longest run of decimal digits;
    the result is the Number for the integer read, [None] is NaN. *)
Definition parseInt10 (v : JsValue) : Exc (option Num) :=
  text <- ToString v ;;
  Ok (match trimStart text with
      | String "-" r => option_map (fun m => toNumber (- m)) (readDigits r 0 false)
      | String "+" r => option_map toNumber (readDigits r 0 false)
      | s => option_map toNumber (readDigits s 0 false)
      end).

(** [n || dflt] on numbers: NaN and 0 are falsy. *)
Definition numberOr (n : option Num) (dflt : Z) : Num :=
  match n with
  | Some (Fin k) => if k =? 0 then Fin dflt else Fin k
  | Some x => x
  | None => Fin dflt
  end.

(** The ceiling of [n / d] for integers [n] and [d > 0]. *)
Definition ceilDiv (n d : Z) : Z := - ((- n) / d).

(** [Math.ceil(x / 60)] for a finite Number [x].  The quotient is a double:
    it is rounded to 53 significant bits before the ceiling is taken; [p]
    is the power of two that scales it into 2^52..2^53. *)
Definition ceilOver60 (x : Z) : Z :=
  let a := Z.abs x in
  if a <? 60 then (if 0 <? x then 1 else 0)
  else
    let p := 52 - Z.log2 (a / 60) in
    if 0 <=? p then
      let m := roundHalfEven (a * 2 ^ p) 60 in
      if 0 <? x then ceilDiv m (2 ^ p) else - (m / 2 ^ p)
    else
      let m := roundHalfEven a (60 * 2 ^ (- p)) in
      Z.sgn x * (m * 2 ^ (- p)).

(** [17 - Math.ceil(x / 60)] *)
Definition seventeenMinusCeil (x : Num) : Num :=
  match x with
  | Fin z => toNumber (17 - ceilOver60 z)
  | PosInf => NegInf
  | NegInf => PosInf
  end.

(** [hour++] for [hour] from 9 on: the sum is exact below 2^53, and
    2^53 + 1 rounds back to 2^53. *)
Definition increment (hour : Z) : Z :=
  if hour <? twoTo53 then hour + 1 else hour.

(** [hour <= bound] *)
Definition leBound (hour : Z) (bound : Num) : bool :=
  match bound with
  | Fin b => hour <=? b
  | PosInf => true
  | NegInf => false
  end.

Definition hexDigit (n : Z) : ascii :=
  if n <? 10 then chr (48 + n) else chr (55 + n).

Definition percentByte (b : Z) : string :=
  String "%" (String (hexDigit (b / 16)) (String (hexDigit (b mod 16)) EmptyString)).

(** The characters [encodeURIComponent] leaves alone:
    letters, digits and [- _ . ! ~ * ' ( )]. *)
Definition uriUnreserved (c : ascii) : bool :=
  let n := code c in
  ((65 <=? n) && (n <=? 90)) || ((97 <=? n) && (n <=? 122))
  || ((48 <=? n) && (n <=? 57))
  || existsb (Z.eqb n) [45; 95; 46; 33; 126; 42; 39; 40; 41].

(** [encodeURIComponent]: a code unit below 128 is one UTF-8 byte, one
    from 128 to 255 is two.  No code unit of this range is a surrogate, so
    the call cannot throw. *)
Fixpoint encodeURIComponent (s : string) : string :=
  match s with
  | EmptyString => EmptyString
  | String c r =>
      let n := code c in
      (if uriUnreserved c then String c EmptyString
       else if n <? 128 then percentByte n
       else percentByte (192 + n / 64) ++ percentByte (128 + n mod 64))
      ++ encodeURIComponent r
  end.

End Js.

Import Js.

(** ** The city table and what a lookup in it yields *)

(** What [cityToTz[key] || tz || 'UTC'] can evaluate to: a string, or a
    member that the object literal inherits from [Object.prototype]. *)
Inductive ZoneArg : Type :=
| ZName (s : string)
| ZInherited (key : string).

Definition cityToTz : list (string * string) :=
  [ ("new york", "America/New_York");
    ("london", "Europe/London");
    ("mumbai", "Asia/Kolkata");
    ("san francisco", "America/Los_Angeles");
    ("berlin", "Europe/Berlin");
    ("sydney", "Australia/Sydney");
    ("tokyo", "Asia/Tokyo");
    ("singapore", "Asia/Singapore");
    ("paris", "Europe/Paris");
    ("chicago", "America/Chicago");
    ("delhi", "Asia/Kolkata");
    ("boston", "America/New_York");
    ("los angeles", "America/Los_Angeles");
    ("toronto", "America/Toronto");
    ("dubai", "Asia/Dubai");
    ("shanghai", "Asia/Shanghai");
    ("hong kong", "Asia/Hong_Kong");
    ("seoul", "Asia/Seoul");
    ("amsterdam", "Europe/Amsterdam");
    ("zurich", "Europe/Zurich");
    ("madrid", "Europe/Madrid");
    ("rome", "Europe/Rome");
    ("istanbul", "Europe/Istanbul");
    ("johannesburg", "Africa/Johannesburg");
    ("sao paulo", "America/Sao_Paulo");
    ("mexico city", "America/Mexico_City");
    ("vancouver", "America/Vancouver");
    ("bengaluru", "Asia/Kolkata") ].

(** The property names every object literal inherits. *)
Definition objectPrototypeKeys : list string :=
  [ "constructor"; "__defineGetter__"; "__defineSetter__"; "hasOwnProperty";
    "__lookupGetter__"; "__lookupSetter__"; "isPrototypeOf";
    "propertyIsEnumerable"; "toString"; "valueOf"; "__proto__";
    "toLocaleString" ].

Fixpoint ownProperty (key : string) (o : list (string * string)) : option string :=
  match o with
  | [] => None
  | (k, v) :: r => if String.eqb k key then Some v else ownProperty key r
  end.

(** [o[key]]: an own property, else an inherited one, else [undefined]. *)
Definition getProperty (o : list (string * string)) (key : string) : option ZoneArg :=
  match ownProperty key o with
  | Some v => Some (ZName v)
  | None =>
      if existsb (String.eqb key) objectPrototypeKeys
      then Some (ZInherited key) else None
  end.

(** [tz || 'UTC'] *)
Definition tokenOrUTC (tz : string) : ZoneArg :=
  if nonEmpty tz then ZName tz else ZName "UTC".

(** [cityToTz[tz.toLowerCase()] || tz || 'UTC'] *)
Definition resolveTz (tz : string) : ZoneArg :=
  match getProperty cityToTz (toLowerCase tz) with
  | Some (ZName z) => if nonEmpty z then ZName z else tokenOrUTC tz
  | Some (ZInherited k) => ZInherited k
  | None => tokenOrUTC tz
  end.

(** [leadLocations.split(',').map(s => s.trim()).filter(Boolean)] *)
Definition leadTzs (leadLocations : string) : list string :=
  filter nonEmpty (map trim (split "," leadLocations)).

Definition resolvedTzs (leadLocations : string) : list ZoneArg :=
  map resolveTz (leadTzs leadLocations).

(** [`${tz}`]: a string as it is; an inherited member as its ToString. *)
Definition zoneText (tz : ZoneArg) : string :=
  match tz with
  | ZName s => s
  | ZInherited k =>
      if String.eqb k "__proto__" then "[object Object]"
      else "function " ++ (if String.eqb k "constructor" then "Object" else k)
           ++ "() { [native code] }"
  end.

(** ** The zoned-time library, as the handler uses it *)

(** Every call can throw, so every method returns in [Exc]; the two getters
    [isValid] and [hour] cannot.  One reading of the clock serves the whole
    request. *)
Class Luxon : Type := {
  DateTime : Type;
  (** [DateTime.now()] *)
  now : Exc DateTime;
  (** [dt.setZone(tz)] and [dt.setZone(tz, { keepLocalTime: false })] *)
  setZone : DateTime -> ZoneArg -> Exc DateTime;
  (** [dt.isValid] *)
  isValid : DateTime -> bool;
  (** [dt.plus({ days })] *)
  plusDays : DateTime -> Z -> Exc DateTime;
  (** [dt.set({ hour, minute, second, millisecond })] *)
  set : DateTime -> Z -> Z -> Z -> Z -> Exc DateTime;
  (** [dt.plus({ minutes })] *)
  plusMinutes : DateTime -> Z -> Exc DateTime;
  (** [dt.plus({ minutes: Infinity })], and [-Infinity] when [negative] *)
  plusInfinite : DateTime -> bool -> Exc DateTime;
  (** [dt.hour]; [None] is NaN, the hour of an invalid DateTime *)
  hour : DateTime -> option Z;
  (** [dt.toFormat(fmt)] *)
  toFormat : DateTime -> string -> Exc string;
  (** [dt.toISO()]; [None] is null *)
  toISO : DateTime -> Exc (option string)
}.

(** ** The handler *)

Record Body : Type := mkBody {
  userTimezone : JsValue;
  leadLocations : JsValue;
  callDuration : JsValue
}.

Inductive Response : Type :=
| Json400 (error : string)
| Json200 (slotsTableHtml : string) (meetingLink : string).

Record Slot : Type := mkSlot {
  user : string;
  leads : list string;
  link : string
}.

(** [!v || typeof v !== 'string' || v.trim().length === 0] *)
Definition missing (v : JsValue) : bool :=
  negb (truthy v)
  || match v with
     | JString s => (String.length (trim s) =? 0)%nat
     | _ => true
     end.

(** The string in a field that passed [missing]. *)
Definition stringOf (v : JsValue) : string :=
  match v with
  | JString s => s
  | _ => EmptyString
  end.

(** [parseInt(callDuration, 10) || 30] *)
Definition duration (callDuration : JsValue) : Exc Num :=
  n <- parseInt10 callDuration ;;
  Ok (numberOr n 30).

(** [17 - Math.ceil(duration/60)] *)
Definition hourBound (duration : Num) : Num := seventeenMinusCeil duration.

(** [a >= b] and [a <= b] where [a] may be NaN. *)
Definition geNum (a : option Z) (b : Z) : bool :=
  match a with Some x => b <=? x | None => false end.

Definition leNum (a : option Z) (b : Z) : bool :=
  match a with Some x => x <=? b | None => false end.

(** The hours of [for (let hour = lo; hour <= hi; hour++)]. *)
Definition hoursFromTo (lo hi : Z) : list Z :=
  map (fun i => lo + Z.of_nat i) (seq 0 (Z.to_nat (hi + 1 - lo))).

(** The hours of
    [for (let hour = 9; hour <= 17 - Math.ceil(duration/60); hour++)]
    for a duration on which the quotient and the difference are exact. *)
Definition candidateHours (duration : Z) : list Z :=
  hoursFromTo 9 (17 - ceilDiv duration 60).

(** The HTML literals of the source hold double quotes; they are written
    here with an apostrophe in place of each, and [html] puts the double
    quotes back.  None of the literals holds an apostrophe of its own. *)
Fixpoint html (s : string) : string :=
  match s with
  | EmptyString => EmptyString
  | String c r =>
      String (if Ascii.eqb c "'" then ascii_of_nat 34 else c) (html r)
  end.

Definition invalidTimezonesHtml : string :=
  html "<div style='color:#ff5252;'>Invalid timezone(s) provided.</div>".

Definition serverErrorHtml : string :=
  html "<div style='color:#ff5252;'>Server error: Unable to find meeting slots.</div>".

Definition tableOpen : string :=
  html "<table style='width:100%;border-collapse:collapse;background:#fff;color:#333;'>"
  ++ html "<tr><th style='padding:8px;border-bottom:1px solid #ccc;'>Your Time</th>".

(** The body of [resolvedTzs.forEach((tz, i) => ...)], from index [i] on. *)
Fixpoint leadHeaders (i : Z) (tzs : list ZoneArg) : string :=
  match tzs with
  | [] => EmptyString
  | tz :: r =>
      html "<th style='padding:8px;border-bottom:1px solid #ccc;'>Lead "
      ++ numberToString (i + 1) ++ " (" ++ zoneText tz ++ ")</th>"
      ++ leadHeaders (i + 1) r
  end.

Definition tableHead (tzs : list ZoneArg) : string :=
  tableOpen ++ leadHeaders 0 tzs ++ "</tr>".

Definition emptyRow (tzs : list ZoneArg) : string :=
  html "<tr><td colspan='" ++ numberToString (1 + Z.of_nat (List.length tzs))
  ++ html "' style='padding:12px;color:#ff5252;text-align:center;'>No overlapping slots found for the next 3 days.</td></tr>".

Definition cell (text : string) : string :=
  html "<td style='padding:8px;border-bottom:1px solid #eee;'>" ++ text ++ "</td>".

Definition slotRow (slot : Slot) : string :=
  "<tr>" ++ cell (user slot) ++ String.concat EmptyString (map cell (leads slot)) ++ "</tr>".

(** The table: the head, then the empty-state row or one row per slot. *)
Definition buildTable (tzs : list ZoneArg) (slots : list Slot) : string :=
  tableHead tzs
  ++ (match slots with
      | [] => emptyRow tzs
      | _ => String.concat EmptyString (map slotRow slots)
      end)
  ++ "</table>".

(** [slots.length > 0 ? slots[0].link : ''] *)
Definition meetingLinkOf (slots : list Slot) : string :=
  match slots with
  | [] => EmptyString
  | first :: _ => link first
  end.

Definition slotFormat : string := "ccc, dd LLL yyyy HH:mm".

(** [`https://cal.com/book?tz=${...}&start=${...}&duration=${duration}`];
    [iso] is what [start.toISO()] returned. *)
Definition linkOf (userTz : string) (iso : option string) (duration : Num) : string :=
  "https://cal.com/book?tz=" ++ encodeURIComponent userTz
  ++ "&start=" ++ encodeURIComponent (match iso with Some t => t | None => "null" end)
  ++ "&duration=" ++ numToString duration.

(** The link for the Number of an integer. *)
Definition bookingLink (userTz : string) (iso : option string) (duration : Z) : string :=
  linkOf userTz iso (toNumber duration).

Section Handler.

Context {L : Luxon}.

(** The callback of [[userTimezone, ...resolvedTzs].every(...)]:
    [try { return !!DateTime.now().setZone(tz).isValid } catch { return false }] *)
Definition zoneIsValid (tz : ZoneArg) : bool :=
  match (n <- now ;; setZone n tz) with
  | Ok dt => isValid dt
  | Throw _ => false
  end.

Definition validTzs (userTz : string) (tzs : list ZoneArg) : bool :=
  forallb zoneIsValid (ZName userTz :: tzs).

(** The callback of [resolvedTzs.every(...)] that computes [allOk]: both
    projections, then the two comparisons on the hour; an exception is the
    answer [false]. *)
Definition leadOk (start end_ : DateTime) (tz : ZoneArg) : bool :=
  match (leadStart <- setZone start tz ;;
         leadEnd <- setZone end_ tz ;;
         Ok (geNum (hour leadStart) 9 && leNum (hour leadEnd) 17)) with
  | Ok b => b
  | Throw _ => false
  end.

Definition allOk (start end_ : DateTime) (tzs : list ZoneArg) : bool :=
  forallb (leadOk start end_) tzs.

(** One entry of [leads]:
    [`${start.setZone(tz, ...).toFormat('ccc, dd LLL yyyy HH:mm')} (${tz})`] *)
Definition leadTime (start : DateTime) (tz : ZoneArg) : Exc string :=
  local <- setZone start tz ;;
  text <- toFormat local slotFormat ;;
  Ok (text ++ " (" ++ zoneText tz ++ ")").

(** [start.plus({ minutes: duration })] *)
Definition plusDuration (start : DateTime) (duration : Num) : Exc DateTime :=
  match duration with
  | Fin d => plusMinutes start d
  | PosInf => plusInfinite start false
  | NegInf => plusInfinite start true
  end.

(** The object pushed onto [slots] for an accepted [start]. *)
Definition slotObject (userTz : string) (tzs : list ZoneArg) (duration : Num)
    (start : DateTime) : Exc Slot :=
  text <- toFormat start slotFormat ;;
  ls <- mapExc (leadTime start) tzs ;;
  iso <- toISO start ;;
  Ok (mkSlot (text ++ " (" ++ userTz ++ ")") ls (linkOf userTz iso duration)).

(** The body of the loop over [hour]: what the iteration pushes. *)
Definition hourBody (userTz : string) (tzs : list ZoneArg) (duration : Num)
    (date : DateTime) (hour : Z) : Exc (list Slot) :=
  start <- set date hour 0 0 0 ;;
  end_ <- plusDuration start duration ;;
  if allOk start end_ tzs then
    slot <- slotObject userTz tzs duration start ;;
    Ok [slot]
  else Ok [].

(** [slots.push(slot)]: the push that would make the length 2^32 throws a
    RangeError. *)
Definition push (slots : list Slot) (slot : Slot) : Exc (list Slot) :=
  if 4294967295 <=? Z.of_nat (List.length slots)
  then Throw "Invalid array length"
  else Ok (slots ++ [slot])%list.

Fixpoint pushAll (slots pushed : list Slot) : Exc (list Slot) :=
  match pushed with
  | [] => Ok slots
  | slot :: r =>
      slots' <- push slots slot ;;
      pushAll slots' r
  end.

(** [for (...; hour <= bound; hour++) { ... }] from [hour] on, with the array
    [slots]: at most [fuel] tests of the condition are run.  [body hour]
    is what the iteration pushes. *)
Fixpoint hourLoop (fuel : nat) (hour : Z) (bound : Num)
    (body : Z -> Exc (list Slot)) (slots : list Slot)
  : option (Exc (list Slot)) :=
  match fuel with
  | O => None
  | S fuel' =>
      if leBound hour bound then
        match (pushed <- body hour ;; pushAll slots pushed) with
        | Ok slots' => hourLoop fuel' (increment hour) bound body slots'
        | Throw e => Some (Throw e)
        end
      else Some (Ok slots)
  end.

(** [for (let day = 0; day < 3; day++) { ... }] from the first of [days]
    on; each loop over [hour] has its own [fuel]. *)
Fixpoint dayLoop (fuel : nat) (days : list Z) (userTz : string)
    (tzs : list ZoneArg) (duration : Num) (zonedNow : DateTime)
    (slots : list Slot) : option (Exc (list Slot)) :=
  match days with
  | [] => Some (Ok slots)
  | day :: rest =>
      match plusDays zonedNow day with
      | Ok date =>
          match hourLoop fuel 9 (hourBound duration)
                         (hourBody userTz tzs duration date) slots with
          | Some (Ok slots') => dayLoop fuel rest userTz tzs duration zonedNow slots'
          | Some (Throw e) => Some (Throw e)
          | None => None
          end
      | Throw e => Some (Throw e)
      end
  end.

(** The search: [now] in the organizer's zone, then the two loops. *)
Definition search (fuel : nat) (userTz : string) (tzs : list ZoneArg)
    (duration : Num) : option (Exc (list Slot)) :=
  match (n <- now ;; setZone n (ZName userTz)) with
  | Ok zonedNow => dayLoop fuel [0; 1; 2] userTz tzs duration zonedNow []
  | Throw e => Some (Throw e)
  end.

(** The [try] block of the handler. *)
Definition tryBlock (fuel : nat) (req : Body) : option (Exc Response) :=
  if missing (userTimezone req) then
    Some (Ok (Json400 "Please provide your timezone."))
  else if missing (leadLocations req) then
    Some (Ok (Json400 "Please provide lead locations."))
  else
    let userTz := stringOf (userTimezone req) in
    match duration (callDuration req) with
    | Ok duration =>
        let tzs := resolvedTzs (stringOf (leadLocations req)) in
        if negb (validTzs userTz tzs) then
          Some (Ok (Json200 invalidTimezonesHtml EmptyString))
        else
          match search fuel userTz tzs duration with
          | Some (Ok slots) =>
              Some (Ok (Json200 (buildTable tzs slots) (meetingLinkOf slots)))
          | Some (Throw e) => Some (Throw e)
          | None => None
          end
    | Throw e => Some (Throw e)
    end.

(** The handler: the [try] block, and the [catch] that answers any
    exception with the server-error payload.  [None]: no response yet. *)
Definition handler (fuel : nat) (req : Body) : option Response :=
  match tryBlock fuel req with
  | Some (Ok response) => Some response
  | Some (Throw _) => Some (Json200 serverErrorHtml EmptyString)
  | None => None
  end.

(** *** The loops as lists

    For a finite duration the body of the loop over [hour], and the object
    it pushes. *)
Definition makeSlot (userTz : string) (tzs : list ZoneArg) (duration : Z)
    (start : DateTime) : Exc Slot :=
  text <- toFormat start slotFormat ;;
  ls <- mapExc (leadTime start) tzs ;;
  iso <- toISO start ;;
  Ok (mkSlot (text ++ " (" ++ userTz ++ ")") ls (bookingLink userTz iso duration)).

Definition tryHour (userTz : string) (tzs : list ZoneArg) (duration : Z)
    (date : DateTime) (hour : Z) : Exc (list Slot) :=
  start <- set date hour 0 0 0 ;;
  end_ <- plusMinutes start duration ;;
  if allOk start end_ tzs then
    slot <- makeSlot userTz tzs duration start ;;
    Ok [slot]
  else Ok [].

(** The body of the loop over [day], when the loop over [hour] visits the
    hours of [candidateHours]. *)
Definition tryDay (userTz : string) (tzs : list ZoneArg) (duration : Z)
    (zonedNow : DateTime) (day : Z) : Exc (list Slot) :=
  date <- plusDays zonedNow day ;;
  forEach (candidateHours duration) (tryHour userTz tzs duration date).

(** The search with its two loops as lists of days and hours. *)
Definition findSlots (userTz : string) (tzs : list ZoneArg) (duration : Z)
  : Exc (list Slot) :=
  n <- now ;;
  zonedNow <- setZone n (ZName userTz) ;;
  forEach [0; 1; 2] (tryDay userTz tzs duration zonedNow).

End Handler.

(** ** An instance of the library that runs

    A model of luxon restricted to the zones of the city table that keep one
    offset all year, and [UTC]: a zone is its offset from UTC in minutes, a
    DateTime an instant in epoch milliseconds with the zone it is read in.
    Every other identifier, and every inherited member, is an unsupported
    zone.  As in luxon, an unsupported zone gives an invalid DateTime, or
    an exception when [throwOnInvalid] is set.  An instant is an integer
    without bound: the instance does not model the end of the range of a
    Date, 8.64e15 milliseconds from the epoch. *)

Module FixedZones.

Definition zones : list (string * Z) :=
  [ ("UTC", 0);
    ("Asia/Kolkata", 330);
    ("Asia/Tokyo", 540);
    ("Asia/Singapore", 480);
    ("Asia/Dubai", 240);
    ("Asia/Shanghai", 480);
    ("Asia/Hong_Kong", 480);
    ("Asia/Seoul", 540);
    ("Europe/Istanbul", 180);
    ("Africa/Johannesburg", 120) ].

Fixpoint offsetOf (name : string) (table : list (string * Z)) : option Z :=
  match table with
  | [] => None
  | (k, off) :: r => if String.eqb k name then Some off else offsetOf name r
  end.

Record ZonedTime : Type := mkZoned {
  ts : Z;                        (* epoch milliseconds *)
  zone : option (string * Z)     (* name and offset; [None]: invalid *)
}.

(** The local wall clock, in milliseconds. *)
Definition localMillis (t off : Z) : Z := t + off * 60000.

Definition pad (width : nat) (n : Z) : string :=
  let digits := numberToString n in
  (fix zeros (k : nat) : string :=
     match k with
     | O => digits
     | S k' => String "0" (zeros k')
     end) (width - String.length digits)%nat.

(** Year, month and day of a day number counted from 1970-01-01. *)
Definition civil (days : Z) : Z * Z * Z :=
  let z := days + 719468 in
  let era := z / 146097 in
  let doe := z - era * 146097 in
  let yoe := (doe - doe / 1460 + doe / 36524 - doe / 146096) / 365 in
  let doy := doe - (365 * yoe + yoe / 4 - yoe / 100) in
  let mp := (5 * doy + 2) / 153 in
  let d := doy - (153 * mp + 2) / 5 + 1 in
  let m := if mp <? 10 then mp + 3 else mp - 9 in
  ((if m <=? 2 then yoe + era * 400 + 1 else yoe + era * 400), m, d).

Definition weekdayShort (days : Z) : string :=
  nth (Z.to_nat ((days + 4) mod 7))
      ["Sun"; "Mon"; "Tue"; "Wed"; "Thu"; "Fri"; "Sat"] EmptyString.

Definition monthShort (m : Z) : string :=
  nth (Z.to_nat (m - 1))
      ["Jan"; "Feb"; "Mar"; "Apr"; "May"; "Jun";
       "Jul"; "Aug"; "Sep"; "Oct"; "Nov"; "Dec"] EmptyString.

Definition hourOf (local : Z) : Z := (local / 3600000) mod 24.
Definition minuteOf (local : Z) : Z := (local / 60000) mod 60.
Definition secondOf (local : Z) : Z := (local / 1000) mod 60.
Definition milliOf (local : Z) : Z := local mod 1000.

(** The local wall clock as minutes after midnight. *)
Definition minuteOfDay (dt : ZonedTime) : option Z :=
  match zone dt with
  | Some (_, off) => Some ((localMillis (ts dt) off / 60000) mod 1440)
  | None => None
  end.

(** ['ccc, dd LLL yyyy HH:mm'] in the default (en-US) locale. *)
Definition formatSlot (local : Z) : string :=
  let days := local / 86400000 in
  let '(y, m, d) := civil days in
  weekdayShort days ++ ", " ++ pad 2 d ++ " " ++ monthShort m ++ " " ++ pad 4 y
  ++ " " ++ pad 2 (hourOf local) ++ ":" ++ pad 2 (minuteOf local).

Definition isoOffset (name : string) (off : Z) : string :=
  if String.eqb name "UTC" then "Z"
  else (if off <? 0 then "-" else "+")
       ++ pad 2 (Z.abs off / 60) ++ ":" ++ pad 2 (Z.abs off mod 60).

Definition formatISO (local : Z) (name : string) (off : Z) : string :=
  let '(y, m, d) := civil (local / 86400000) in
  pad 4 y ++ "-" ++ pad 2 m ++ "-" ++ pad 2 d ++ "T"
  ++ pad 2 (hourOf local) ++ ":" ++ pad 2 (minuteOf local) ++ ":"
  ++ pad 2 (secondOf local) ++ "." ++ pad 3 (milliOf local)
  ++ isoOffset name off.

Record Config : Type := mkConfig {
  clock : Z;                (* what [DateTime.now()] reads, epoch ms *)
  throwOnInvalid : bool     (* [Settings.throwOnInvalid] *)
}.

Section Instance.

Variable cfg : Config.

Definition fzNow : Exc ZonedTime := Ok (mkZoned (clock cfg) (Some ("UTC", 0))).

Definition fzSetZone (dt : ZonedTime) (tz : ZoneArg) : Exc ZonedTime :=
  match zone dt with
  | None => Ok dt
  | Some _ =>
      match (match tz with
             | ZName name => option_map (pair name) (offsetOf name zones)
             | ZInherited _ => None
             end) with
      | Some z => Ok (mkZoned (ts dt) (Some z))
      | None =>
          if throwOnInvalid cfg then Throw "Invalid DateTime: unsupported zone"
          else Ok (mkZoned (ts dt) None)
      end
  end.

Definition fzIsValid (dt : ZonedTime) : bool :=
  match zone dt with Some _ => true | None => false end.

(** With one offset all year a calendar day is 24 hours. *)
Definition fzPlusDays (dt : ZonedTime) (days : Z) : Exc ZonedTime :=
  match zone dt with
  | None => Ok dt
  | Some _ => Ok (mkZoned (ts dt + days * 86400000) (zone dt))
  end.

(** The fields of the local day replaced; a field out of its range carries
    over into the next unit, as in luxon. *)
Definition fzSet (dt : ZonedTime) (h mi s ms : Z) : Exc ZonedTime :=
  match zone dt with
  | None => Ok dt
  | Some (_, off) =>
      let day := localMillis (ts dt) off / 86400000 in
      let local := day * 86400000 + h * 3600000 + mi * 60000 + s * 1000 + ms in
      Ok (mkZoned (local - off * 60000) (zone dt))
  end.

Definition fzPlusMinutes (dt : ZonedTime) (minutes : Z) : Exc ZonedTime :=
  match zone dt with
  | None => Ok dt
  | Some _ => Ok (mkZoned (ts dt + minutes * 60000) (zone dt))
  end.

(** An infinite amount leaves no instant to read: the result is not a valid
    DateTime. *)
Definition fzPlusInfinite (dt : ZonedTime) (negative : bool) : Exc ZonedTime :=
  Ok (mkZoned (ts dt) None).

Definition fzHour (dt : ZonedTime) : option Z :=
  match zone dt with
  | Some (_, off) => Some (hourOf (localMillis (ts dt) off))
  | None => None
  end.

(** Only the handler's format string is supported. *)
Definition fzToFormat (dt : ZonedTime) (fmt : string) : Exc string :=
  match zone dt with
  | Some (_, off) =>
      if String.eqb fmt slotFormat then Ok (formatSlot (localMillis (ts dt) off))
      else Throw "unsupported format"
  | None => Ok "Invalid DateTime"
  end.

Definition fzToISO (dt : ZonedTime) : Exc (option string) :=
  match zone dt with
  | Some (name, off) => Ok (Some (formatISO (localMillis (ts dt) off) name off))
  | None => Ok None
  end.

Definition luxon : Luxon :=
  {| DateTime := ZonedTime;
     now := fzNow;
     setZone := fzSetZone;
     isValid := fzIsValid;
     plusDays := fzPlusDays;
     set := fzSet;
     plusMinutes := fzPlusMinutes;
     plusInfinite := fzPlusInfinite;
     hour := fzHour;
     toFormat := fzToFormat;
     toISO := fzToISO |}.

(** The same library with a formatter that fails. *)
Definition faultyLuxon : Luxon :=
  {| DateTime := ZonedTime;
     now := fzNow;
     setZone := fzSetZone;
     isValid := fzIsValid;
     plusDays := fzPlusDays;
     set := fzSet;
     plusMinutes := fzPlusMinutes;
     plusInfinite := fzPlusInfinite;
     hour := fzHour;
     toFormat := fun _ _ => Throw "TypeError: Cannot read properties of undefined (reading 'locale')";
     toISO := fzToISO |}.

End Instance.

(** The instant at which the candidate of day offset [day] and hour [h]
    starts, for an organizer whose zone has offset [off]. *)
Definition candidateStart (cfg : Config) (off day h : Z) : Z :=
  ((clock cfg + off * 60000) / 86400000 + day) * 86400000
  + h * 3600000 - off * 60000.

(** Monday 2 November 2026, 10:15:30.250 UTC. *)
Definition monday : Config := mkConfig 1793614530250 false.

Definition mondayStrict : Config := mkConfig 1793614530250 true.

End FixedZones.

(** ** Vocabulary of the statements *)

(** A request whose three fields are strings. *)
Definition stringRequest (tz locations callDuration : string) : Body :=
  mkBody (JString tz) (JString locations) (JString callDuration).

(** The candidates in the order the two loops visit them: day, then hour. *)
Definition candidates (duration : Z) : list (Z * Z) :=
  flat_map (fun day => map (pair day) (candidateHours duration)) [0; 1; 2].

(** Candidate [c1] comes before [c2]: an earlier day, or the same day and an
    earlier hour. *)
Definition before (c1 c2 : Z * Z) : Prop :=
  fst c1 < fst c2 \/ (fst c1 = fst c2 /\ snd c1 < snd c2).

(** A window from [startMin] to [endMin], in minutes after local midnight,
    lies inside the business envelope 09:00-17:00. *)
Definition insideEnvelope (startMin endMin : Z) : Prop :=
  9 * 60 <= startMin /\ startMin <= endMin /\ endMin <= 17 * 60.

(** [s.includes(c)] for one character. *)
Fixpoint contains (c : ascii) (s : string) : bool :=
  match s with
  | EmptyString => false
  | String c' r => Ascii.eqb c' c || contains c r
  end.

(** The slots of a search that returned; none if it threw. *)
Definition returned (r : Exc (list Slot)) : list Slot :=
  match r with
  | Ok slots => slots
  | Throw _ => []
  end.

(** The hours that the loop over [hour] visits up to [bound]; [None] when
    the condition [hour <= bound] can never fail. *)
Definition hoursUpTo (bound : Num) : option (list Z) :=
  match bound with
  | Fin b => if b <? twoTo53 then Some (hoursFromTo 9 b) else None
  | NegInf => Some []
  | PosInf => None
  end.

(** The candidates of three days with the hours [hours], in loop order. *)
Definition candidatesOver (hours : list Z) : list (Z * Z) :=
  flat_map (fun day => map (pair day) hours) [0; 1; 2].

(** A duration above 480 minutes. *)
Definition exceeds480 (duration : Num) : Prop :=
  match duration with
  | Fin d => 480 < d
  | PosInf => True
  | NegInf => False
  end.

(** The request [req] with [v] for its [callDuration]. *)
Definition withDuration (req : Body) (v : JsValue) : Body :=
  mkBody (userTimezone req) (leadLocations req) v.

(** The table of a search without a slot: the head, one cell for the
    organizer and one for each resolved zone, then the one row that spans
    them. *)
Definition emptyTable (tzs : list ZoneArg) : string :=
  html "<table style='width:100%;border-collapse:collapse;background:#fff;color:#333;'>"
  ++ "<tr>"
  ++ String.concat EmptyString
       (html "<th style='padding:8px;border-bottom:1px solid #ccc;'>Your Time</th>"
        :: map (fun itz =>
                  html "<th style='padding:8px;border-bottom:1px solid #ccc;'>Lead "
                  ++ numberToString (Z.of_nat (fst itz) + 1) ++ " (" ++ zoneText (snd itz) ++ ")</th>")
               (combine (seq 0 (List.length tzs)) tzs))
  ++ "</tr>"
  ++ html "<tr><td colspan='" ++ numberToString (1 + Z.of_nat (List.length tzs))
  ++ html "' style='padding:12px;color:#ff5252;text-align:center;'>No overlapping slots found for the next 3 days.</td></tr>"
  ++ "</table>".

Section Vocabulary.

Context {L : Luxon}.

(** What the loops do at one candidate. *)
Definition slotAt (userTz : string) (tzs : list ZoneArg) (duration : Z)
    (zonedNow : DateTime) (c : Z * Z) : Exc (list Slot) :=
  date <- plusDays zonedNow (fst c) ;;
  tryHour userTz tzs duration date (snd c).

(** The same for a duration that may be infinite. *)
Definition pushedAt (userTz : string) (tzs : list ZoneArg) (duration : Num)
    (zonedNow : DateTime) (c : Z * Z) : Exc (list Slot) :=
  date <- plusDays zonedNow (fst c) ;;
  hourBody userTz tzs duration date (snd c).

(** [start] and [end_] are the two ends of the candidate [(day, hour)]. *)
Definition candidateWindow (userTz : string) (duration : Z) (c : Z * Z)
    (start end_ : DateTime) : Prop :=
  exists n zonedNow date,
    now = Ok n /\ setZone n (ZName userTz) = Ok zonedNow /\
    plusDays zonedNow (fst c) = Ok date /\
    set date (snd c) 0 0 0 = Ok start /\
    plusMinutes start duration = Ok end_.


(** [slot] is the object the loops push for the candidate [c], which is
    accepted for every participant. *)
Definition acceptedSlot (userTz : string) (tzs : list ZoneArg) (duration : Z)
    (c : Z * Z) (slot : Slot) : Prop :=
  exists start end_,
    candidateWindow userTz duration c start end_ /\
    allOk start end_ tzs = true /\ makeSlot userTz tzs duration start = Ok slot.

End Vocabulary.

(** ** Dynamic values

    What the reply of the text-generation service, the body of one of its
    error responses, or a parsed JSON text can hold, with [undefined] for
    what a property read can give.  Numbers are integers.  An object holds
    each key once. *)

Module Dyn.

#[warnings="-register-all"]
Inductive Json : Type :=
| VUndefined
| VNull
| VBool (b : bool)
| VNumber (n : Z)
| VString (s : string)
| VArray (elems : list Json)
| VObject (fields : list (string * Json)).

(** ToBoolean. *)
Definition truthyV (v : Json) : bool :=
  match v with
  | VUndefined | VNull => false
  | VBool b => b
  | VNumber n => negb (n =? 0)
  | VString s => nonEmpty s
  | VArray _ | VObject _ => true
  end.

Fixpoint ownField (key : string) (fields : list (string * Json)) : option Json :=
  match fields with
  | [] => None
  | (k, v) :: r => if String.eqb k key then Some v else ownField key r
  end.

(** A property name that is a canonical array index. *)
Definition arrayIndex (key : string) : option nat :=
  match readDigits key 0 false with
  | Some n => if String.eqb (numberToString n) key then Some (Z.to_nat n) else None
  | None => None
  end.

(** [v[key]] and [v.key], for the keys the handlers read: [length], an
    index, and names that no prototype defines.  Reading a property of
    [undefined] or [null] is a TypeError, with the message of V8. *)
Definition getProp (v : Json) (key : string) : Exc Json :=
  match v with
  | VUndefined =>
      Throw ("Cannot read properties of undefined (reading '" ++ key ++ "')")
  | VNull =>
      Throw ("Cannot read properties of null (reading '" ++ key ++ "')")
  | VObject fields =>
      Ok (match ownField key fields with Some x => x | None => VUndefined end)
  | VArray elems =>
      Ok (if String.eqb key "length" then VNumber (Z.of_nat (List.length elems))
          else match arrayIndex key with
               | Some i => nth i elems VUndefined
               | None => VUndefined
               end)
  | VString s =>
      Ok (if String.eqb key "length" then VNumber (Z.of_nat (String.length s))
          else match arrayIndex key with
               | Some i =>
                   match String.get i s with
                   | Some c => VString (String c EmptyString)
                   | None => VUndefined
                   end
               | None => VUndefined
               end)
  | VBool _ | VNumber _ => Ok VUndefined
  end.

(** [v?.key] *)
Definition optProp (v : Json) (key : string) : Json :=
  match getProp v key with
  | Ok x => x
  | Throw _ => VUndefined
  end.

(** [v === 0] *)
Definition isZero (v : Json) : bool :=
  match v with
  | VNumber n => n =? 0
  | _ => false
  end.

(** ToString, as a template literal applies it.  An object with an own
    [toString] field, which is never callable in parsed JSON, has no
    primitive value; any other object is ["[object Object]"]. *)
Fixpoint toStringV (v : Json) : Exc string :=
  match v with
  | VUndefined => Ok "undefined"
  | VNull => Ok "null"
  | VBool true => Ok "true"
  | VBool false => Ok "false"
  | VNumber n => Ok (numberToString n)
  | VString s => Ok s
  | VArray elems =>
      (fix join (l : list Json) : Exc string :=
         match l with
         | [] => Ok EmptyString
         | x :: r =>
             sx <- match x with
                   | VUndefined | VNull => Ok EmptyString
                   | _ => toStringV x
                   end ;;
             match r with
             | [] => Ok sx
             | _ => rest <- join r ;; Ok (sx ++ "," ++ rest)
             end
         end) elems
  | VObject fields =>
      match ownField "toString" fields with
      | Some _ => Throw "Cannot convert object to primitive value"
      | None => Ok "[object Object]"
      end
  end.

End Dyn.

Import Dyn.

(** [s.startsWith(k)] *)
Fixpoint startsWith (s k : string) {struct k} : bool :=
  match k with
  | EmptyString => true
  | String a k' =>
      match s with
      | EmptyString => false
      | String b s' => Ascii.eqb a b && startsWith s' k'
      end
  end.

(** [s.includes(k)] *)
Fixpoint includes (s k : string) : bool :=
  startsWith s k
  || match s with
     | EmptyString => false
     | String _ r => includes r k
     end.

(** [s.substring(0, n)] *)
Fixpoint substring0 (n : nat) (s : string) : string :=
  match n, s with
  | S n', String c r => String c (substring0 n' r)
  | _, _ => EmptyString
  end.

(** ** POST /generate-mail

    [axios.post] is the service: [post] gives, for the prompt text sent,
    the response data it resolves with or the error it rejects with.
    [timestamp] is what [new Date().toISOString()] gives. *)

Module Mail.

(** What the [catch] blocks read of a thrown value: an axios error has a
    [response] with status and data, or a [code]; an [Error] or TypeError
    raised in the [try] block has a [message] only. *)
Record Thrown : Type := mkThrown {
  message : string;
  code : option string;
  response : option (Z * Json)
}.

Definition newError (msg : string) : Thrown := mkThrown msg None None.

Inductive Upstream : Type :=
| Resolved (data : Json)
| Rejected (error : Thrown).

Inductive Response : Type :=
| Success (generatedEmail timestamp : string)
| Failure (status : Z) (error : string) (timestamp : option string).

Definition emailPrompt (userPrompt : string) : string :=
  "You are a professional email writing assistant. Based on the following brief/topic, write a clear, professional, and well-structured email.

Email Brief: " ++ userPrompt ++ "

Requirements:
1. Write a complete email with appropriate subject line
2. Use professional yet friendly tone
3. Keep it concise but comprehensive
4. Include proper email structure (greeting, body, closing)
5. Make sure the content is relevant to the brief provided
6. Do not include placeholder text like [Your Name] or [Company Name] - use generic professional signatures

Format the response as a complete email that can be sent directly.".

(** [generatedText.trim()] on a truthy value. *)
Definition callTrim (v : Json) : Exc string :=
  match v with
  | VString s => Ok (trim s)
  | _ => Throw "generatedText.trim is not a function"
  end.

(** The [try] block of [generateEmailWithGemini] after the request
    resolved with [data]. *)
Definition extractEmail (data : Json) : Exc string :=
  if negb (truthyV data) then Throw "Invalid response from Gemini API" else
  candidates <- getProp data "candidates" ;;
  if negb (truthyV candidates) then Throw "Invalid response from Gemini API" else
  len <- getProp candidates "length" ;;
  if isZero len then Throw "Invalid response from Gemini API" else
  candidate <- getProp candidates "0" ;;
  content <- getProp candidate "content" ;;
  if negb (truthyV content) then Throw "No content generated by Gemini API" else
  parts <- getProp content "parts" ;;
  if negb (truthyV parts) then Throw "No content generated by Gemini API" else
  partsLen <- getProp parts "length" ;;
  if isZero partsLen then Throw "No content generated by Gemini API" else
  part <- getProp parts "0" ;;
  generatedText <- getProp part "text" ;;
  if negb (truthyV generatedText) then Throw "Empty response from Gemini API" else
  trimmed <- callTrim generatedText ;;
  if (String.length trimmed =? 0)%nat then Throw "Empty response from Gemini API"
  else Ok trimmed.

(** [error.response.data?.error?.message || 'Unknown API error'] *)
Definition errorMessageOf (data : Json) : Json :=
  let m := optProp (optProp data "error") "message" in
  if truthyV m then m else VString "Unknown API error".

(** The message of the [Error] that the [catch] block of
    [generateEmailWithGemini] throws for [error]; when a template literal
    cannot convert [errorMessage], the TypeError of that conversion. *)
Definition rethrown (error : Thrown) : string :=
  match response error with
  | Some (status, data) =>
      let errorMessage := errorMessageOf data in
      if status =? 400 then
        match toStringV errorMessage with
        | Ok text => "Invalid request to AI service: " ++ text
        | Throw typeError => typeError
        end
      else if (status =? 401) || (status =? 403) then
        "API key authentication failed"
      else if status =? 429 then
        "Rate limit exceeded for AI service"
      else
        match toStringV errorMessage with
        | Ok text =>
            "AI service error (" ++ numberToString status ++ "): " ++ text
        | Throw typeError => typeError
        end
  | None =>
      match code error with
      | Some c =>
          if String.eqb c "ENOTFOUND" || String.eqb c "ECONNREFUSED" then
            "Network error: Unable to connect to AI service"
          else if String.eqb c "ETIMEDOUT" then
            "Request timeout: AI service took too long to respond"
          else "Unexpected error: " ++ message error
      | None => "Unexpected error: " ++ message error
      end
  end.

(** [generateEmailWithGemini(userPrompt)]: the text, or the message of the
    error it throws. *)
Definition generateEmailWithGemini (post : string -> Upstream)
    (userPrompt : string) : Exc string :=
  match post (emailPrompt userPrompt) with
  | Resolved data =>
      match extractEmail data with
      | Ok text => Ok text
      | Throw msg => Throw (rethrown (newError msg))
      end
  | Rejected error => Throw (rethrown error)
  end.

(** The [catch] block of the handler. *)
Definition answerError (timestamp : string) (msg : string) : Response :=
  if includes msg "API key" then
    Failure 500 "API configuration error. Please check server settings." None
  else if includes msg "rate limit" || includes msg "quota" then
    Failure 429 "Service temporarily unavailable due to high demand. Please try again later." None
  else if includes msg "network" || includes msg "timeout" then
    Failure 503 "Service temporarily unavailable. Please try again in a moment." None
  else
    Failure 500 "Failed to generate email. Please try again." (Some timestamp).

(** [typeof v === 'string'] *)
Definition isString (v : JsValue) : bool :=
  match v with
  | JString _ => true
  | _ => false
  end.

(** The handler of [POST /generate-mail]. *)
Definition handler (post : string -> Upstream) (timestamp : string)
    (userPrompt : JsValue) : Response :=
  if negb (truthy userPrompt) || negb (isString userPrompt) then
    Failure 400 "Invalid input. Please provide a userPrompt string." None
  else
    let prompt := stringOf userPrompt in
    if (String.length (trim prompt) =? 0)%nat then
      Failure 400 "Email prompt cannot be empty." None
    else if (2000 <? String.length prompt)%nat then
      Failure 400 "Email prompt is too long. Please keep it under 2000 characters." None
    else
      match generateEmailWithGemini post (trim prompt) with
      | Ok generatedEmail => Success generatedEmail timestamp
      | Throw msg => answerError timestamp msg
      end.

End Mail.

(** ** What the other endpoints do with a reply *)

Module Replies.

(** [/```json|```/gi] matches at the head of [s]. *)
Definition fenceAt (s : string) : bool := startsWith s "```".

(** After a fence, the word [json] in any casing belongs to the match. *)
Definition jsonAt (s : string) : bool :=
  String.eqb (toLowerCase (substring0 4 s)) "json".

Fixpoint drop (n : nat) (s : string) : string :=
  match n, s with
  | S n', String _ r => drop n' r
  | _, _ => s
  end.

(** [text.replace(/```json|```/gi, '')], with [skip] code units of the
    current match still to drop: the scan goes left to right, and at each
    fence the longer alternative is tried first. *)
Fixpoint stripFences (skip : nat) (s : string) : string :=
  match s with
  | EmptyString => EmptyString
  | String c r =>
      match skip with
      | S k => stripFences k r
      | O =>
          if fenceAt s
          then stripFences (if jsonAt (drop 3 s) then 6 else 2) r
          else String c (stripFences O r)
      end
  end.

Definition stripCodeFences (text : string) : string := stripFences 0 text.

(** The longest prefix of [s] that ends with a closing brace. *)
Fixpoint upToLastClose (s : string) : option string :=
  match s with
  | EmptyString => None
  | String c r =>
      match upToLastClose r with
      | Some p => Some (String c p)
      | None => if Ascii.eqb c "}" then Some (String c EmptyString) else None
      end
  end.

(** [text.match(/{[\s\S]*}/)]: the match, from the first opening brace to
    the last closing brace after it; [None] is null. *)
Fixpoint matchBraces (s : string) : option string :=
  match s with
  | EmptyString => None
  | String c r =>
      if Ascii.eqb c "{" then option_map (String c) (upToLastClose r)
      else matchBraces r
  end.

(** The [try] block that parses the reply text, and its [catch]: [parse] is
    [JSON.parse]; [fenced] tells whether the helper strips code fences and
    trims first, as the later helpers do. *)
Definition parseReply (parse : string -> Exc Json) (fenced : bool)
    (text : Json) : Exc Json :=
  match (match text with
         | VString s =>
             match matchBraces (if fenced then trim (stripCodeFences s) else s) with
             | Some span => parse span
             | None => Throw "No JSON object found in Gemini response."
             end
         | VUndefined | VNull =>
             Throw "Cannot read properties of undefined"
         | _ => Throw "text.match is not a function"
         end) with
  | Ok result => Ok result
  | Throw _ => Throw "Failed to parse Gemini response as JSON."
  end.

(** [text.length > 300 ? text.substring(0, 297) + '...' : text], for a
    message whose [text] is a string. *)
Definition truncateText (text : string) : string :=
  if (300 <? String.length text)%nat then substring0 297 text ++ "..."
  else text.

End Replies.

(** ** POST /select-outreach-channels

    [select] is [selectOutreachChannelsWithGemini], which calls the
    service: its result, or the error it throws. *)

Module Outreach.

Inductive Response : Type :=
| Sent (result : Json)
| Refused (status : Z) (error : string).

(** [v.trim()] on a truthy value. *)
Definition callTrim (name : string) (v : JsValue) : Exc string :=
  match v with
  | JString s => Ok (trim s)
  | _ => Throw (name ++ ".trim is not a function")
  end.

(** [v?.trim() || ''] *)
Definition trimOrEmpty (name : string) (v : JsValue) : Exc string :=
  match v with
  | JUndefined | JNull => Ok EmptyString
  | JString s => Ok (trim s)
  | _ => Throw (name ++ "?.trim is not a function")
  end.

Definition tryBlock (select : string -> string -> string -> string -> Exc Json)
    (leadRole leadLocation productService outreachGoal : JsValue)
  : Exc Response :=
  if negb (truthy leadRole) || negb (truthy productService)
     || negb (truthy outreachGoal)
  then Ok (Refused 400 "Missing required fields")
  else
    role <- callTrim "leadRole" leadRole ;;
    location <- trimOrEmpty "leadLocation" leadLocation ;;
    product <- callTrim "productService" productService ;;
    goal <- callTrim "outreachGoal" outreachGoal ;;
    result <- select role location product goal ;;
    Ok (Sent result).

Definition handler (select : string -> string -> string -> string -> Exc Json)
    (leadRole leadLocation productService outreachGoal : JsValue) : Response :=
  match tryBlock select leadRole leadLocation productService outreachGoal with
  | Ok response => response
  | Throw _ => Refused 500 "Failed to get channel recommendations."
  end.

End Outreach.

(** ** The built-ins on small inputs *)

Example numberToString_runs :
  numberToString 0 = "0" /\ numberToString (-45) = "-45" /\
  numberToString (10 ^ 21) = "1e+21" /\
  numberToString (10 ^ 20) = "100000000000000000000" /\
  numberToString (2 ^ 60) = "1152921504606847000" /\
  numberToString (2 ^ 70) = "1.1805916207174113e+21" /\
  numberToString (2 ^ 53 + 1) = "9007199254740992" /\
  numberToString (- (10 ^ 23)) = "-1e+23" /\
  numberToString (10 ^ 400) = "Infinity".
Proof. repeat split; vm_compute; reflexivity. Qed.

Example parseInt10_runs :
  parseInt10 (JString " 42px") = Ok (Some (Fin 42)) /\
  parseInt10 (JString "-7.9") = Ok (Some (Fin (-7))) /\
  parseInt10 (JString "abc") = Ok None /\
  parseInt10 (JString "-") = Ok None /\
  parseInt10 JNull = Ok None /\
  parseInt10 (JArray [JNumber 45; JString "x"]) = Ok (Some (Fin 45)) /\
  parseInt10 (JNumber (10 ^ 21)) = Ok (Some (Fin 1)) /\
  parseInt10 (JString "9007199254740993") = Ok (Some (Fin 9007199254740992)) /\
  parseInt10 (JObject [("minutes", JNumber 45)]) = Ok None /\
  parseInt10 (JObject [("toString", JNumber 1)])
  = Throw "Cannot convert object to primitive value" /\
  parseInt10 (JArray [JNumber 0; JObject [("toString", JNull)]])
  = Throw "Cannot convert object to primitive value".
Proof. repeat split; vm_compute; reflexivity. Qed.

Example duration_runs :
  duration (JString "90") = Ok (Fin 90) /\ duration (JNumber 0) = Ok (Fin 30) /\
  duration JUndefined = Ok (Fin 30) /\ duration (JString "-60") = Ok (Fin (-60)) /\
  duration (JString "-0") = Ok (Fin 30) /\
  duration (JString ("-1" ++ zeros 400)) = Ok NegInf.
Proof. repeat split; vm_compute; reflexivity. Qed.

Example hourBound_runs :
  hourBound (Fin 30) = Fin 16 /\ hourBound (Fin 480) = Fin 9 /\
  hourBound (Fin 481) = Fin 8 /\ hourBound (Fin (-60)) = Fin 18 /\
  hourBound (Fin (- (10 ^ 20))) = Fin 1666666666666666752 /\
  hourBound NegInf = PosInf /\ hourBound PosInf = NegInf /\
  hoursUpTo (hourBound (Fin (- (10 ^ 20)))) = None /\
  hoursUpTo (hourBound (Fin 90)) = Some [9; 10; 11; 12; 13; 14; 15].
Proof. repeat split; vm_compute; reflexivity. Qed.

Example candidateHours_runs :
  candidateHours 30 = [9; 10; 11; 12; 13; 14; 15; 16] /\
  candidateHours 90 = [9; 10; 11; 12; 13; 14; 15] /\
  candidateHours 480 = [9] /\ candidateHours 481 = [].
Proof. repeat split; reflexivity. Qed.

Example leadTzs_runs :
  leadTzs " London , ,TOKYO,Asia/Dubai, " = ["London"; "TOKYO"; "Asia/Dubai"] /\
  resolvedTzs " London , ,TOKYO,Asia/Dubai, "
  = [ZName "Europe/London"; ZName "Asia/Tokyo"; ZName "Asia/Dubai"].
Proof. split; reflexivity. Qed.

Example encodeURIComponent_runs :
  encodeURIComponent "America/New_York" = "America%2FNew_York" /\
  encodeURIComponent "2026-11-02T09:00:00.000+05:30"
  = "2026-11-02T09%3A00%3A00.000%2B05%3A30".
Proof. split; reflexivity. Qed.

Example fixed_zone_formats :
  FixedZones.formatSlot 0 = "Thu, 01 Jan 1970 00:00" /\
  FixedZones.formatSlot 951827696000 = "Tue, 29 Feb 2000 12:34" /\
  FixedZones.formatISO (FixedZones.localMillis 1793614530250 330) "Asia/Kolkata" 330
  = "2026-11-02T15:45:30.250+05:30".
Proof. repeat split; reflexivity. Qed.

Example handler_runs :
  let L := FixedZones.luxon FixedZones.monday in
  handler 9 (mkBody (JString "UTC") (JString "tokyo") (JString "481"))
  = Some (Json200 (emptyTable [ZName "Asia/Tokyo"]) EmptyString) /\
  handler 9 (mkBody (JString "UTC") (JString "constructor, tokyo") (JString "481"))
  = Some (Json200 invalidTimezonesHtml EmptyString) /\
  handler 0 (mkBody (JString "UTC") (JString "tokyo") (JObject [("toString", JNumber 1)]))
  = Some (Json200 serverErrorHtml EmptyString) /\
  handler 8 (mkBody (JString "UTC") (JString "tokyo") (JString "30")) = None /\
  buildTable [ZName "Asia/Tokyo"; ZName "x"] [] = emptyTable [ZName "Asia/Tokyo"; ZName "x"].
Proof. repeat split; vm_compute; reflexivity. Qed.

(** ** Loops and binds *)

Lemma bind_Ok {A B : Type} (m : Exc A) (k : A -> Exc B) (b : B) :
  bind m k = Ok b <-> exists a, m = Ok a /\ k a = Ok b.
Proof.
  destruct m as [a | e]; simpl; split.
  - intros Hk. exists a. auto.
  - intros [a' [Ha Hk]]. inversion Ha; subst. exact Hk.
  - discriminate.
  - intros [a' [Ha _]]. discriminate.
Qed.

Lemma returned_Ok (r : Exc (list Slot)) (slot : Slot) (rest : list Slot) :
  returned r = slot :: rest -> r = Ok (slot :: rest).
Proof.
  destruct r as [slots | e]; simpl; [intros -> | discriminate]. reflexivity.
Qed.

Lemma forEach_Ok {A B : Type} (body : A -> Exc (list B)) (l : list A) (out : list B) :
  forEach l body = Ok out <->
  exists outs, Forall2 (fun a o => body a = Ok o) l outs /\ out = List.concat outs.
Proof.
  revert out. induction l as [| a r IH]; intros out; simpl.
  - split.
    + intros H. inversion H; subst. exists []. split; [constructor | reflexivity].
    + intros [outs [HF Hout]]. inversion HF; subst. reflexivity.
  - rewrite bind_Ok. split.
    + intros [pushed [Ha Hrest]].
      apply bind_Ok in Hrest. destruct Hrest as [rest [Hr Hout]].
      inversion Hout; subst.
      apply IH in Hr. destruct Hr as [outs [HF ->]].
      exists (pushed :: outs). split; [constructor; assumption | reflexivity].
    + intros [outs [HF ->]]. inversion HF as [| a' o l' outs' Ha HF' ]; subst.
      exists o. split; [assumption |].
      apply bind_Ok. exists (List.concat outs'). split; [| reflexivity].
      apply IH. exists outs'. auto.
Qed.

Lemma mapExc_Ok {A B : Type} (f : A -> Exc B) (l : list A) (out : list B) :
  mapExc f l = Ok out <-> Forall2 (fun a b => f a = Ok b) l out.
Proof.
  revert out. induction l as [| a r IH]; intros out; simpl.
  - split; intros H; inversion H; subst; [constructor | reflexivity].
  - rewrite bind_Ok. split.
    + intros [b [Hb Hrest]]. apply bind_Ok in Hrest.
      destruct Hrest as [bs [Hbs Hout]]. inversion Hout; subst.
      constructor; [assumption | apply IH; assumption].
    + intros HF. inversion HF as [| a' b l' bs Hb HF']; subst.
      exists b. split; [assumption |]. apply bind_Ok.
      exists bs. split; [apply IH; assumption | reflexivity].
Qed.

Lemma Forall2_flat_map {A B C : Type} (R : B -> list C -> Prop) (g : A -> list B)
    (l : list A) (outs : list (list C)) :
  Forall2 (fun a o => exists os, Forall2 R (g a) os /\ o = List.concat os) l outs ->
  exists os, Forall2 R (flat_map g l) os /\ List.concat outs = List.concat os.
Proof.
  induction 1 as [| a o l' outs' [os [HR ->]] _ [os' [HR' Heq]]]; simpl.
  - exists []. split; [constructor | reflexivity].
  - exists (os ++ os')%list. split.
    + apply Forall2_app; assumption.
    + rewrite concat_app, Heq. reflexivity.
Qed.

Lemma Forall2_In_r {A B : Type} (R : A -> B -> Prop) (l : list A) (outs : list B) (o : B) :
  Forall2 R l outs -> In o outs -> exists a, In a l /\ R a o.
Proof.
  induction 1 as [| a o' l' outs' Ha _ IH]; simpl; [contradiction |].
  intros [-> | Hin].
  - exists a. auto.
  - destruct (IH Hin) as [a' [Ha' HR]]. exists a'. auto.
Qed.

(** The first element pushed comes from the first iteration that pushed
    anything. *)
Lemma Forall2_concat_head {A B : Type} (R : A -> list B -> Prop)
    (l : list A) (outs : list (list B)) (first : B) (rest : list B) :
  Forall2 R l outs -> List.concat outs = first :: rest ->
  exists pre a post o,
    l = (pre ++ a :: post)%list /\ R a (first :: o) /\
    forall a', In a' pre -> R a' [].
Proof.
  induction 1 as [| a o l' outs' Ha _ IH]; simpl; [discriminate |].
  destruct o as [| b o'].
  - simpl. intros Heq. destruct (IH Heq) as [pre [a' [post [o [-> [HR Hpre]]]]]].
    exists (a :: pre), a', post, o. repeat split; auto.
    intros x [<- | Hx]; auto.
  - simpl. intros Heq. inversion Heq; subst.
    exists [], a, l', o'. repeat split; auto. intros x [].
Qed.

(** ** The table without a slot *)

Lemma append_assoc (a b c : string) : (a ++ b) ++ c = a ++ (b ++ c).
Proof. induction a as [| x a IH]; simpl; [reflexivity | rewrite IH; reflexivity]. Qed.

Lemma append_empty_r (a : string) : a ++ EmptyString = a.
Proof. induction a as [| x a IH]; simpl; [reflexivity | rewrite IH; reflexivity]. Qed.

Lemma concat_empty_cons (x : string) (l : list string) :
  String.concat EmptyString (x :: l) = x ++ String.concat EmptyString l.
Proof.
  destruct l as [| y l]; simpl; [rewrite append_empty_r |]; reflexivity.
Qed.

Lemma leadHeaders_cells (k : nat) (tzs : list ZoneArg) :
  leadHeaders (Z.of_nat k) tzs
  = String.concat EmptyString
      (map (fun itz =>
              html "<th style='padding:8px;border-bottom:1px solid #ccc;'>Lead "
              ++ numberToString (Z.of_nat (fst itz) + 1) ++ " (" ++ zoneText (snd itz) ++ ")</th>")
           (combine (seq k (List.length tzs)) tzs)).
Proof.
  revert k. induction tzs as [| tz r IH]; intros k; [reflexivity |].
  cbn [leadHeaders List.length seq combine map]. rewrite concat_empty_cons.
  cbn [fst snd].
  replace (Z.of_nat k + 1) with (Z.of_nat (S k)) by lia.
  rewrite (IH (S k)). rewrite !append_assoc. reflexivity.
Qed.

(** The table of a search without a slot is the table spelled out in
    [emptyTable]. *)
Lemma buildTable_empty (tzs : list ZoneArg) : buildTable tzs [] = emptyTable tzs.
Proof.
  unfold buildTable, emptyTable, tableHead, tableOpen, emptyRow.
  rewrite concat_empty_cons.
  change (leadHeaders 0 tzs) with (leadHeaders (Z.of_nat 0) tzs).
  rewrite (leadHeaders_cells 0 tzs). rewrite !append_assoc. reflexivity.
Qed.

(** ** The candidate hours *)

Lemma hoursFromTo_In (lo hi h : Z) :
  In h (hoursFromTo lo hi) <-> lo <= h <= hi.
Proof.
  unfold hoursFromTo. rewrite in_map_iff. split.
  - intros [i [<- Hi]]. apply in_seq in Hi. lia.
  - intros Hh. exists (Z.to_nat (h - lo)). split; [lia |].
    apply in_seq. lia.
Qed.

Lemma hoursFromTo_sorted (lo hi : Z) :
  StronglySorted Z.lt (hoursFromTo lo hi).
Proof.
  unfold hoursFromTo. generalize (Z.to_nat (hi + 1 - lo)) as n. generalize 0%nat as k.
  intros k n. revert k. induction n as [| n IH]; intros k; simpl.
  - constructor.
  - constructor; [apply IH |].
    apply Forall_forall. intros x Hx. apply in_map_iff in Hx.
    destruct Hx as [i [<- Hi]]. apply in_seq in Hi. lia.
Qed.

Lemma ceilDiv_60_bounds (d : Z) :
  d <= 60 * ceilDiv d 60 < d + 60.
Proof.
  unfold ceilDiv.
  pose proof (Z.div_mod (- d) 60 ltac:(lia)) as Hdm.
  pose proof (Z.mod_pos_bound (- d) 60 ltac:(lia)) as Hb.
  lia.
Qed.

Lemma candidateHours_In (d h : Z) :
  In h (candidateHours d) <-> 9 <= h <= 17 - ceilDiv d 60.
Proof. apply hoursFromTo_In. Qed.

Lemma candidateHours_empty (d : Z) :
  candidateHours d = [] <-> 480 < d.
Proof.
  pose proof (ceilDiv_60_bounds d) as Hc. split.
  - intros He.
    destruct (Z_lt_le_dec 480 d) as [Hlt | Hle]; [assumption | exfalso].
    assert (Hin : In 9 (candidateHours d)) by (apply candidateHours_In; lia).
    rewrite He in Hin. exact Hin.
  - intros Hd. unfold candidateHours, hoursFromTo.
    replace (Z.to_nat (17 - ceilDiv d 60 + 1 - 9)) with 0%nat by lia.
    reflexivity.
Qed.

Lemma candidates_In (d day h : Z) :
  In (day, h) (candidates d) <-> In day [0; 1; 2] /\ In h (candidateHours d).
Proof.
  unfold candidates. rewrite in_flat_map. split.
  - intros [day' [Hday Hin]]. apply in_map_iff in Hin.
    destruct Hin as [h' [Heq Hh]]. inversion Heq; subst. auto.
  - intros [Hday Hh]. exists day. split; [assumption |].
    apply in_map_iff. exists h. auto.
Qed.

Lemma StronglySorted_app {A : Type} (R : A -> A -> Prop) (l1 l2 : list A) :
  StronglySorted R l1 -> StronglySorted R l2 ->
  (forall x y, In x l1 -> In y l2 -> R x y) ->
  StronglySorted R (l1 ++ l2).
Proof.
  induction l1 as [| a r IH]; simpl; intros H1 H2 Hcross; [assumption |].
  inversion H1 as [| a' r' Hr Ha]; subst.
  constructor.
  - apply IH; auto.
  - apply Forall_app. split; [assumption |].
    apply Forall_forall. intros y Hy. apply Hcross; auto.
Qed.

Lemma day_hours_sorted (day : Z) (hs : list Z) :
  StronglySorted Z.lt hs -> StronglySorted before (map (pair day) hs).
Proof.
  induction 1 as [| h r Hr IH Hh]; simpl; constructor; [assumption |].
  apply Forall_forall. intros c Hc. apply in_map_iff in Hc.
  destruct Hc as [h' [<- Hh']]. right. simpl. split; [reflexivity |].
  rewrite Forall_forall in Hh. auto.
Qed.

(** The loops visit the candidates day-major, then hour-minor. *)
Lemma candidates_sorted (d : Z) : StronglySorted before (candidates d).
Proof.
  pose proof (hoursFromTo_sorted 9 (17 - ceilDiv d 60)) as Hs.
  fold (candidateHours d) in Hs.
  assert (Hcross : forall day1 day2 x y, day1 < day2 ->
            In x (map (pair day1) (candidateHours d)) ->
            In y (map (pair day2) (candidateHours d)) -> before x y).
  { intros day1 day2 x y Hlt Hx Hy.
    apply in_map_iff in Hx. destruct Hx as [hx [<- _]].
    apply in_map_iff in Hy. destruct Hy as [hy [<- _]].
    left. exact Hlt. }
  unfold candidates. simpl. rewrite app_nil_r.
  apply StronglySorted_app; [apply day_hours_sorted; exact Hs | |].
  - apply StronglySorted_app; try (apply day_hours_sorted; exact Hs).
    intros x y. apply Hcross. lia.
  - intros x y Hx Hy. apply in_app_or in Hy.
    destruct Hy as [Hy | Hy]; [apply (Hcross 0 1) | apply (Hcross 0 2)];
      auto; lia.
Qed.

(** ** Rounding to a double *)

Lemma twoTo53_value : twoTo53 = 9007199254740992.
Proof. reflexivity. Qed.

Lemma roundHalfEven_bounds (n d : Z) :
  0 < d ->
  2 * d * roundHalfEven n d - d <= 2 * n <= 2 * d * roundHalfEven n d + d.
Proof.
  intros Hd. unfold roundHalfEven.
  pose proof (Z.div_mod n d ltac:(lia)) as Hdm.
  pose proof (Z.mod_pos_bound n d Hd) as Hb.
  destruct (2 * (n mod d) <? d) eqn:H1; [apply Z.ltb_lt in H1; nia |].
  apply Z.ltb_ge in H1.
  destruct (d <? 2 * (n mod d)) eqn:H2; [apply Z.ltb_lt in H2; nia |].
  apply Z.ltb_ge in H2.
  destruct (Z.even (n / d)); nia.
Qed.

(** An integer below 2^53 in magnitude is a Number as it is. *)
Lemma toNumber_small (m : Z) : Z.abs m < twoTo53 -> toNumber m = Fin m.
Proof.
  intros Hm. unfold toNumber.
  assert (He : Z.log2 (Z.abs m) - 52 <= 0).
  { destruct (Z.eq_dec (Z.abs m) 0) as [-> | Hnz]; [simpl; lia |].
    assert (Z.log2 (Z.abs m) < 53); [| lia].
    apply Z.log2_lt_pow2; [lia |]. exact Hm. }
  apply Z.leb_le in He. rewrite He. reflexivity.
Qed.

(** What a Number keeps of the integer: its sign, and at least 2^53 of a
    magnitude of at least 2^53. *)
Lemma toNumber_large (m : Z) :
  twoTo53 <= Z.abs m ->
  match toNumber m with
  | Fin z => (0 < m -> twoTo53 <= z) /\ (m < 0 -> z <= - twoTo53)
  | PosInf => 0 < m
  | NegInf => m < 0
  end.
Proof.
  intros Hm. unfold toNumber.
  set (a := Z.abs m) in *.
  assert (Ha : 0 < a) by (rewrite twoTo53_value in Hm; lia).
  assert (Hl : 53 <= Z.log2 a).
  { apply Z.log2_le_pow2; [exact Ha |]. exact Hm. }
  destruct (Z.log2 a - 52 <=? 0) eqn:He; [apply Z.leb_le in He; lia |].
  apply Z.leb_gt in He.
  set (e := Z.log2 a - 52) in *.
  assert (Hp : 0 < 2 ^ e) by (apply Z.pow_pos_nonneg; lia).
  pose proof (Z.log2_spec a Ha) as [Hlo _].
  replace (Z.log2 a) with (52 + e) in Hlo by (unfold e; lia).
  rewrite Z.pow_add_r in Hlo by lia.
  pose proof (roundHalfEven_bounds a (2 ^ e) Hp) as [_ Hr].
  assert (Hq : 2 ^ 52 <= roundHalfEven a (2 ^ e)).
  { assert (2 * (2 ^ 52 * 2 ^ e) <= 2 * 2 ^ e * roundHalfEven a (2 ^ e) + 2 ^ e) by lia.
    assert (H52 : 0 < 2 ^ 52) by (apply Z.pow_pos_nonneg; lia).
    nia. }
  assert (He1 : 2 <= 2 ^ e).
  { change 2 with (2 ^ 1) at 1. apply Z.pow_le_mono_r; lia. }
  assert (Hbig : twoTo53 <= roundHalfEven a (2 ^ e) * 2 ^ e).
  { rewrite twoTo53_value. change 9007199254740992 with (2 ^ 52 * 2). nia. }
  destruct (2 ^ 1024 <=? roundHalfEven a (2 ^ e) * 2 ^ e).
  - destruct (m <? 0) eqn:Hs; [apply Z.ltb_lt in Hs | apply Z.ltb_ge in Hs]; lia.
  - split; intros Hs.
    + rewrite Z.sgn_pos by exact Hs. lia.
    + rewrite Z.sgn_neg by exact Hs. lia.
Qed.

Lemma roundHalfEven_exact_range (a p : Z) :
  0 <= a -> 5 <= p ->
  let m := roundHalfEven (a * 2 ^ p) 60 in
  ceilDiv m (2 ^ p) = ceilDiv a 60 /\ m / 2 ^ p = a / 60.
Proof.
  intros Ha Hp m.
  assert (HP : 32 <= 2 ^ p).
  { change 32 with (2 ^ 5). apply Z.pow_le_mono_r; lia. }
  pose proof (roundHalfEven_bounds (a * 2 ^ p) 60 ltac:(lia)) as Hm. fold m in Hm.
  set (P := 2 ^ p) in *.
  split.
  - unfold ceilDiv. f_equal.
    symmetry. apply Z.div_unique with (r := (- m) - P * ((- a) / 60)).
    + left.
      pose proof (Z.div_mod (- a) 60 ltac:(lia)) as Hdm.
      pose proof (Z.mod_pos_bound (- a) 60 ltac:(lia)) as Hb.
      nia.
    + ring.
  - symmetry. apply Z.div_unique with (r := m - P * (a / 60)).
    + left.
      pose proof (Z.div_mod a 60 ltac:(lia)) as Hdm.
      pose proof (Z.mod_pos_bound a 60 ltac:(lia)) as Hb.
      nia.
    + ring.
Qed.

(** Below 60 * 2^48 in magnitude the rounding of the quotient does not move
    its ceiling. *)
Lemma ceilOver60_exact (z : Z) :
  Z.abs z < 60 * 2 ^ 48 -> ceilOver60 z = ceilDiv z 60.
Proof.
  intros Hz. unfold ceilOver60.
  destruct (Z.abs z <? 60) eqn:Hs.
  - apply Z.ltb_lt in Hs. unfold ceilDiv.
    destruct (0 <? z) eqn:Hp; [apply Z.ltb_lt in Hp | apply Z.ltb_ge in Hp].
    + assert ((- z) / 60 = -1); [| lia].
      symmetry. apply Z.div_unique with (r := 60 - z); lia.
    + rewrite Z.div_small; lia.
  - apply Z.ltb_ge in Hs.
    set (a := Z.abs z) in *.
    assert (Hq : 1 <= a / 60) by (apply Z.div_le_lower_bound; lia).
    assert (Hl : Z.log2 (a / 60) < 48).
    { apply Z.log2_lt_pow2; [lia |]. apply Z.div_lt_upper_bound; lia. }
    pose proof (Z.log2_nonneg (a / 60)) as Hl0.
    set (p := 52 - Z.log2 (a / 60)) in *.
    assert (Hp : (0 <=? p) = true) by (apply Z.leb_le; lia). rewrite Hp.
    destruct (roundHalfEven_exact_range a p ltac:(lia) ltac:(lia)) as [Hc Hf].
    destruct (0 <? z) eqn:Hpos; [apply Z.ltb_lt in Hpos | apply Z.ltb_ge in Hpos].
    + rewrite Hc. unfold a. rewrite Z.abs_eq by lia. reflexivity.
    + rewrite Hf. unfold ceilDiv, a. rewrite Z.abs_neq by lia. reflexivity.
Qed.

(** From 60 * 2^48 on the ceiling is at least 2^48 in magnitude. *)
Lemma ceilOver60_large (z : Z) :
  60 * 2 ^ 48 <= Z.abs z ->
  (0 < z -> 2 ^ 48 <= ceilOver60 z) /\ (z < 0 -> ceilOver60 z <= - 2 ^ 48).
Proof.
  intros Hz. unfold ceilOver60.
  set (a := Z.abs z) in *.
  assert (H48 : 0 < 2 ^ 48) by (apply Z.pow_pos_nonneg; lia).
  destruct (a <? 60) eqn:Hs; [apply Z.ltb_lt in Hs; lia |].
  assert (Hq : 2 ^ 48 <= a / 60) by (apply Z.div_le_lower_bound; lia).
  assert (Hl : 48 <= Z.log2 (a / 60)) by (apply Z.log2_le_pow2; lia).
  pose proof (Z.log2_spec (a / 60) ltac:(lia)) as [Hlo _].
  set (e := Z.log2 (a / 60)) in *.
  assert (Ha : 60 * 2 ^ e <= a).
  { pose proof (Z.mul_div_le a 60 ltac:(lia)). lia. }
  assert (He : 2 ^ 48 <= 2 ^ e) by (apply Z.pow_le_mono_r; lia).
  destruct (0 <=? 52 - e) eqn:Hp; [apply Z.leb_le in Hp | apply Z.leb_gt in Hp].
  - set (p := 52 - e) in *.
    assert (HP : 0 < 2 ^ p) by (apply Z.pow_pos_nonneg; lia).
    assert (Hep : 2 ^ e * 2 ^ p = 2 ^ 52).
    { rewrite <- Z.pow_add_r by lia. f_equal. unfold p. lia. }
    pose proof (roundHalfEven_bounds (a * 2 ^ p) 60 ltac:(lia)) as [_ Hr].
    set (m := roundHalfEven (a * 2 ^ p) 60) in *.
    assert (Hm : 2 ^ e * 2 ^ p <= m) by nia.
    assert (Hfl : 2 ^ e <= m / 2 ^ p) by (apply Z.div_le_lower_bound; lia).
    split; intros Hsg.
    + assert ((0 <? z) = true) as -> by (apply Z.ltb_lt; exact Hsg).
      unfold ceilDiv.
      assert (m / 2 ^ p <= - ((- m) / 2 ^ p)); [| lia].
      pose proof (Z.div_mod m (2 ^ p) ltac:(lia)) as H1.
      pose proof (Z.mod_pos_bound m (2 ^ p) HP) as H2.
      pose proof (Z.div_mod (- m) (2 ^ p) ltac:(lia)) as H3.
      pose proof (Z.mod_pos_bound (- m) (2 ^ p) HP) as H4.
      nia.
    + assert ((0 <? z) = false) as -> by (apply Z.ltb_ge; lia). lia.
  - set (q := 2 ^ (- (52 - e))) in *.
    assert (HQ : 0 < q) by (apply Z.pow_pos_nonneg; lia).
    assert (Heq : 2 ^ 52 * q = 2 ^ e).
    { unfold q. rewrite <- Z.pow_add_r by lia. f_equal. lia. }
    pose proof (roundHalfEven_bounds a (60 * q) ltac:(lia)) as [_ Hr].
    set (m := roundHalfEven a (60 * q)) in *.
    assert (H52 : 0 < 2 ^ 52) by (apply Z.pow_pos_nonneg; lia).
    assert (Hm : 2 ^ 52 <= m) by nia.
    assert (Hmq : 2 ^ 48 <= m * q) by nia.
    split; intros Hsg.
    + rewrite Z.sgn_pos by exact Hsg. lia.
    + rewrite Z.sgn_neg by exact Hsg. lia.
Qed.

(** In the exact range the bound of the loop over [hour] is the integer
    [17 - ceil(d / 60)]. *)
Lemma hourBound_exact (d : Z) :
  Z.abs d < 60 * 2 ^ 48 -> hourBound (Fin d) = Fin (17 - ceilDiv d 60).
Proof.
  intros Hd. unfold hourBound, seventeenMinusCeil.
  rewrite (ceilOver60_exact d Hd).
  apply toNumber_small. rewrite twoTo53_value.
  unfold ceilDiv.
  pose proof (Z.div_mod (- d) 60 ltac:(lia)) as Hdm.
  pose proof (Z.mod_pos_bound (- d) 60 ltac:(lia)) as Hb.
  change (60 * 2 ^ 48) with 16888498602639360 in Hd. lia.
Qed.

(** ** The loop over the hours *)

Lemma hoursFromTo_nil (lo hi : Z) : hi < lo -> hoursFromTo lo hi = [].
Proof.
  intros H. unfold hoursFromTo.
  replace (Z.to_nat (hi + 1 - lo)) with 0%nat by lia. reflexivity.
Qed.

Lemma hoursFromTo_cons (lo hi : Z) :
  lo <= hi -> hoursFromTo lo hi = lo :: hoursFromTo (lo + 1) hi.
Proof.
  intros H. unfold hoursFromTo.
  replace (Z.to_nat (hi + 1 - lo)) with (S (Z.to_nat (hi + 1 - (lo + 1)))) by lia.
  simpl. f_equal; [lia |].
  rewrite <- seq_shift, map_map. apply map_ext. intros i. lia.
Qed.

Lemma hoursFromTo_length (lo hi : Z) :
  List.length (hoursFromTo lo hi) = Z.to_nat (hi + 1 - lo).
Proof. unfold hoursFromTo. rewrite length_map, length_seq. reflexivity. Qed.

Lemma pushAll_Ok (slots pushed out : list Slot) :
  pushAll slots pushed = Ok out -> out = (slots ++ pushed)%list.
Proof.
  revert slots. induction pushed as [| s r IH]; intros slots; simpl.
  - intros H. inversion H. rewrite app_nil_r. reflexivity.
  - unfold push. destruct (4294967295 <=? Z.of_nat (List.length slots)); simpl;
      [discriminate |].
    intros H. apply IH in H. rewrite H, <- app_assoc. reflexivity.
Qed.

Lemma pushAll_fits (slots pushed : list Slot) :
  Z.of_nat (List.length slots) + Z.of_nat (List.length pushed) <= 4294967295 ->
  pushAll slots pushed = Ok (slots ++ pushed)%list.
Proof.
  revert slots. induction pushed as [| s r IH]; intros slots Hfit; simpl.
  - rewrite app_nil_r. reflexivity.
  - simpl in Hfit. unfold push.
    destruct (4294967295 <=? Z.of_nat (List.length slots)) eqn:Hfull;
      [apply Z.leb_le in Hfull; lia |].
    simpl. rewrite IH.
    + rewrite <- app_assoc. reflexivity.
    + rewrite length_app. simpl. lia.
Qed.

Section HourLoop.

Variable body : Z -> Exc (list Slot).

(** A loop that returned has visited the hours up to a bound below 2^53, in
    order, and its array is the one it started with followed by what the
    iterations pushed. *)
Lemma hourLoop_Ok (fuel : nat) (hour : Z) (bound : Num) (slots out : list Slot) :
  hour <= twoTo53 ->
  hourLoop fuel hour bound body slots = Some (Ok out) ->
  exists hours os,
    ((exists b, bound = Fin b /\ b < twoTo53 /\ hours = hoursFromTo hour b)
     \/ (bound = NegInf /\ hours = [])) /\
    Forall2 (fun h o => body h = Ok o) hours os /\
    out = (slots ++ List.concat os)%list.
Proof.
  revert hour slots. induction fuel as [| fuel IH]; intros hour slots Hh; simpl;
    [discriminate |].
  destruct (leBound hour bound) eqn:Hle.
  - destruct (body hour) as [pushed |] eqn:Hb; simpl; [| discriminate].
    destruct (pushAll slots pushed) as [slots' |] eqn:Hp; [| discriminate].
    apply pushAll_Ok in Hp. subst slots'.
    intros H. apply IH in H.
    + destruct H as [hours [os [Hhours [HF ->]]]].
      destruct Hhours as [[b [-> [Hsmall ->]]] | [-> _]]; [| discriminate].
      simpl in Hle. apply Z.leb_le in Hle.
      assert (Hinc : increment hour = hour + 1).
      { unfold increment.
        destruct (hour <? twoTo53) eqn:Hlt; [reflexivity |].
        apply Z.ltb_ge in Hlt. lia. }
      rewrite Hinc in HF.
      exists (hoursFromTo hour b), (pushed :: os). split; [| split].
      * left. exists b. auto.
      * rewrite (hoursFromTo_cons hour b Hle). constructor; assumption.
      * simpl. rewrite app_assoc. reflexivity.
    + unfold increment. destruct (hour <? twoTo53) eqn:Hlt; [| exact Hh].
      apply Z.ltb_lt in Hlt. lia.
  - intros H. inversion H; subst out.
    destruct bound as [b | |]; simpl in Hle; [| discriminate |].
    + apply Z.leb_gt in Hle. exists [], []. split; [| split].
      * left. exists b. split; [reflexivity |]. split; [lia |].
        symmetry. apply hoursFromTo_nil. exact Hle.
      * constructor.
      * simpl. rewrite app_nil_r. reflexivity.
    + exists [], []. split; [| split].
      * right. auto.
      * constructor.
      * simpl. rewrite app_nil_r. reflexivity.
Qed.

(** With a bound below 2^53 and the array far enough from its maximum
    length, enough fuel runs the loop to its end: it is the loop over the
    list of the hours. *)
Lemma hourLoop_ends (fuel : nat) (hour b : Z) (slots : list Slot) :
  b < twoTo53 ->
  (Z.to_nat (b + 1 - hour) < fuel)%nat ->
  (forall h out, body h = Ok out -> (List.length out <= 1)%nat) ->
  Z.of_nat (List.length slots) + Z.of_nat (List.length (hoursFromTo hour b))
  <= 4294967295 ->
  hourLoop fuel hour (Fin b) body slots
  = Some (out <- forEach (hoursFromTo hour b) body ;; Ok (slots ++ out)%list).
Proof.
  intros Hb Hfuel Hone. revert hour slots Hfuel.
  induction fuel as [| fuel IH]; intros hour slots Hfuel Hfit; [lia |].
  simpl. destruct (hour <=? b) eqn:Hle.
  - apply Z.leb_le in Hle.
    rewrite (hoursFromTo_cons hour b Hle) in *. simpl in Hfit. simpl.
    destruct (body hour) as [pushed | e] eqn:Hbody; simpl; [| reflexivity].
    pose proof (Hone hour pushed Hbody) as Hlen.
    rewrite pushAll_fits by lia.
    assert (Hinc : increment hour = hour + 1).
    { unfold increment.
      destruct (hour <? twoTo53) eqn:Hlt; [reflexivity |].
      apply Z.ltb_ge in Hlt. lia. }
    rewrite Hinc. rewrite IH.
    + destruct (forEach (hoursFromTo (hour + 1) b) body); simpl;
        [rewrite app_assoc |]; reflexivity.
    + lia.
    + rewrite length_app. lia.
  - apply Z.leb_gt in Hle. rewrite (hoursFromTo_nil hour b Hle). simpl.
    rewrite app_nil_r. reflexivity.
Qed.

(** With enough fuel a loop whose bound is below 2^53 is not left running. *)
Lemma hourLoop_returns (fuel : nat) (hour b : Z) (slots : list Slot) :
  b < twoTo53 -> (Z.to_nat (b + 1 - hour) < fuel)%nat ->
  hourLoop fuel hour (Fin b) body slots <> None.
Proof.
  intros Hb. revert hour slots. induction fuel as [| fuel IH];
    intros hour slots Hfuel; [lia |].
  simpl. destruct (hour <=? b) eqn:Hle; [| discriminate].
  apply Z.leb_le in Hle.
  destruct (pushed <- body hour ;; pushAll slots pushed); [| discriminate].
  apply IH. unfold increment.
  destruct (hour <? twoTo53) eqn:Hlt; [lia |]. apply Z.ltb_ge in Hlt. lia.
Qed.

(** From 2^53 on [hour++] leaves [hour] as it is: when the bound is at
    least 2^53 and no iteration throws, the loop is running whatever the
    fuel. *)
Lemma hourLoop_runs_on (fuel : nat) (hour : Z) (bound : Num) (slots : list Slot) :
  hour <= twoTo53 ->
  hoursUpTo bound = None ->
  (forall h, body h = Ok []) ->
  hourLoop fuel hour bound body slots = None.
Proof.
  intros Hh Hbound Hbody. revert hour Hh.
  induction fuel as [| fuel IH]; intros hour Hh; [reflexivity |].
  simpl.
  assert (Hle : leBound hour bound = true).
  { destruct bound as [b | |]; simpl in *; [| reflexivity | discriminate].
    destruct (b <? twoTo53) eqn:Hb; [discriminate |].
    apply Z.ltb_ge in Hb. apply Z.leb_le. lia. }
  rewrite Hle, Hbody. simpl. apply IH.
  unfold increment. destruct (hour <? twoTo53) eqn:Hlt; [| exact Hh].
  apply Z.ltb_lt in Hlt. lia.
Qed.

End HourLoop.

(** ** The hours visited *)

Lemma hoursUpTo_small (m : Z) : m < 9 -> hoursUpTo (toNumber m) = Some [].
Proof.
  intros Hm. destruct (Z_lt_le_dec (Z.abs m) twoTo53) as [Hs | Hl].
  - rewrite (toNumber_small m Hs). simpl.
    rewrite twoTo53_value in *.
    assert ((m <? 9007199254740992) = true) as -> by (apply Z.ltb_lt; lia).
    rewrite hoursFromTo_nil by lia. reflexivity.
  - pose proof (toNumber_large m Hl) as H. rewrite twoTo53_value in *.
    destruct (toNumber m) as [z | |]; simpl.
    + destruct H as [_ H]. specialize (H ltac:(lia)).
      rewrite twoTo53_value.
      assert ((z <? 9007199254740992) = true) as -> by (apply Z.ltb_lt; lia).
      rewrite hoursFromTo_nil by lia. reflexivity.
    + lia.
    + reflexivity.
Qed.

Lemma hoursUpTo_from_9 (m : Z) (hours : list Z) :
  9 <= m -> hoursUpTo (toNumber m) = Some hours -> In 9 hours.
Proof.
  intros Hm. destruct (Z_lt_le_dec (Z.abs m) twoTo53) as [Hs | Hl].
  - rewrite (toNumber_small m Hs). simpl.
    destruct (m <? twoTo53); [| discriminate].
    intros H. inversion H. apply hoursFromTo_In. lia.
  - pose proof (toNumber_large m Hl) as H.
    destruct (toNumber m) as [z | |]; simpl; [| discriminate | lia].
    destruct H as [H _]. specialize (H ltac:(lia)).
    assert ((z <? twoTo53) = false) as -> by (apply Z.ltb_ge; lia).
    discriminate.
Qed.

(** The loop over [hour] visits no hour exactly when the duration exceeds
    480 minutes, whatever its magnitude. *)
Lemma hours_empty_iff (duration : Num) :
  hoursUpTo (hourBound duration) = Some [] <-> exceeds480 duration.
Proof.
  destruct duration as [d | |];
    [| simpl; tauto | simpl; split; [discriminate | tauto]].
  unfold hourBound, seventeenMinusCeil, exceeds480.
  assert (H48 : 2 ^ 48 = 281474976710656) by reflexivity.
  destruct (Z_lt_le_dec (Z.abs d) (60 * 2 ^ 48)) as [Hs | Hl].
  - rewrite (ceilOver60_exact d Hs).
    pose proof (ceilDiv_60_bounds d) as Hc. split.
    + intros H. destruct (Z_lt_le_dec 480 d) as [Hd | Hd]; [exact Hd | exfalso].
      apply hoursUpTo_from_9 in H; [exact H | lia].
    + intros Hd. apply hoursUpTo_small. lia.
  - destruct (ceilOver60_large d Hl) as [Hpos Hneg]. split.
    + intros H. destruct (Z_lt_le_dec 480 d) as [Hd | Hd]; [exact Hd | exfalso].
      apply hoursUpTo_from_9 in H; [exact H |].
      specialize (Hneg ltac:(lia)). lia.
    + intros Hd. apply hoursUpTo_small. specialize (Hpos ltac:(lia)). lia.
Qed.

(** For a duration above -60 * 2^48 the hours visited are the candidate
    hours. *)
Lemma hours_are_candidateHours (d : Z) :
  - (60 * 2 ^ 48) < d -> hoursUpTo (hourBound (Fin d)) = Some (candidateHours d).
Proof.
  intros Hd. destruct (Z_lt_le_dec d (60 * 2 ^ 48)) as [Hs | Hl].
  - rewrite hourBound_exact by lia. cbn [hoursUpTo].
    pose proof (ceilDiv_60_bounds d) as Hc.
    change (60 * 2 ^ 48) with 16888498602639360 in *.
    rewrite twoTo53_value.
    assert ((17 - ceilDiv d 60 <? 9007199254740992) = true) as ->
      by (apply Z.ltb_lt; lia).
    reflexivity.
  - assert (Hex : exceeds480 (Fin d)).
    { simpl. change (60 * 2 ^ 48) with 16888498602639360 in Hl. lia. }
    rewrite (proj2 (hours_empty_iff (Fin d)) Hex).
    symmetry. f_equal. apply candidateHours_empty. exact Hex.
Qed.

(** ** What the search returns *)

Section Search.

Context {L : Luxon}.

Variables (userTz : string) (tzs : list ZoneArg) (d : Z).



Lemma makeSlot_Ok (start : DateTime) (slot : Slot) :
  makeSlot userTz tzs d start = Ok slot <->
  exists text ls iso,
    toFormat start slotFormat = Ok text /\
    Forall2 (fun tz l => leadTime start tz = Ok l) tzs ls /\
    toISO start = Ok iso /\
    slot = mkSlot (text ++ " (" ++ userTz ++ ")") ls (bookingLink userTz iso d).
Proof.
  unfold makeSlot. rewrite bind_Ok. split.
  - intros [text [Ht H]]. apply bind_Ok in H. destruct H as [ls [Hls H]].
    apply bind_Ok in H. destruct H as [iso [Hiso H]]. inversion H; subst.
    exists text, ls, iso. repeat split; auto. apply mapExc_Ok. assumption.
  - intros [text [ls [iso [Ht [Hls [Hiso ->]]]]]].
    exists text. split; [assumption |]. apply bind_Ok.
    exists ls. split; [apply mapExc_Ok; assumption |]. apply bind_Ok.
    exists iso. auto.
Qed.

Lemma tryHour_Ok (date : DateTime) (h : Z) (out : list Slot) :
  tryHour userTz tzs d date h = Ok out <->
  exists start end_,
    set date h 0 0 0 = Ok start /\ plusMinutes start d = Ok end_ /\
    ((allOk start end_ tzs = true /\
      exists slot, makeSlot userTz tzs d start = Ok slot /\ out = [slot])
     \/ (allOk start end_ tzs = false /\ out = [])).
Proof.
  unfold tryHour. rewrite bind_Ok. split.
  - intros [start [Hs H]]. apply bind_Ok in H. destruct H as [end_ [He H]].
    exists start, end_. repeat split; auto.
    destruct (allOk start end_ tzs).
    + left. split; [reflexivity |]. apply bind_Ok in H.
      destruct H as [slot [Hm H]]. inversion H; subst. eauto.
    + right. inversion H; subst. auto.
  - intros [start [end_ [Hs [He H]]]]. exists start. split; [assumption |].
    apply bind_Ok. exists end_. split; [assumption |].
    destruct H as [[-> [slot [Hm ->]]] | [-> ->]]; [| reflexivity].
    apply bind_Ok. eauto.
Qed.

Lemma tryDay_Ok (zonedNow : DateTime) (day : Z) (out : list Slot) :
  tryDay userTz tzs d zonedNow day = Ok out ->
  exists os,
    Forall2 (fun c o => slotAt userTz tzs d zonedNow c = Ok o)
            (map (pair day) (candidateHours d)) os /\
    out = List.concat os.
Proof.
  unfold tryDay. intros H. apply bind_Ok in H. destruct H as [date [Hd H]].
  apply forEach_Ok in H. destruct H as [os [HF ->]].
  exists os. split; [| reflexivity].
  clear - HF Hd. induction HF; simpl; constructor; auto.
  unfold slotAt. simpl. rewrite Hd. simpl. assumption.
Qed.

(** The slots are what the candidates yield, one candidate after the other. *)
Lemma findSlots_Ok (slots : list Slot) :
  findSlots userTz tzs d = Ok slots ->
  exists n zonedNow os,
    now = Ok n /\ setZone n (ZName userTz) = Ok zonedNow /\
    Forall2 (fun c o => slotAt userTz tzs d zonedNow c = Ok o) (candidates d) os /\
    slots = List.concat os.
Proof.
  unfold findSlots. intros H. apply bind_Ok in H. destruct H as [n [Hn H]].
  apply bind_Ok in H. destruct H as [z [Hz H]].
  apply forEach_Ok in H. destruct H as [outs [HF ->]].
  assert (HF' : Forall2 (fun day o => exists os,
            Forall2 (fun c o' => slotAt userTz tzs d z c = Ok o')
                    (map (pair day) (candidateHours d)) os /\ o = List.concat os)
            [0; 1; 2] outs).
  { clear - HF. induction HF; constructor; auto. apply tryDay_Ok. assumption. }
  apply Forall2_flat_map in HF'. destruct HF' as [os [HF'' Heq]].
  exists n, z, os. repeat split; auto.
Qed.

Lemma slotAt_Ok (zonedNow : DateTime) (c : Z * Z) (out : list Slot) :
  slotAt userTz tzs d zonedNow c = Ok out <->
  exists date start end_,
    plusDays zonedNow (fst c) = Ok date /\
    set date (snd c) 0 0 0 = Ok start /\ plusMinutes start d = Ok end_ /\
    ((allOk start end_ tzs = true /\
      exists slot, makeSlot userTz tzs d start = Ok slot /\ out = [slot])
     \/ (allOk start end_ tzs = false /\ out = [])).
Proof.
  unfold slotAt. rewrite bind_Ok. split.
  - intros [date [Hd H]]. apply tryHour_Ok in H.
    destruct H as [start [end_ [Hs [He H]]]]. exists date, start, end_. auto.
  - intros [date [start [end_ [Hd [Hs [He H]]]]]]. exists date.
    split; [assumption |]. apply tryHour_Ok. exists start, end_. auto.
Qed.

(** Every slot returned comes from an accepted candidate. *)
Lemma slot_from_candidate (slots : list Slot) (slot : Slot) :
  findSlots userTz tzs d = Ok slots -> In slot slots ->
  exists c start end_,
    In c (candidates d) /\ candidateWindow userTz d c start end_ /\
    allOk start end_ tzs = true /\ makeSlot userTz tzs d start = Ok slot.
Proof.
  intros H Hin. apply findSlots_Ok in H.
  destruct H as [n [z [os [Hn [Hz [HF ->]]]]]].
  apply in_concat in Hin. destruct Hin as [o [Ho Hslot]].
  destruct (Forall2_In_r _ _ _ _ HF Ho) as [c [Hc Hat]].
  apply slotAt_Ok in Hat.
  destruct Hat as [date [start [end_ [Hd [Hs [He Hcase]]]]]].
  destruct Hcase as [[Hok [slot' [Hm ->]]] | [_ ->]]; [| contradiction].
  destruct Hslot as [<- | []].
  exists c, start, end_. repeat split; auto.
  exists n, z, date. auto.
Qed.

(** The first slot comes from the first candidate that is accepted. *)
Lemma first_slot_from_first_accepted (first : Slot) (rest : list Slot) :
  findSlots userTz tzs d = Ok (first :: rest) ->
  exists pre c post start end_,
    candidates d = (pre ++ c :: post)%list /\
    candidateWindow userTz d c start end_ /\
    allOk start end_ tzs = true /\ makeSlot userTz tzs d start = Ok first /\
    forall c' start' end', In c' pre ->
      candidateWindow userTz d c' start' end' -> allOk start' end' tzs = false.
Proof.
  intros H. apply findSlots_Ok in H.
  destruct H as [n [z [os [Hn [Hz [HF Heq]]]]]]. symmetry in Heq.
  destruct (Forall2_concat_head _ _ _ _ _ HF Heq)
    as [pre [c [post [o [Hsplit [Hc Hpre]]]]]].
  apply slotAt_Ok in Hc.
  destruct Hc as [date [start [end_ [Hd [Hs [He Hcase]]]]]].
  destruct Hcase as [[Hok [slot [Hm Hout]]] | [_ Hout]]; [| discriminate].
  inversion Hout; subst slot o.
  exists pre, c, post, start, end_. repeat split; auto.
  - exists n, z, date. auto.
  - intros c' start' end' Hin [n' [z' [date' [Hn' [Hz' [Hd' [Hs' He']]]]]]].
    rewrite Hn in Hn'. inversion Hn'; subst n'.
    rewrite Hz in Hz'. inversion Hz'; subst z'.
    specialize (Hpre c' Hin). apply slotAt_Ok in Hpre.
    destruct Hpre as [date2 [start2 [end2 [Hd2 [Hs2 [He2 Hcase]]]]]].
    rewrite Hd' in Hd2. inversion Hd2; subst date2.
    rewrite Hs' in Hs2. inversion Hs2; subst start2.
    rewrite He' in He2. inversion He2; subst end2.
    destruct Hcase as [[_ [slot [_ Habs]]] | [Hno _]]; [discriminate | exact Hno].
Qed.

(** No candidate, no slot. *)
Lemma findSlots_no_candidate (slots : list Slot) :
  candidateHours d = [] -> findSlots userTz tzs d = Ok slots -> slots = [].
Proof.
  intros Hnone H. apply findSlots_Ok in H.
  destruct H as [n [z [os [_ [_ [HF ->]]]]]].
  unfold candidates in HF. rewrite Hnone in HF. simpl in HF.
  inversion HF. reflexivity.
Qed.

End Search.

(** ** The search with fuel *)

Section SearchWithFuel.

Context {L : Luxon}.

Variables (userTz : string) (tzs : list ZoneArg).

Lemma hourBody_Ok (duration : Num) (date : DateTime) (h : Z) (out : list Slot) :
  hourBody userTz tzs duration date h = Ok out <->
  exists start end_,
    set date h 0 0 0 = Ok start /\ plusDuration start duration = Ok end_ /\
    ((allOk start end_ tzs = true /\
      exists slot, slotObject userTz tzs duration start = Ok slot /\ out = [slot])
     \/ (allOk start end_ tzs = false /\ out = [])).
Proof.
  unfold hourBody. rewrite bind_Ok. split.
  - intros [start [Hs H]]. apply bind_Ok in H. destruct H as [end_ [He H]].
    exists start, end_. repeat split; auto.
    destruct (allOk start end_ tzs).
    + left. split; [reflexivity |]. apply bind_Ok in H.
      destruct H as [slot [Hm H]]. inversion H; subst. eauto.
    + right. inversion H; subst. auto.
  - intros [start [end_ [Hs [He H]]]]. exists start. split; [assumption |].
    apply bind_Ok. exists end_. split; [assumption |].
    destruct H as [[-> [slot [Hm ->]]] | [-> ->]]; [| reflexivity].
    apply bind_Ok. eauto.
Qed.

Lemma hourBody_one (duration : Num) (date : DateTime) (h : Z) (out : list Slot) :
  hourBody userTz tzs duration date h = Ok out -> (List.length out <= 1)%nat.
Proof.
  intros H. apply hourBody_Ok in H.
  destruct H as [start [end_ [_ [_ [[_ [slot [_ ->]]] | [_ ->]]]]]]; simpl; lia.
Qed.

(** For the Number of an integer the body of the loop is [tryHour]. *)
Lemma hourBody_Fin (d : Z) (date : DateTime) (h : Z) :
  toNumber d = Fin d ->
  hourBody userTz tzs (Fin d) date h = tryHour userTz tzs d date h.
Proof.
  intros Hd. unfold hourBody, tryHour, slotObject, makeSlot, bookingLink.
  rewrite Hd. reflexivity.
Qed.

Lemma forEach_length {A B : Type} (body : A -> Exc (list B)) (l : list A)
    (out : list B) :
  (forall a o, body a = Ok o -> (List.length o <= 1)%nat) ->
  forEach l body = Ok out -> (List.length out <= List.length l)%nat.
Proof.
  intros Hone. revert out. induction l as [| a r IH]; intros out; simpl.
  - intros H. inversion H. simpl. lia.
  - intros H. apply bind_Ok in H. destruct H as [pushed [Ha H]].
    apply bind_Ok in H. destruct H as [rest [Hr H]]. inversion H; subst.
    rewrite length_app. specialize (Hone a pushed Ha). specialize (IH rest Hr). lia.
Qed.

(** The loop over [hour] as the loop over a list, when it can end. *)
Lemma hourLoop_list (fuel : nat) (bound : Num) (hours : list Z)
    (body : Z -> Exc (list Slot)) (slots : list Slot) :
  hoursUpTo bound = Some hours ->
  (List.length hours < fuel)%nat ->
  (forall h out, body h = Ok out -> (List.length out <= 1)%nat) ->
  Z.of_nat (List.length slots) + Z.of_nat (List.length hours) <= 4294967295 ->
  hourLoop fuel 9 bound body slots
  = Some (out <- forEach hours body ;; Ok (slots ++ out)%list).
Proof.
  intros Hb Hfuel Hone Hfit. destruct bound as [b | |]; simpl in Hb;
    [| discriminate |].
  - destruct (b <? twoTo53) eqn:Hsmall; [| discriminate].
    apply Z.ltb_lt in Hsmall. inversion Hb; subst hours.
    rewrite hoursFromTo_length in Hfuel.
    apply hourLoop_ends; auto.
  - inversion Hb; subst hours. destruct fuel as [| fuel]; [simpl in Hfuel; lia |].
    simpl. rewrite app_nil_r. reflexivity.
Qed.

Lemma dayLoop_list (fuel : nat) (d : Z) (zonedNow : DateTime) (days : list Z)
    (slots : list Slot) :
  (candidateHours d <> [] -> toNumber d = Fin d) ->
  hoursUpTo (hourBound (Fin d)) = Some (candidateHours d) ->
  (List.length (candidateHours d) < fuel)%nat ->
  Z.of_nat (List.length slots)
  + Z.of_nat (List.length days) * Z.of_nat (List.length (candidateHours d))
  <= 4294967295 ->
  dayLoop fuel days userTz tzs (Fin d) zonedNow slots
  = Some (out <- forEach days (tryDay userTz tzs d zonedNow) ;; Ok (slots ++ out)%list).
Proof.
  intros Hd Hhours Hfuel. revert slots.
  assert (Hbody : forall date,
            forEach (candidateHours d) (hourBody userTz tzs (Fin d) date)
            = forEach (candidateHours d) (tryHour userTz tzs d date)).
  { intros date. destruct (candidateHours d) as [| h0 hs0] eqn:Hc; [reflexivity |].
    assert (Hnum : toNumber d = Fin d) by (apply Hd; discriminate).
    generalize (h0 :: hs0) as hs. induction hs as [| h hs IHh]; simpl;
      [reflexivity |].
    rewrite (hourBody_Fin d date h Hnum), IHh. reflexivity. }
  induction days as [| day rest IH]; intros slots Hfit.
  - simpl. rewrite app_nil_r. reflexivity.
  - cbn [dayLoop forEach]. unfold tryDay at 1.
    destruct (plusDays zonedNow day) as [date | e]; cbn [bind]; [| reflexivity].
    cbn [List.length] in Hfit.
    rewrite (hourLoop_list fuel _ (candidateHours d) _ slots Hhours Hfuel
               (hourBody_one (Fin d) date)) by nia.
    rewrite <- (Hbody date).
    destruct (forEach (candidateHours d) (hourBody userTz tzs (Fin d) date))
      as [pushed | e] eqn:Hday; cbn [bind]; [| reflexivity].
    assert (Hlen : (List.length pushed <= List.length (candidateHours d))%nat).
    { apply (forEach_length (hourBody userTz tzs (Fin d) date)); [| exact Hday].
      exact (hourBody_one (Fin d) date). }
    rewrite IH.
    + destruct (forEach rest (tryDay userTz tzs d zonedNow)); cbn [bind];
        [rewrite app_assoc |]; reflexivity.
    + rewrite length_app. nia.
Qed.

(** For the Number of an integer whose hours are the candidate hours, few
    enough not to fill the array, enough fuel makes the search what
    [findSlots] describes. *)
Lemma search_findSlots (fuel : nat) (d : Z) :
  (candidateHours d <> [] -> toNumber d = Fin d) ->
  hoursUpTo (hourBound (Fin d)) = Some (candidateHours d) ->
  3 * Z.of_nat (List.length (candidateHours d)) <= 4294967295 ->
  (List.length (candidateHours d) < fuel)%nat ->
  search fuel userTz tzs (Fin d) = Some (findSlots userTz tzs d).
Proof.
  intros Hd Hhours Hfit Hfuel. unfold search, findSlots.
  destruct now as [n | e]; cbn [bind]; [| reflexivity].
  destruct (setZone n (ZName userTz)) as [z | e]; cbn [bind]; [| reflexivity].
  rewrite (dayLoop_list fuel d z [0; 1; 2] [] Hd Hhours Hfuel)
    by (change (Z.of_nat (List.length [0; 1; 2])) with 3;
        change (Z.of_nat (@List.length Slot [])) with 0; lia).
  destruct (forEach [0; 1; 2] (tryDay userTz tzs d z)); reflexivity.
Qed.

Lemma dayLoop_Ok (fuel : nat) (duration : Num) (zonedNow : DateTime)
    (hours : list Z) (days : list Z) (slots out : list Slot) :
  hoursUpTo (hourBound duration) = Some hours ->
  dayLoop fuel days userTz tzs duration zonedNow slots = Some (Ok out) ->
  exists os,
    Forall2 (fun c o => pushedAt userTz tzs duration zonedNow c = Ok o)
            (flat_map (fun day => map (pair day) hours) days) os /\
    out = (slots ++ List.concat os)%list.
Proof.
  intros Hhours. revert slots. induction days as [| day rest IH]; intros slots; simpl.
  - intros H. inversion H. exists []. split; [constructor |].
    simpl. rewrite app_nil_r. reflexivity.
  - destruct (plusDays zonedNow day) as [date | e] eqn:Hdate; [| discriminate].
    destruct (hourLoop fuel 9 (hourBound duration)
                (hourBody userTz tzs duration date) slots) as [[slots' | e] |] eqn:Hloop;
      try discriminate.
    intros H. apply IH in H. destruct H as [os' [HF' ->]].
    apply hourLoop_Ok in Hloop; [| rewrite twoTo53_value; lia].
    destruct Hloop as [hours' [os [Hcase [HF ->]]]].
    assert (hours' = hours) as ->.
    { destruct Hcase as [[b [Hb [Hsmall ->]]] | [Hb ->]]; rewrite Hb in Hhours;
        simpl in Hhours.
      - apply Z.ltb_lt in Hsmall. rewrite Hsmall in Hhours.
        inversion Hhours. reflexivity.
      - inversion Hhours. reflexivity. }
    exists (os ++ os')%list. split.
    + apply Forall2_app; [| exact HF'].
      clear - HF Hdate. induction HF; simpl; constructor; auto.
      unfold pushedAt. simpl. rewrite Hdate. simpl. assumption.
    + rewrite concat_app, app_assoc. reflexivity.
Qed.

(** A search that returned slots has visited the candidates of the hours up
    to its bound, day after day, and returns what they pushed, in order. *)
Lemma search_Ok (fuel : nat) (duration : Num) (slots : list Slot) :
  search fuel userTz tzs duration = Some (Ok slots) ->
  exists n zonedNow hours os,
    now = Ok n /\ setZone n (ZName userTz) = Ok zonedNow /\
    hoursUpTo (hourBound duration) = Some hours /\
    Forall2 (fun c o => pushedAt userTz tzs duration zonedNow c = Ok o)
            (candidatesOver hours) os /\
    slots = List.concat os.
Proof.
  unfold search. destruct now as [n | e] eqn:Hn; simpl; [| discriminate].
  destruct (setZone n (ZName userTz)) as [z | e] eqn:Hz; simpl; [| discriminate].
  intros H.
  assert (Hhours : exists hours, hoursUpTo (hourBound duration) = Some hours).
  { simpl in H.
    destruct (plusDays z 0) as [date | e]; [| discriminate].
    destruct (hourLoop fuel 9 (hourBound duration)
                (hourBody userTz tzs duration date) []) as [[slots' | e] |] eqn:Hloop;
      try discriminate.
    apply hourLoop_Ok in Hloop; [| rewrite twoTo53_value; lia].
    destruct Hloop as [hours [os [Hcase _]]].
    destruct Hcase as [[b [-> [Hsmall ->]]] | [-> ->]]; simpl.
    - apply Z.ltb_lt in Hsmall. rewrite Hsmall. eauto.
    - eauto. }
  destruct Hhours as [hours Hhours].
  destruct (dayLoop_Ok fuel duration z hours [0; 1; 2] [] slots Hhours H)
    as [os [HF ->]].
  exists n, z, hours, os. auto.
Qed.

(** When the loop over [hour] can end, enough fuel brings the search to its
    end. *)
Lemma search_returns (fuel : nat) (duration : Num) (hours : list Z) :
  hoursUpTo (hourBound duration) = Some hours ->
  (List.length hours < fuel)%nat ->
  search fuel userTz tzs duration <> None.
Proof.
  intros Hhours Hfuel. unfold search.
  destruct (n <- now ;; setZone n (ZName userTz)) as [z | e]; [| discriminate].
  assert (Hloop : forall body slots,
            hourLoop fuel 9 (hourBound duration) body slots <> None).
  { intros body slots. destruct (hourBound duration) as [b | |]; simpl in Hhours;
      [| discriminate |].
    - destruct (b <? twoTo53) eqn:Hsmall; [| discriminate].
      apply Z.ltb_lt in Hsmall. inversion Hhours; subst hours.
      rewrite hoursFromTo_length in Hfuel.
      apply hourLoop_returns; assumption.
    - destruct fuel; [simpl in Hfuel; lia | discriminate]. }
  generalize (@nil Slot) as slots. generalize [0; 1; 2] as days.
  induction days as [| day rest IH]; intros slots; simpl; [discriminate |].
  destruct (plusDays z day) as [date | e]; [| discriminate].
  specialize (Hloop (hourBody userTz tzs duration date) slots).
  destruct (hourLoop fuel 9 (hourBound duration)
              (hourBody userTz tzs duration date) slots) as [[slots' | e] |];
    [apply IH | discriminate | contradiction].
Qed.

End SearchWithFuel.

(** ** Which candidates a search returns *)

Section Completeness.

Context {L : Luxon}.

Variables (userTz : string) (tzs : list ZoneArg) (d : Z).

Lemma collect_accepted (n zonedNow : DateTime) (l : list (Z * Z))
    (os : list (list Slot)) :
  now = Ok n -> setZone n (ZName userTz) = Ok zonedNow ->
  Forall2 (fun c o => slotAt userTz tzs d zonedNow c = Ok o) l os ->
  exists cs,
    Forall2 (acceptedSlot userTz tzs d) cs (List.concat os) /\
    (forall c, In c cs -> In c l) /\
    (StronglySorted before l -> StronglySorted before cs) /\
    (forall c start end_,
        In c l -> candidateWindow userTz d c start end_ ->
        allOk start end_ tzs = true -> In c cs) /\
    (forall c start end_,
        In c cs -> candidateWindow userTz d c start end_ ->
        allOk start end_ tzs = true).
Proof.
  intros Hn Hz HF.
  assert (Hdet : forall c start end_ date start' end',
            plusDays zonedNow (fst c) = Ok date ->
            set date (snd c) 0 0 0 = Ok start' ->
            plusMinutes start' d = Ok end' ->
            candidateWindow userTz d c start end_ ->
            start = start' /\ end_ = end').
  { intros c start end_ date start' end' Hd Hs He
           [n' [z' [date' [Hn' [Hz' [Hd' [Hs' He']]]]]]].
    rewrite Hn in Hn'. inversion Hn'; subst n'.
    rewrite Hz in Hz'. inversion Hz'; subst z'.
    rewrite Hd in Hd'. inversion Hd'; subst date'.
    rewrite Hs in Hs'. inversion Hs'; subst start'.
    rewrite He in He'. inversion He'; subst end'. auto. }
  induction HF as [| c o l' os' Hc _ IH].
  - exists []. repeat split; try constructor; intros; contradiction.
  - destruct IH as [cs [Hslots [Hsub [Hsorted [Hin Hout]]]]].
    apply slotAt_Ok in Hc.
    destruct Hc as [date [start0 [end0 [Hd [Hs [He Hcase]]]]]].
    destruct Hcase as [[Hok [slot [Hm ->]]] | [Hno ->]].
    + exists (c :: cs). split; [| split; [| split; [| split]]].
      * simpl. constructor; [| exact Hslots].
        exists start0, end0. repeat split; auto. exists n, zonedNow, date. auto.
      * intros x [<- | Hx]; [left; reflexivity | right; auto].
      * intros Hl. inversion Hl as [| c' l'' Hl' Hall]; subst.
        constructor; [auto |]. rewrite Forall_forall in *. auto.
      * intros x start end_ [<- | Hx] Hw Hacc; [left; reflexivity |].
        right. eapply Hin; eauto.
      * intros x start end_ [<- | Hx] Hw.
        -- destruct (Hdet _ _ _ _ _ _ Hd Hs He Hw) as [-> ->]. exact Hok.
        -- eapply Hout; eauto.
    + exists cs. split; [| split; [| split; [| split]]].
      * exact Hslots.
      * intros x Hx. right. auto.
      * intros Hl. inversion Hl; subst. auto.
      * intros x start end_ [<- | Hx] Hw Hacc.
        -- destruct (Hdet _ _ _ _ _ _ Hd Hs He Hw) as [-> ->].
           rewrite Hno in Hacc. discriminate.
        -- eapply Hin; eauto.
      * exact Hout.
Qed.

End Completeness.

(** ** The handler past its checks *)

Section HandlerFacts.

Context {L : Luxon}.

Lemma missing_false_iff (v : JsValue) :
  missing v = false <-> exists s, v = JString s /\ trim s <> EmptyString.
Proof.
  unfold missing. split.
  - intros H. apply orb_false_iff in H. destruct H as [_ H].
    destruct v as [| | b | n | s | l | fields]; try discriminate.
    exists s. split; [reflexivity |]. intros Hs. rewrite Hs in H. discriminate.
  - intros [s [-> Hs]]. simpl. apply orb_false_iff. split.
    + destruct s as [| c r]; [exfalso; apply Hs; reflexivity | reflexivity].
    + destruct (trim s); [exfalso; apply Hs; reflexivity | reflexivity].
Qed.

(** Past the two field checks, the conversion of [callDuration] and the
    zone validation, the response is the table of the search, or the
    server-error payload when the search throws; while the search runs
    there is none. *)
Lemma handler_searched (fuel : nat) (req : Body) (dur : Num) :
  missing (userTimezone req) = false ->
  missing (leadLocations req) = false ->
  duration (callDuration req) = Ok dur ->
  validTzs (stringOf (userTimezone req))
           (resolvedTzs (stringOf (leadLocations req))) = true ->
  handler fuel req =
  match search fuel (stringOf (userTimezone req))
               (resolvedTzs (stringOf (leadLocations req))) dur with
  | Some (Ok slots) =>
      Some (Json200 (buildTable (resolvedTzs (stringOf (leadLocations req))) slots)
                    (meetingLinkOf slots))
  | Some (Throw _) => Some (Json200 serverErrorHtml EmptyString)
  | None => None
  end.
Proof.
  intros Hu Hl Hd Hv. unfold handler, tryBlock. rewrite Hu, Hl, Hd, Hv.
  cbn [negb].
  destruct (search fuel _ _ dur) as [[slots | e] |]; reflexivity.
Qed.

(** A [callDuration] that cannot be converted is answered with the
    server-error payload, before the zones are looked at. *)
Lemma handler_unconvertible (fuel : nat) (req : Body) (e : string) :
  missing (userTimezone req) = false ->
  missing (leadLocations req) = false ->
  duration (callDuration req) = Throw e ->
  handler fuel req = Some (Json200 serverErrorHtml EmptyString).
Proof.
  intros Hu Hl Hd. unfold handler, tryBlock. rewrite Hu, Hl, Hd. reflexivity.
Qed.

Lemma handler_invalid_zone (fuel : nat) (req : Body) (dur : Num) :
  missing (userTimezone req) = false ->
  missing (leadLocations req) = false ->
  duration (callDuration req) = Ok dur ->
  validTzs (stringOf (userTimezone req))
           (resolvedTzs (stringOf (leadLocations req))) = false ->
  handler fuel req = Some (Json200 invalidTimezonesHtml EmptyString).
Proof.
  intros Hu Hl Hd Hv. unfold handler, tryBlock. rewrite Hu, Hl, Hd, Hv.
  reflexivity.
Qed.

(** The handler reads [callDuration] through [duration] only. *)
Lemma handler_duration (fuel : nat) (req : Body) (v : JsValue) :
  duration (callDuration req) = duration v ->
  handler fuel req = handler fuel (withDuration req v).
Proof.
  intros Hd. unfold handler, tryBlock, withDuration. simpl. rewrite Hd. reflexivity.
Qed.

(** For the Number of an integer whose hours are the candidate hours, the
    response is built from what [findSlots] describes. *)
Lemma handler_findSlots (fuel : nat) (req : Body) (d : Z) :
  missing (userTimezone req) = false ->
  missing (leadLocations req) = false ->
  duration (callDuration req) = Ok (Fin d) ->
  validTzs (stringOf (userTimezone req))
           (resolvedTzs (stringOf (leadLocations req))) = true ->
  (candidateHours d <> [] -> toNumber d = Fin d) ->
  hoursUpTo (hourBound (Fin d)) = Some (candidateHours d) ->
  3 * Z.of_nat (List.length (candidateHours d)) <= 4294967295 ->
  (List.length (candidateHours d) < fuel)%nat ->
  handler fuel req =
  Some (match findSlots (stringOf (userTimezone req))
                        (resolvedTzs (stringOf (leadLocations req))) d with
        | Ok slots =>
            Json200 (buildTable (resolvedTzs (stringOf (leadLocations req))) slots)
                    (meetingLinkOf slots)
        | Throw _ => Json200 serverErrorHtml EmptyString
        end).
Proof.
  intros Hu Hl Hd Hv Hnum Hhours Hfit Hfuel.
  rewrite (handler_searched fuel req (Fin d) Hu Hl Hd Hv).
  rewrite (search_findSlots _ _ fuel d Hnum Hhours Hfit Hfuel).
  destruct (findSlots _ _ d); reflexivity.
Qed.

(** An exception of [duration] is one of ToString. *)
Lemma duration_Throw (v : JsValue) (e : string) :
  duration v = Throw e <-> ToString v = Throw e.
Proof.
  unfold duration, parseInt10.
  destruct (ToString v) as [text | e']; simpl; split; intros H;
    try discriminate; inversion H; reflexivity.
Qed.

Lemma invalid_zone_fails_validation (userTz : string) (tzs : list ZoneArg)
    (tz : ZoneArg) :
  In tz (ZName userTz :: tzs) -> zoneIsValid tz = false ->
  validTzs userTz tzs = false.
Proof.
  intros Hin Hbad. unfold validTzs. apply not_true_is_false. intros Hall.
  rewrite forallb_forall in Hall. specialize (Hall tz Hin).
  rewrite Hbad in Hall. discriminate.
Qed.

(** Between -60 * 2^30 and the largest integer the quotient, the bound of
    the loop and the array of slots are the exact ones, so that with fuel
    for the candidate hours the search is the one over the lists. *)
Lemma search_in_range (userTz : string) (tzs : list ZoneArg) (fuel : nat) (d : Z) :
  - (60 * 2 ^ 30) <= d ->
  (List.length (candidateHours d) < fuel)%nat ->
  search fuel userTz tzs (Fin d) = Some (findSlots userTz tzs d).
Proof.
  intros Hd Hfuel. change (60 * 2 ^ 30) with 64424509440 in Hd.
  pose proof (ceilDiv_60_bounds d) as Hc.
  apply search_findSlots.
  - intros Hne. apply toNumber_small. rewrite twoTo53_value.
    destruct (Z_lt_le_dec 480 d) as [Hbig | Hsmall];
      [exfalso; apply Hne; apply candidateHours_empty; exact Hbig | lia].
  - apply hours_are_candidateHours.
    change (60 * 2 ^ 48) with 16888498602639360. lia.
  - unfold candidateHours. rewrite hoursFromTo_length. lia.
  - exact Hfuel.
Qed.

Lemma handler_in_range (fuel : nat) (req : Body) (d : Z) :
  missing (userTimezone req) = false ->
  missing (leadLocations req) = false ->
  duration (callDuration req) = Ok (Fin d) ->
  validTzs (stringOf (userTimezone req))
           (resolvedTzs (stringOf (leadLocations req))) = true ->
  - (60 * 2 ^ 30) <= d ->
  (List.length (candidateHours d) < fuel)%nat ->
  handler fuel req =
  Some (match findSlots (stringOf (userTimezone req))
                        (resolvedTzs (stringOf (leadLocations req))) d with
        | Ok slots =>
            Json200 (buildTable (resolvedTzs (stringOf (leadLocations req))) slots)
                    (meetingLinkOf slots)
        | Throw _ => Json200 serverErrorHtml EmptyString
        end).
Proof.
  intros Hu Hl Hd Hv Hrange Hfuel.
  rewrite (handler_searched fuel req (Fin d) Hu Hl Hd Hv).
  rewrite (search_in_range _ _ fuel d Hrange Hfuel).
  destruct (findSlots _ _ d); reflexivity.
Qed.

(** Past the two field checks an answer is a 200. *)
Lemma answered_is_200 (fuel : nat) (req : Body) (r : Response) :
  missing (userTimezone req) = false ->
  missing (leadLocations req) = false ->
  handler fuel req = Some r ->
  exists table meetingLink, r = Json200 table meetingLink.
Proof.
  intros Hu Hl. unfold handler, tryBlock. rewrite Hu, Hl.
  destruct (duration (callDuration req)) as [dur | e];
    [| intros H; inversion H; eauto].
  destruct (negb (validTzs _ _)); [intros H; inversion H; eauto |].
  destruct (search fuel _ _ dur) as [[slots | e] |]; intros H; inversion H; eauto.
Qed.

(** When the bound of the loop over [hour] is 2^53 or more, the search
    cannot return its array: it runs, or it throws. *)
Lemma search_unbounded (fuel : nat) (userTz : string) (tzs : list ZoneArg)
    (dur : Num) (r : Exc (list Slot)) :
  hoursUpTo (hourBound dur) = None ->
  search fuel userTz tzs dur = Some r -> exists e, r = Throw e.
Proof.
  intros Hnone H. destruct r as [slots | e]; [| eauto].
  apply search_Ok in H. destruct H as [n [z [hours [os [_ [_ [Hh _]]]]]]].
  rewrite Hnone in Hh. discriminate.
Qed.

Lemma handler_unbounded (fuel : nat) (req : Body) (dur : Num) (r : Response) :
  missing (userTimezone req) = false ->
  missing (leadLocations req) = false ->
  duration (callDuration req) = Ok dur ->
  validTzs (stringOf (userTimezone req))
           (resolvedTzs (stringOf (leadLocations req))) = true ->
  hoursUpTo (hourBound dur) = None ->
  handler fuel req = Some r -> r = Json200 serverErrorHtml EmptyString.
Proof.
  intros Hu Hl Hd Hv Hnone.
  rewrite (handler_searched fuel req dur Hu Hl Hd Hv).
  destruct (search fuel _ _ dur) as [[slots | e] |] eqn:Hs; intros H;
    [| inversion H; reflexivity | discriminate].
  destruct (search_unbounded _ _ _ _ _ Hnone Hs) as [e He]. discriminate.
Qed.

(** With such a bound, while the iterations push nothing the search is
    running, whatever the fuel. *)
Lemma search_runs_on (fuel : nat) (userTz : string) (tzs : list ZoneArg)
    (dur : Num) (n zonedNow date : DateTime) :
  now = Ok n -> setZone n (ZName userTz) = Ok zonedNow ->
  plusDays zonedNow 0 = Ok date ->
  (forall h, hourBody userTz tzs dur date h = Ok []) ->
  hoursUpTo (hourBound dur) = None ->
  search fuel userTz tzs dur = None.
Proof.
  intros Hn Hz Hd Hbody Hnone. unfold search. rewrite Hn. cbn [bind].
  rewrite Hz. cbn [dayLoop]. rewrite Hd.
  rewrite hourLoop_runs_on; auto. rewrite twoTo53_value. lia.
Qed.

End HandlerFacts.

(** ** The acceptance rule *)



(** ** Request errors and invalid zones *)

(** C2, as stated, fails when [callDuration] cannot be converted to a
    string.  The request names the invalid zone "Nowhere City" and sends
    the object [{"toString": 1}] as [callDuration]: [parseInt] throws
    before the zones are validated, and the response is the server-error
    payload, not the one with the invalid-timezone message. *)
Lemma unconvertible_duration_precedes_validation :
  let L := FixedZones.luxon FixedZones.monday in
  let req := mkBody (JString "UTC") (JString "tokyo, Nowhere City")
                    (JObject [("toString", JNumber 1)]) in
  missing (userTimezone req) = false /\ missing (leadLocations req) = false /\
  In (ZName "Nowhere City")
     (ZName (stringOf (userTimezone req))
      :: resolvedTzs (stringOf (leadLocations req))) /\
  zoneIsValid (ZName "Nowhere City") = false /\
  duration (callDuration req) = Throw "Cannot convert object to primitive value" /\
  (forall fuel, handler fuel req = Some (Json200 serverErrorHtml EmptyString)) /\
  Json200 serverErrorHtml EmptyString <> Json200 invalidTimezonesHtml EmptyString.
Proof.
  intros L req.
  split; [reflexivity |]. split; [reflexivity |].
  split; [vm_compute; tauto |]. split; [reflexivity |].
  split; [reflexivity |]. split.
  - intros fuel.
    apply (@handler_unconvertible L fuel req
             "Cannot convert object to primitive value"); reflexivity.
  - vm_compute. discriminate.
Qed.

(** C2, amended.  A field is rejected exactly when it is not a string whose
    trimmed text is non-empty.  A rejected [userTimezone], and after it a
    rejected [leadLocations], gives a 400 response with a message.  When
    both fields pass and any zone among the organizer's and the resolved
    participants' fails the validation, the response is the 200 payload
    with the invalid-timezone message and an empty link provided that
    [callDuration] can be converted to a string; when it cannot, the
    response is the 200 server-error payload with an empty link.  Either
    way the response is there before any search: it does not depend on the
    fuel.  The conversion fails exactly for an object with a member
    [toString] of its own, or an array that holds one. *)
Theorem missing_field_400_invalid_zone_200 (L : Luxon) (req : Body) (fuel : nat) :
  (forall v, missing v = false <-> exists s, v = JString s /\ trim s <> EmptyString) /\
  (missing (userTimezone req) = true ->
   handler fuel req = Some (Json400 "Please provide your timezone.")) /\
  (missing (userTimezone req) = false -> missing (leadLocations req) = true ->
   handler fuel req = Some (Json400 "Please provide lead locations.")) /\
  (missing (userTimezone req) = false -> missing (leadLocations req) = false ->
   forall tz,
     In tz (ZName (stringOf (userTimezone req))
            :: resolvedTzs (stringOf (leadLocations req))) ->
     zoneIsValid tz = false ->
     (forall dur, duration (callDuration req) = Ok dur ->
        handler fuel req = Some (Json200 invalidTimezonesHtml EmptyString)) /\
     (forall e, duration (callDuration req) = Throw e ->
        handler fuel req = Some (Json200 serverErrorHtml EmptyString))) /\
  (forall v e, duration v = Throw e <-> ToString v = Throw e) /\
  (forall fields,
      (exists e, ToString (JObject fields) = Throw e) <-> hasOwn "toString" fields = true) /\
  (forall v, match v with
             | JArray _ | JObject _ => True
             | _ => exists dur, duration v = Ok dur
             end).
Proof.
  split; [apply missing_false_iff |].
  split; [intros Hu; unfold handler, tryBlock; rewrite Hu; reflexivity |].
  split; [intros Hu Hl; unfold handler, tryBlock; rewrite Hu, Hl; reflexivity |].
  split; [| split; [apply duration_Throw | split]].
  - intros Hu Hl tz Hin Hbad.
    pose proof (invalid_zone_fails_validation _ _ tz Hin Hbad) as Hv. split.
    + intros dur Hd. apply (handler_invalid_zone fuel req dur); assumption.
    + intros e He. apply (handler_unconvertible fuel req e); assumption.
  - intros fields. simpl. destruct (hasOwn "toString" fields); split.
    + reflexivity.
    + intros _. eexists. reflexivity.
    + intros [e He]. discriminate.
    + discriminate.
  - intros v. destruct v as [| | [] | n | s | l | fields]; try exact I;
      eexists; reflexivity.
Qed.

Lemma missing_field_400_invalid_zone_200_witness :
  let L := FixedZones.luxon FixedZones.monday in
  let strict := FixedZones.luxon FixedZones.mondayStrict in
  @handler L 0 (mkBody JUndefined (JString "tokyo") JUndefined)
  = Some (Json400 "Please provide your timezone.") /\
  @handler L 0 (mkBody (JString "UTC") (JString "   ") (JNumber 30))
  = Some (Json400 "Please provide lead locations.") /\
  @handler L 0 (stringRequest "UTC" "tokyo, Nowhere City" "30")
  = Some (Json200 invalidTimezonesHtml EmptyString) /\
  @handler strict 0 (stringRequest "Mars/Olympus" "tokyo" "30")
  = Some (Json200 invalidTimezonesHtml EmptyString) /\
  @handler L 0 (mkBody (JString "Mars/Olympus") (JString "tokyo")
                       (JArray [JObject [("toString", JNull)]]))
  = Some (Json200 serverErrorHtml EmptyString).
Proof.
  intros L strict. split; [| split; [| split; [| split]]].
  - apply (proj1 (proj2 (missing_field_400_invalid_zone_200 L
             (mkBody JUndefined (JString "tokyo") JUndefined) 0))).
    reflexivity.
  - apply (proj1 (proj2 (proj2 (missing_field_400_invalid_zone_200 L
             (mkBody (JString "UTC") (JString "   ") (JNumber 30)) 0)))).
    + reflexivity.
    + reflexivity.
  - apply (proj1 (proj1 (proj2 (proj2 (proj2 (missing_field_400_invalid_zone_200 L
             (stringRequest "UTC" "tokyo, Nowhere City" "30") 0))))
             eq_refl eq_refl (ZName "Nowhere City")
             ltac:(simpl; right; right; left; reflexivity) eq_refl) (Fin 30)).
    reflexivity.
  - apply (proj1 (proj1 (proj2 (proj2 (proj2 (missing_field_400_invalid_zone_200 strict
             (stringRequest "Mars/Olympus" "tokyo" "30") 0))))
             eq_refl eq_refl (ZName "Mars/Olympus")
             ltac:(simpl; left; reflexivity) eq_refl) (Fin 30)).
    reflexivity.
  - apply (proj2 (proj1 (proj2 (proj2 (proj2 (missing_field_400_invalid_zone_200 L
             (mkBody (JString "Mars/Olympus") (JString "tokyo")
                     (JArray [JObject [("toString", JNull)]])) 0))))
             eq_refl eq_refl (ZName "Mars/Olympus")
             ltac:(simpl; left; reflexivity) eq_refl)
             "Cannot convert object to primitive value").
    reflexivity.
Defined.

(** ** Durations that fill or exceed the business day *)

(** C3, as stated, fails: a duration of 480 minutes has the candidate hour 9
    on every day, and with organizer and participant both in UTC the slot
    09:00-17:00 is accepted, so the table has slot rows. *)
Lemma duration_480_has_a_candidate :
  candidateHours 480 <> [] /\
  hoursUpTo (hourBound (Fin 480)) = Some [9] /\
  let L := FixedZones.luxon FixedZones.monday in
  let slot := mkSlot "Mon, 02 Nov 2026 09:00 (UTC)"
                     ["Mon, 02 Nov 2026 09:00 (UTC)"]
                     "https://cal.com/book?tz=UTC&start=2026-11-02T09%3A00%3A00.000Z&duration=480" in
  duration (callDuration (stringRequest "UTC" "UTC" "480")) = Ok (Fin 480) /\
  (exists rest, findSlots "UTC" [ZName "UTC"] 480 = Ok (slot :: rest)) /\
  search 2 "UTC" [ZName "UTC"] (Fin 480) = Some (findSlots "UTC" [ZName "UTC"] 480) /\
  handler 2 (stringRequest "UTC" "UTC" "480") <> None /\
  handler 2 (stringRequest "UTC" "UTC" "480")
  <> Some (Json200 (buildTable [ZName "UTC"] []) EmptyString).
Proof.
  split; [discriminate |]. split; [vm_compute; reflexivity |]. intros L slot.
  split; [vm_compute; reflexivity |]. split; [| split; [| split]].
  - exists (tl (returned (findSlots "UTC" [ZName "UTC"] 480))).
    apply returned_Ok. vm_compute. reflexivity.
  - vm_compute. reflexivity.
  - vm_compute. discriminate.
  - vm_compute. discriminate.
Qed.

(** C3, amended.  At exactly 480 minutes each day has the one candidate hour
    9.  The loop over the hours visits no hour exactly for a duration above
    480, of whatever magnitude; then, for a request that passed the checks
    and the validation, the search returns no slot, and the response is the
    table with the empty-state row and an empty link (the server-error
    payload if the library throws). *)
Theorem no_candidate_beyond_480 (L : Luxon) (req : Body) :
  candidateHours 480 = [9] /\
  hoursUpTo (hourBound (Fin 480)) = Some [9] /\
  (forall d, candidateHours d = [] <-> 480 < d) /\
  (forall dur, hoursUpTo (hourBound dur) = Some [] <-> exceeds480 dur) /\
  (let userTz := stringOf (userTimezone req) in
   let tzs := resolvedTzs (stringOf (leadLocations req)) in
   forall dur fuel,
     missing (userTimezone req) = false -> missing (leadLocations req) = false ->
     duration (callDuration req) = Ok dur ->
     validTzs userTz tzs = true -> exceeds480 dur -> (0 < fuel)%nat ->
     (forall slots, search fuel userTz tzs dur = Some (Ok slots) -> slots = []) /\
     (handler fuel req = Some (Json200 (emptyTable tzs) EmptyString) \/
      handler fuel req = Some (Json200 serverErrorHtml EmptyString))).
Proof.
  split; [reflexivity |]. split; [vm_compute; reflexivity |].
  split; [apply candidateHours_empty |]. split; [apply hours_empty_iff |].
  intros userTz tzs dur fuel Hu Hl Hd Hv Hex Hfuel.
  apply hours_empty_iff in Hex.
  assert (Hnone : forall slots, search fuel userTz tzs dur = Some (Ok slots) -> slots = []).
  { intros slots Hs. apply search_Ok in Hs.
    destruct Hs as [n [z [hours [os [_ [_ [Hhours [HF ->]]]]]]]].
    rewrite Hex in Hhours. inversion Hhours; subst hours.
    inversion HF. reflexivity. }
  split; [exact Hnone |].
  rewrite (handler_searched fuel req dur Hu Hl Hd Hv). fold userTz tzs.
  pose proof (search_returns userTz tzs fuel dur [] Hex Hfuel) as Hret.
  destruct (search fuel userTz tzs dur) as [[slots | e] |] eqn:Hs;
    [| right; reflexivity | contradiction].
  rewrite (Hnone slots eq_refl). left. rewrite buildTable_empty. reflexivity.
Qed.

Lemma no_candidate_beyond_480_witness :
  let L := FixedZones.luxon FixedZones.monday in
  let req := stringRequest "UTC" "UTC" "481" in
  let late := stringRequest "UTC" "UTC" ("1" ++ zeros 400) in
  exceeds480 (Fin 481) /\
  search 1 "UTC" [ZName "UTC"] (Fin 481) = Some (Ok []) /\
  handler 1 req = Some (Json200 (emptyTable [ZName "UTC"]) EmptyString) /\
  duration (callDuration late) = Ok PosInf /\
  handler 1 late = Some (Json200 (emptyTable [ZName "UTC"]) EmptyString).
Proof.
  intros L req late. split; [simpl; lia |]. split; [reflexivity |].
  split; [| split; [vm_compute; reflexivity |]].
  - destruct (proj2 (proj2 (proj2 (proj2 (no_candidate_beyond_480 L req))))
                (Fin 481) 1%nat eq_refl eq_refl eq_refl eq_refl
                ltac:(simpl; lia) ltac:(lia)) as [_ [H | H]]; [exact H |].
    vm_compute in H. discriminate.
  - destruct (proj2 (proj2 (proj2 (proj2 (no_candidate_beyond_480 L late))))
                PosInf 1%nat eq_refl eq_refl ltac:(vm_compute; reflexivity) eq_refl
                I ltac:(lia)) as [_ [H | H]]; [exact H |].
    vm_compute in H. discriminate.
Defined.

(** ** The wall clock of the runnable instance *)




(** ** The candidate hours and the organizer's window *)

(** C4, at the request with organizer UTC, participant UTC and
    [callDuration] "-60".  The handler checks no sign: the duration is -60,
    the loop over the hours runs from 9 to 18, and the candidate of 18:00 on
    the first day, whose window ends at 17:00, is accepted and returned as
    the tenth slot of the response.  That window is not inside
    09:00-17:00, the hours that the comment above the loops names. *)
Lemma negative_duration_slot_outside_envelope :
  let L := FixedZones.luxon FixedZones.monday in
  let start := FixedZones.mkZoned 1793642400000 (Some ("UTC", 0)) in
  let end_ := FixedZones.mkZoned 1793638800000 (Some ("UTC", 0)) in
  let slot := mkSlot "Mon, 02 Nov 2026 18:00 (UTC)"
                     ["Mon, 02 Nov 2026 18:00 (UTC)"]
                     "https://cal.com/book?tz=UTC&start=2026-11-02T18%3A00%3A00.000Z&duration=-60" in
  duration (callDuration (stringRequest "UTC" "UTC" "-60")) = Ok (Fin (-60)) /\
  hoursUpTo (hourBound (Fin (-60))) = Some [9; 10; 11; 12; 13; 14; 15; 16; 17; 18] /\
  search 11 "UTC" [ZName "UTC"] (Fin (-60))
  = Some (findSlots "UTC" [ZName "UTC"] (-60)) /\
  handler 11 (stringRequest "UTC" "UTC" "-60")
  = Some (Json200 (buildTable [ZName "UTC"]
                     (returned (findSlots "UTC" [ZName "UTC"] (-60))))
                  (meetingLinkOf (returned (findSlots "UTC" [ZName "UTC"] (-60))))) /\
  In (0, 18) (candidates (-60)) /\
  candidateWindow "UTC" (-60) (0, 18) start end_ /\
  allOk start end_ [ZName "UTC"] = true /\
  makeSlot "UTC" [ZName "UTC"] (-60) start = Ok slot /\
  nth_error (returned (findSlots "UTC" [ZName "UTC"] (-60))) 9 = Some slot /\
  FixedZones.minuteOfDay start = Some (18 * 60) /\
  FixedZones.minuteOfDay end_ = Some (17 * 60) /\
  ~ insideEnvelope (18 * 60) (17 * 60).
Proof.
  intros L start end_ slot.
  split; [vm_compute; reflexivity |].
  split; [vm_compute; reflexivity |].
  split; [vm_compute; reflexivity |].
  split; [vm_compute; reflexivity |].
  split.
  { apply candidates_In. split; [simpl; tauto |].
    apply candidateHours_In. vm_compute. split; discriminate. }
  split.
  { exists (FixedZones.mkZoned 1793614530250 (Some ("UTC", 0))),
           (FixedZones.mkZoned 1793614530250 (Some ("UTC", 0))),
           (FixedZones.mkZoned 1793614530250 (Some ("UTC", 0))).
    repeat split; vm_compute; reflexivity. }
  split; [vm_compute; reflexivity |].
  split; [vm_compute; reflexivity |].
  split; [vm_compute; reflexivity |].
  split; [vm_compute; reflexivity |].
  split; [vm_compute; reflexivity |].
  unfold insideEnvelope. lia.
Qed.



(** ** The default duration *)

Section DefaultDuration.

Context {L : Luxon}.

Lemma link_shows_30 (userTz : string) (iso : option string) :
  exists query, bookingLink userTz iso 30 = query ++ "&duration=30".
Proof.
  exists ("https://cal.com/book?tz=" ++ encodeURIComponent userTz
          ++ "&start="
          ++ encodeURIComponent (match iso with Some t => t | None => "null" end)).
  unfold bookingLink, linkOf.
  change (numToString (toNumber 30)) with "30".
  rewrite !append_assoc. reflexivity.
Qed.

(** The search of a request whose duration is 30: its hours are 9 to 16, it
    is the search that [findSlots] describes for 30 minutes, its slots are
    the accepted candidates of those hours with windows of 30 minutes, and
    their links carry the duration 30. *)
Lemma search_with_30 (req : Body) :
  let userTz := stringOf (userTimezone req) in
  let tzs := resolvedTzs (stringOf (leadLocations req)) in
  duration (callDuration req) = Ok (Fin 30) ->
  (forall fuel, handler fuel req = handler fuel (withDuration req (JNumber 30))) /\
  hoursUpTo (hourBound (Fin 30)) = Some [9; 10; 11; 12; 13; 14; 15; 16] /\
  (missing (userTimezone req) = false -> missing (leadLocations req) = false ->
   validTzs userTz tzs = true ->
   forall fuel, (8 < fuel)%nat ->
     search fuel userTz tzs (Fin 30) = Some (findSlots userTz tzs 30) /\
     handler fuel req =
     Some (match findSlots userTz tzs 30 with
           | Ok slots => Json200 (buildTable tzs slots) (meetingLinkOf slots)
           | Throw _ => Json200 serverErrorHtml EmptyString
           end)) /\
  (forall slots,
     findSlots userTz tzs 30 = Ok slots ->
     (exists accepted,
        Forall2 (acceptedSlot userTz tzs 30) accepted slots /\
        StronglySorted before accepted /\
        (forall c start end_,
            candidateWindow userTz 30 c start end_ ->
            (In c accepted <->
             (In (fst c) [0; 1; 2] /\ 9 <= snd c <= 16) /\
             allOk start end_ tzs = true))) /\
     (forall slot, In slot slots ->
        exists query, link slot = query ++ "&duration=30")).
Proof.
  intros userTz tzs Hd.
  split; [intros fuel; apply handler_duration; rewrite Hd; reflexivity |].
  split; [vm_compute; reflexivity |].
  split.
  - intros Hu Hl Hv fuel Hfuel.
    assert (Hs : search fuel userTz tzs (Fin 30) = Some (findSlots userTz tzs 30)).
    { apply search_findSlots;
        [reflexivity | vm_compute; reflexivity | vm_compute; discriminate |].
      change (List.length (candidateHours 30)) with 8%nat. exact Hfuel. }
    split; [exact Hs |].
    rewrite (handler_searched fuel req (Fin 30) Hu Hl Hd Hv).
    fold userTz tzs. rewrite Hs.
    destruct (findSlots userTz tzs 30); reflexivity.
  - intros slots Hs. split.
    + pose proof Hs as Hs'. apply findSlots_Ok in Hs'.
      destruct Hs' as [n [z [os [Hn [Hz [HF ->]]]]]].
      destruct (collect_accepted userTz tzs 30 n z (candidates 30) os Hn Hz HF)
        as [cs [Hslots [Hsub [Hsorted [Hin Hout]]]]].
      exists cs. split; [exact Hslots |].
      split; [apply Hsorted, candidates_sorted |].
      intros c start end_ Hw.
      assert (Hc : In c (candidates 30) <-> In (fst c) [0; 1; 2] /\ 9 <= snd c <= 16).
      { destruct c as [day h]. rewrite candidates_In, candidateHours_In.
        change (17 - ceilDiv 30 60) with 16. reflexivity. }
      split.
      * intros Hcs. split; [apply Hc; auto | eapply Hout; eauto].
      * intros [Hcand Hacc]. eapply Hin; eauto. apply Hc. exact Hcand.
    + intros slot Hin.
      destruct (slot_from_candidate userTz tzs 30 slots slot Hs Hin)
        as [c [start [end_ [_ [_ [_ Hm]]]]]].
      apply makeSlot_Ok in Hm. destruct Hm as [text [ls [iso [_ [_ [_ ->]]]]]].
      cbn [link]. apply link_shows_30.
Qed.

End DefaultDuration.

(** C5, as stated, fails for a [callDuration] that is neither absent nor a
    number and that [parseInt] cannot read: the object [{"toString": 1}].
    [parseInt] throws on it, the search does not run, and the response is
    the server-error payload, while the same request with the duration 30
    gets the table of its slots and a link. *)
Lemma unconvertible_duration_is_not_defaulted :
  let L := FixedZones.luxon FixedZones.monday in
  let req := mkBody (JString "Asia/Tokyo") (JString "Mumbai")
                    (JObject [("toString", JNumber 1)]) in
  parseInt10 (callDuration req) = Throw "Cannot convert object to primitive value" /\
  handler 9 req = Some (Json200 serverErrorHtml EmptyString) /\
  (exists table,
      handler 9 (withDuration req (JNumber 30))
      = Some (Json200 table
                "https://cal.com/book?tz=Asia%2FTokyo&start=2026-11-02T13%3A00%3A00.000%2B09%3A00&duration=30")) /\
  handler 9 req <> handler 9 (withDuration req (JNumber 30)).
Proof.
  intros L req. split; [reflexivity |]. split; [reflexivity |]. split.
  - exists (buildTable [ZName "Asia/Kolkata"]
              (returned (findSlots "Asia/Tokyo" [ZName "Asia/Kolkata"] 30))).
    vm_compute. reflexivity.
  - vm_compute. discriminate.
Qed.

(** C5, amended.  When [callDuration] is absent, or [parseInt] makes NaN of
    it, the duration is 30 and the response is the one of the same request
    with an explicit duration of 30: past the checks and the validation
    the search visits the hours 9 to 16 of the three days, the windows are
    of 30 minutes, the slots are exactly the accepted candidates, their
    links carry the duration 30, and the response is their table, or the
    server-error payload when the library throws.  This leaves out a
    [callDuration] on which [parseInt] throws. *)
Theorem duration_defaults_to_30 (L : Luxon) (req : Body) :
  let userTz := stringOf (userTimezone req) in
  let tzs := resolvedTzs (stringOf (leadLocations req)) in
  parseInt10 (callDuration req) = Ok None ->
  parseInt10 JUndefined = Ok None /\
  duration (callDuration req) = Ok (Fin 30) /\
  (forall fuel, handler fuel req = handler fuel (withDuration req (JNumber 30))) /\
  hoursUpTo (hourBound (Fin 30)) = Some [9; 10; 11; 12; 13; 14; 15; 16] /\
  (missing (userTimezone req) = false -> missing (leadLocations req) = false ->
   validTzs userTz tzs = true ->
   forall fuel, (8 < fuel)%nat ->
     search fuel userTz tzs (Fin 30) = Some (findSlots userTz tzs 30) /\
     handler fuel req =
     Some (match findSlots userTz tzs 30 with
           | Ok slots => Json200 (buildTable tzs slots) (meetingLinkOf slots)
           | Throw _ => Json200 serverErrorHtml EmptyString
           end)) /\
  (forall slots,
     findSlots userTz tzs 30 = Ok slots ->
     (exists accepted,
        Forall2 (acceptedSlot userTz tzs 30) accepted slots /\
        StronglySorted before accepted /\
        (forall c start end_,
            candidateWindow userTz 30 c start end_ ->
            (In c accepted <->
             (In (fst c) [0; 1; 2] /\ 9 <= snd c <= 16) /\
             allOk start end_ tzs = true))) /\
     (forall slot, In slot slots ->
        exists query, link slot = query ++ "&duration=30")).
Proof.
  intros userTz tzs Hnan. split; [reflexivity |].
  assert (Hd : duration (callDuration req) = Ok (Fin 30)).
  { unfold duration. rewrite Hnan. reflexivity. }
  split; [exact Hd |]. exact (search_with_30 req Hd).
Qed.

Lemma duration_defaults_to_30_witness :
  let L := FixedZones.luxon FixedZones.monday in
  let absent := mkBody (JString "Asia/Tokyo") (JString "Mumbai") JUndefined in
  let words := stringRequest "Asia/Tokyo" "Mumbai" "half an hour" in
  (duration (callDuration absent) = Ok (Fin 30) /\
   handler 9 absent = handler 9 (withDuration absent (JNumber 30))) /\
  (duration (callDuration words) = Ok (Fin 30) /\
   handler 9 words
   = Some (match findSlots "Asia/Tokyo" [ZName "Asia/Kolkata"] 30 with
           | Ok slots => Json200 (buildTable [ZName "Asia/Kolkata"] slots)
                                 (meetingLinkOf slots)
           | Throw _ => Json200 serverErrorHtml EmptyString
           end)).
Proof.
  intros L absent words.
  pose proof (duration_defaults_to_30 L absent eq_refl) as Ha.
  pose proof (duration_defaults_to_30 L words eq_refl) as Hw.
  split.
  - split; [exact (proj1 (proj2 Ha)) | exact (proj1 (proj2 (proj2 Ha)) 9%nat)].
  - split; [exact (proj1 (proj2 Hw)) |].
    exact (proj2 (proj1 (proj2 (proj2 (proj2 (proj2 Hw))))
                    eq_refl eq_refl eq_refl 9%nat ltac:(lia))).
Defined.

(** C10.  When [callDuration] parses to the number 0, as the string "0"
    does, the duration is 30 as well: zero is falsy, so
    [parseInt(callDuration, 10) || 30] takes the default.  The response is
    the one of the same request with an explicit duration of 30: past the
    checks and the validation the search visits the hours 9 to 16 of the
    three days, the windows are of 30 minutes, the slots are exactly the
    accepted candidates, their links carry the duration 30, and the
    response is their table, or the server-error payload when the library
    throws. *)
Theorem zero_duration_defaults_to_30 (L : Luxon) (req : Body) :
  let userTz := stringOf (userTimezone req) in
  let tzs := resolvedTzs (stringOf (leadLocations req)) in
  parseInt10 (callDuration req) = Ok (Some (Fin 0)) ->
  parseInt10 (JString "0") = Ok (Some (Fin 0)) /\
  duration (callDuration req) = Ok (Fin 30) /\
  (forall fuel, handler fuel req = handler fuel (withDuration req (JNumber 30))) /\
  hoursUpTo (hourBound (Fin 30)) = Some [9; 10; 11; 12; 13; 14; 15; 16] /\
  (missing (userTimezone req) = false -> missing (leadLocations req) = false ->
   validTzs userTz tzs = true ->
   forall fuel, (8 < fuel)%nat ->
     search fuel userTz tzs (Fin 30) = Some (findSlots userTz tzs 30) /\
     handler fuel req =
     Some (match findSlots userTz tzs 30 with
           | Ok slots => Json200 (buildTable tzs slots) (meetingLinkOf slots)
           | Throw _ => Json200 serverErrorHtml EmptyString
           end)) /\
  (forall slots,
     findSlots userTz tzs 30 = Ok slots ->
     (exists accepted,
        Forall2 (acceptedSlot userTz tzs 30) accepted slots /\
        StronglySorted before accepted /\
        (forall c start end_,
            candidateWindow userTz 30 c start end_ ->
            (In c accepted <->
             (In (fst c) [0; 1; 2] /\ 9 <= snd c <= 16) /\
             allOk start end_ tzs = true))) /\
     (forall slot, In slot slots ->
        exists query, link slot = query ++ "&duration=30")).
Proof.
  intros userTz tzs Hzero. split; [reflexivity |].
  assert (Hd : duration (callDuration req) = Ok (Fin 30)).
  { unfold duration. rewrite Hzero. reflexivity. }
  split; [exact Hd |]. exact (search_with_30 req Hd).
Qed.

Lemma zero_duration_defaults_to_30_witness :
  let L := FixedZones.luxon FixedZones.monday in
  let zero := stringRequest "Asia/Tokyo" "Mumbai" "0" in
  duration (callDuration zero) = Ok (Fin 30) /\
  handler 9 zero = handler 9 (withDuration zero (JNumber 30)) /\
  handler 9 zero
  = Some (match findSlots "Asia/Tokyo" [ZName "Asia/Kolkata"] 30 with
          | Ok slots => Json200 (buildTable [ZName "Asia/Kolkata"] slots)
                                (meetingLinkOf slots)
          | Throw _ => Json200 serverErrorHtml EmptyString
          end).
Proof.
  intros L zero.
  pose proof (zero_duration_defaults_to_30 L zero eq_refl) as Hz.
  split; [exact (proj1 (proj2 Hz)) |].
  split; [exact (proj1 (proj2 (proj2 Hz)) 9%nat) |].
  exact (proj2 (proj1 (proj2 (proj2 (proj2 (proj2 Hz))))
                  eq_refl eq_refl eq_refl 9%nat ltac:(lia))).
Defined.

(** ** Location tokens *)

Lemma split_join (sep : ascii) (s : string) :
  String.concat (String sep EmptyString) (split sep s) = s.
Proof.
  induction s as [| c r IH]; simpl; [reflexivity |].
  destruct (Ascii.eqb c sep) eqn:Hc.
  - apply Ascii.eqb_eq in Hc. subst c. simpl.
    destruct (split sep r) as [| h t] eqn:Hsplit.
    + destruct r; simpl in Hsplit; [discriminate |].
      destruct (Ascii.eqb a sep); [discriminate |].
      destruct (split sep r); discriminate.
    + simpl in *. rewrite IH. reflexivity.
  - destruct (split sep r) as [| h t] eqn:Hsplit.
    + destruct r; simpl in Hsplit; [discriminate |].
      destruct (Ascii.eqb a sep); [discriminate |].
      destruct (split sep r); discriminate.
    + simpl in *. destruct t; simpl in *; rewrite <- IH; reflexivity.
Qed.

Lemma split_pieces_have_no_separator (sep : ascii) (s piece : string) :
  In piece (split sep s) -> contains sep piece = false.
Proof.
  revert piece. induction s as [| c r IH]; simpl; intros piece Hin.
  - destruct Hin as [<- | []]. reflexivity.
  - destruct (Ascii.eqb c sep) eqn:Hc.
    + destruct Hin as [<- | Hin]; [reflexivity | auto].
    + destruct (split sep r) as [| h t].
      * destruct Hin as [<- | []]. simpl. rewrite Hc. reflexivity.
      * destruct Hin as [<- | Hin].
        -- simpl. rewrite Hc. simpl. apply IH. left. reflexivity.
        -- apply IH. right. exact Hin.
Qed.

(** The tokens are the trimmed pieces that are not empty, in their order. *)
Lemma leadTzs_tokens (locations token : string) :
  In token (leadTzs locations) <->
  token <> EmptyString /\ exists piece, In piece (split "," locations) /\ trim piece = token.
Proof.
  unfold leadTzs. rewrite filter_In, in_map_iff. split.
  - intros [[piece [Ht Hp]] Hne]. split.
    + intros ->. discriminate.
    + exists piece. auto.
  - intros [Hne [piece [Hp Ht]]]. split.
    + exists piece. auto.
    + destruct token; [contradiction | reflexivity].
Qed.

Lemma ownProperty_In (key value : string) (o : list (string * string)) :
  ownProperty key o = Some value -> In (key, value) o.
Proof.
  induction o as [| [k v] r IH]; simpl; [discriminate |].
  destruct (String.eqb k key) eqn:Hk.
  - intros H. inversion H; subst. apply String.eqb_eq in Hk. subst. auto.
  - auto.
Qed.

(** Any casing of a city of the table resolves to the zone of the lowercase
    key. *)
Lemma resolveTz_city (token zone : string) :
  ownProperty (toLowerCase token) cityToTz = Some zone ->
  resolveTz token = ZName zone.
Proof.
  intros Hown. unfold resolveTz, getProperty. rewrite Hown.
  apply ownProperty_In in Hown.
  assert (Hall : forallb (fun kv => nonEmpty (snd kv)) cityToTz = true) by reflexivity.
  rewrite forallb_forall in Hall. specialize (Hall _ Hown). simpl in Hall.
  rewrite Hall. reflexivity.
Qed.

(** A token that is not empty and whose lowercase form names neither a city
    nor an inherited member is used as it is. *)
Lemma resolveTz_verbatim (token : string) :
  token <> EmptyString ->
  ownProperty (toLowerCase token) cityToTz = None ->
  existsb (String.eqb (toLowerCase token)) objectPrototypeKeys = false ->
  resolveTz token = ZName token.
Proof.
  intros Hne Hown Hinh. unfold resolveTz, getProperty. rewrite Hown, Hinh.
  unfold tokenOrUTC. destruct token; [contradiction | reflexivity].
Qed.

(** A token whose lowercase form names an inherited member resolves to that
    member, not to a string. *)
Lemma resolveTz_inherited (token : string) :
  existsb (String.eqb (toLowerCase token)) objectPrototypeKeys = true ->
  resolveTz token = ZInherited (toLowerCase token).
Proof.
  intros Hinh. unfold resolveTz, getProperty.
  destruct (ownProperty (toLowerCase token) cityToTz) as [zone |] eqn:Hown.
  - exfalso. apply ownProperty_In in Hown.
    assert (Hall : forallb (fun kv =>
              negb (existsb (String.eqb (fst kv)) objectPrototypeKeys)) cityToTz = true)
      by reflexivity.
    rewrite forallb_forall in Hall. specialize (Hall _ Hown). cbn [fst] in Hall.
    rewrite Hinh in Hall. discriminate.
  - rewrite Hinh. reflexivity.
Qed.

(** C6, at the token "constructor".  The token is not a city of the table,
    yet it is not used verbatim: the lookup finds the member the table
    inherits under that name, in any casing of the token, and the resolved
    zone is that member instead of the string.  The validation then rejects
    the request. *)
Theorem inherited_member_is_not_verbatim :
  ownProperty (toLowerCase "constructor") cityToTz = None /\
  resolvedTzs "london, constructor" = [ZName "Europe/London"; ZInherited "constructor"] /\
  resolveTz "constructor" <> ZName "constructor" /\
  resolveTz "__PROTO__" = ZInherited "__proto__" /\
  (let L := FixedZones.luxon FixedZones.monday in
   forall fuel,
     handler fuel (stringRequest "UTC" "constructor" "30")
     = Some (Json200 invalidTimezonesHtml EmptyString)).
Proof.
  split; [reflexivity |]. split; [reflexivity |].
  split; [discriminate |]. split; [reflexivity |].
  intros L fuel. reflexivity.
Qed.

(** ** The times reported for the participants *)





(** ** The order of the candidates in the runnable instance *)

Lemma fz_window (cfg : FixedZones.Config) (userTz : string) (off d day h : Z)
    (start end_ : FixedZones.ZonedTime) :
  FixedZones.offsetOf userTz FixedZones.zones = Some off ->
  @candidateWindow (FixedZones.luxon cfg) userTz d (day, h) start end_ <->
  start = FixedZones.mkZoned (FixedZones.candidateStart cfg off day h)
                             (Some (userTz, off)) /\
  end_ = FixedZones.mkZoned (FixedZones.candidateStart cfg off day h + d * 60000)
                            (Some (userTz, off)).
Proof.
  intros Hoff.
  assert (Hday : (FixedZones.clock cfg + day * 86400000 + off * 60000) / 86400000
                 = (FixedZones.clock cfg + off * 60000) / 86400000 + day).
  { replace (FixedZones.clock cfg + day * 86400000 + off * 60000)
      with (FixedZones.clock cfg + off * 60000 + day * 86400000) by ring.
    apply Z.div_add. lia. }
  unfold candidateWindow. cbn [fst snd]. simpl.
  unfold FixedZones.fzNow, FixedZones.fzSetZone. split.
  - intros [n [z [date [Hn [Hz [Hd [Hs He]]]]]]].
    inversion Hn; subst n. clear Hn.
    cbn [FixedZones.zone FixedZones.ts] in Hz. rewrite Hoff in Hz. simpl in Hz.
    inversion Hz; subst z. clear Hz.
    unfold FixedZones.fzPlusDays in Hd. cbn [FixedZones.zone FixedZones.ts] in Hd.
    inversion Hd; subst date. clear Hd.
    unfold FixedZones.fzSet in Hs. cbn [FixedZones.zone FixedZones.ts] in Hs.
    unfold FixedZones.localMillis in Hs. rewrite Hday in Hs.
    inversion Hs; subst start. clear Hs.
    unfold FixedZones.fzPlusMinutes in He. cbn [FixedZones.zone FixedZones.ts] in He.
    inversion He; subst end_. clear He.
    unfold FixedZones.candidateStart. split; f_equal; ring.
  - intros [-> ->].
    exists (FixedZones.mkZoned (FixedZones.clock cfg) (Some ("UTC", 0))),
           (FixedZones.mkZoned (FixedZones.clock cfg) (Some (userTz, off))),
           (FixedZones.mkZoned (FixedZones.clock cfg + day * 86400000)
                               (Some (userTz, off))).
    split; [reflexivity |].
    split; [cbn [FixedZones.zone FixedZones.ts]; rewrite Hoff; reflexivity |].
    split; [reflexivity |].
    split.
    + unfold FixedZones.fzSet. cbn [FixedZones.zone FixedZones.ts].
      unfold FixedZones.localMillis. rewrite Hday.
      unfold FixedZones.candidateStart. do 2 f_equal. ring.
    + reflexivity.
Qed.

Lemma sorted_split_before (pre post : list (Z * Z)) (c : Z * Z) :
  StronglySorted before (pre ++ c :: post) ->
  (forall x, In x pre -> before x c) /\ (forall y, In y post -> before c y).
Proof.
  induction pre as [| a pre' IH]; simpl; intros Hs.
  - inversion Hs as [| c' post' _ Hall]; subst. split; [intros x [] |].
    rewrite Forall_forall in Hall. exact Hall.
  - inversion Hs as [| a' l' Hs' Hall]; subst.
    destruct (IH Hs') as [Hpre Hpost]. split; [| exact Hpost].
    intros x [<- | Hx]; [| auto].
    rewrite Forall_forall in Hall. apply Hall. apply in_elt.
Qed.

(** In the runnable instance the first slot is the earliest: no returned
    slot starts at an earlier instant. *)
Lemma fixed_zone_first_is_earliest (cfg : FixedZones.Config) (userTz : string)
    (off : Z) (tzs : list ZoneArg) (d : Z) (first : Slot) (rest : list Slot) :
  FixedZones.offsetOf userTz FixedZones.zones = Some off ->
  @findSlots (FixedZones.luxon cfg) userTz tzs d = Ok (first :: rest) ->
  exists c0 start0 end0,
    @candidateWindow (FixedZones.luxon cfg) userTz d c0 start0 end0 /\
    @makeSlot (FixedZones.luxon cfg) userTz tzs d start0 = Ok first /\
    forall slot, In slot (first :: rest) ->
      exists c start end_,
        @candidateWindow (FixedZones.luxon cfg) userTz d c start end_ /\
        @allOk (FixedZones.luxon cfg) start end_ tzs = true /\
        @makeSlot (FixedZones.luxon cfg) userTz tzs d start = Ok slot /\
        FixedZones.ts start0 <= FixedZones.ts start.
Proof.
  intros Hoff Hs.
  destruct (first_slot_from_first_accepted userTz tzs d first rest Hs)
    as [pre [c0 [post [start0 [end0 [Hsplit [Hw0 [Hok0 [Hm0 Hpre]]]]]]]]].
  exists c0, start0, end0. split; [exact Hw0 |]. split; [exact Hm0 |].
  intros slot Hin.
  destruct (slot_from_candidate userTz tzs d _ slot Hs Hin)
    as [c [start [end_ [Hc [Hw [Hok Hm]]]]]].
  exists c, start, end_.
  split; [exact Hw |]. split; [exact Hok |]. split; [exact Hm |].
  destruct c0 as [day0 h0]. destruct c as [day h].
  pose proof (proj1 (fz_window cfg userTz off d day0 h0 start0 end0 Hoff) Hw0)
    as [Hstart0 _].
  pose proof (proj1 (fz_window cfg userTz off d day h start end_ Hoff) Hw)
    as [Hstart Hend].
  destruct (Z_le_gt_dec (24 * day0 + h0) (24 * day + h)) as [Hle | Hgt].
  { rewrite Hstart0, Hstart. cbn [FixedZones.ts].
    unfold FixedZones.candidateStart. lia. }
  exfalso.
  pose proof (candidates_sorted d) as Hsorted. rewrite Hsplit in Hsorted.
  destruct (sorted_split_before pre post (day0, h0) Hsorted) as [_ Hpost].
  assert (Hc0 : In (day0, h0) (candidates d)) by (rewrite Hsplit; apply in_elt).
  apply candidates_In in Hc0. destruct Hc0 as [Hday0 Hh0].
  apply candidateHours_In in Hh0.
  pose proof Hc as Hc'. apply candidates_In in Hc'. destruct Hc' as [_ Hh].
  apply candidateHours_In in Hh.
  rewrite Hsplit in Hc. apply in_app_or in Hc. destruct Hc as [Hc | [Hc | Hc]].
  - rewrite (Hpre _ _ _ Hc Hw) in Hok. discriminate.
  - inversion Hc; subst. lia.
  - destruct (Hpost _ Hc) as [Hlt | [Heq Hlt]]; cbn [fst snd] in *; [| lia].
    set (h' := h + 24 * (day - day0)).
    assert (Hw' : @candidateWindow (FixedZones.luxon cfg) userTz d (day0, h') start end_).
    { apply (fz_window cfg userTz off d day0 h' start end_ Hoff).
      rewrite Hstart, Hend. unfold FixedZones.candidateStart, h'.
      split; f_equal; ring. }
    assert (Hc' : In (day0, h') (candidates d)).
    { apply candidates_In. split; [exact Hday0 |].
      apply candidateHours_In. unfold h'. lia. }
    rewrite Hsplit in Hc'. apply in_app_or in Hc'.
    destruct Hc' as [Hc' | [Hc' | Hc']].
    + rewrite (Hpre _ _ _ Hc' Hw') in Hok. discriminate.
    + inversion Hc'. unfold h' in *. lia.
    + destruct (Hpost _ Hc') as [Hlt' | [_ Hlt']]; cbn [fst snd] in *;
        unfold h' in *; lia.
Qed.

(** ** The empty table and the booking link *)

Lemma candidatesOver_sorted (hours : list Z) :
  StronglySorted Z.lt hours -> StronglySorted before (candidatesOver hours).
Proof.
  intros Hs.
  assert (Hcross : forall day1 day2 x y, day1 < day2 ->
            In x (map (pair day1) hours) ->
            In y (map (pair day2) hours) -> before x y).
  { intros day1 day2 x y Hlt Hx Hy.
    apply in_map_iff in Hx. destruct Hx as [hx [<- _]].
    apply in_map_iff in Hy. destruct Hy as [hy [<- _]].
    left. exact Hlt. }
  unfold candidatesOver. simpl. rewrite app_nil_r.
  apply StronglySorted_app; [apply day_hours_sorted; exact Hs | |].
  - apply StronglySorted_app; try (apply day_hours_sorted; exact Hs).
    intros x y. apply Hcross. lia.
  - intros x y Hx Hy. apply in_app_or in Hy.
    destruct Hy as [Hy | Hy]; [apply (Hcross 0 1) | apply (Hcross 0 2)];
      auto; lia.
Qed.

Lemma hoursUpTo_sorted (bound : Num) (hours : list Z) :
  hoursUpTo bound = Some hours -> StronglySorted Z.lt hours.
Proof.
  destruct bound as [b | |]; simpl; [| discriminate |].
  - destruct (b <? twoTo53); [| discriminate].
    intros H. inversion H. apply hoursFromTo_sorted.
  - intros H. inversion H. constructor.
Qed.

Section FirstSlot.

Context {L : Luxon}.

Variables (userTz : string) (tzs : list ZoneArg).

Lemma slotObject_Ok (dur : Num) (start : DateTime) (slot : Slot) :
  slotObject userTz tzs dur start = Ok slot ->
  exists text ls iso,
    toFormat start slotFormat = Ok text /\
    Forall2 (fun tz l => leadTime start tz = Ok l) tzs ls /\
    toISO start = Ok iso /\
    slot = mkSlot (text ++ " (" ++ userTz ++ ")") ls (linkOf userTz iso dur).
Proof.
  unfold slotObject. intros H. apply bind_Ok in H. destruct H as [text [Ht H]].
  apply bind_Ok in H. destruct H as [ls [Hls H]].
  apply bind_Ok in H. destruct H as [iso [Hiso H]]. inversion H; subst.
  exists text, ls, iso. repeat split; auto. apply mapExc_Ok. assumption.
Qed.

Lemma pushedAt_Ok (dur : Num) (zonedNow : DateTime) (c : Z * Z) (out : list Slot) :
  pushedAt userTz tzs dur zonedNow c = Ok out <->
  exists date start end_,
    plusDays zonedNow (fst c) = Ok date /\
    set date (snd c) 0 0 0 = Ok start /\ plusDuration start dur = Ok end_ /\
    ((allOk start end_ tzs = true /\
      exists slot, slotObject userTz tzs dur start = Ok slot /\ out = [slot])
     \/ (allOk start end_ tzs = false /\ out = [])).
Proof.
  unfold pushedAt. rewrite bind_Ok. split.
  - intros [date [Hd H]]. apply hourBody_Ok in H.
    destruct H as [start [end_ [Hs [He H]]]]. exists date, start, end_. auto.
  - intros [date [start [end_ [Hd [Hs [He H]]]]]]. exists date.
    split; [assumption |]. apply hourBody_Ok. exists start, end_. auto.
Qed.

(** The first slot of a search comes from the first candidate, in the order
    of the loops, that is accepted; the duration is then finite. *)
Lemma first_pushed (fuel : nat) (dur : Num) (first : Slot) (rest : list Slot) :
  search fuel userTz tzs dur = Some (Ok (first :: rest)) ->
  exists d hours pre c post start end_,
    dur = Fin d /\ hoursUpTo (hourBound dur) = Some hours /\
    candidatesOver hours = (pre ++ c :: post)%list /\
    candidateWindow userTz d c start end_ /\
    allOk start end_ tzs = true /\
    slotObject userTz tzs dur start = Ok first /\
    forall c' start' end', In c' pre ->
      candidateWindow userTz d c' start' end' -> allOk start' end' tzs = false.
Proof.
  intros H. apply search_Ok in H.
  destruct H as [n [z [hours [os [Hn [Hz [Hhours [HF Heq]]]]]]]]. symmetry in Heq.
  destruct (Forall2_concat_head _ _ _ _ _ HF Heq)
    as [pre [c [post [o [Hsplit [Hc Hpre]]]]]].
  assert (Hfin : exists d, dur = Fin d).
  { destruct dur as [d | |]; [eauto | exfalso | discriminate].
    simpl in Hhours. inversion Hhours; subst hours.
    destruct pre; discriminate. }
  destruct Hfin as [d ->].
  apply pushedAt_Ok in Hc.
  destruct Hc as [date [start [end_ [Hd [Hs [He Hcase]]]]]].
  destruct Hcase as [[Hok [slot [Hm Hout]]] | [_ Hout]]; [| discriminate].
  inversion Hout; subst slot o.
  exists d, hours, pre, c, post, start, end_. repeat split; auto.
  - exists n, z, date. auto.
  - intros c' start' end' Hin [n' [z' [date' [Hn' [Hz' [Hd' [Hs' He']]]]]]].
    rewrite Hn in Hn'. inversion Hn'; subst n'.
    rewrite Hz in Hz'. inversion Hz'; subst z'.
    specialize (Hpre c' Hin). apply pushedAt_Ok in Hpre.
    destruct Hpre as [date2 [start2 [end2 [Hd2 [Hs2 [He2 Hcase]]]]]].
    rewrite Hd' in Hd2. inversion Hd2; subst date2.
    rewrite Hs' in Hs2. inversion Hs2; subst start2.
    simpl in He2. rewrite He' in He2. inversion He2; subst end2.
    destruct Hcase as [[_ [slot [_ Habs]]] | [Hno _]]; [discriminate | exact Hno].
Qed.

End FirstSlot.

(** The head cells of the table without a slot: one for the organizer and
    one for each resolved zone. *)
Lemma emptyTable_cells (tzs : list ZoneArg) :
  exists cells,
    List.length cells = S (List.length tzs) /\
    (forall cell, In cell cells ->
       exists label,
         cell = html "<th style='padding:8px;border-bottom:1px solid #ccc;'>"
                ++ label ++ "</th>") /\
    emptyTable tzs =
    html "<table style='width:100%;border-collapse:collapse;background:#fff;color:#333;'>"
    ++ "<tr>" ++ String.concat EmptyString cells ++ "</tr>"
    ++ html "<tr><td colspan='" ++ numberToString (Z.of_nat (List.length cells))
    ++ html "' style='padding:12px;color:#ff5252;text-align:center;'>No overlapping slots found for the next 3 days.</td></tr>"
    ++ "</table>".
Proof.
  exists (html "<th style='padding:8px;border-bottom:1px solid #ccc;'>Your Time</th>"
          :: map (fun itz =>
                    html "<th style='padding:8px;border-bottom:1px solid #ccc;'>Lead "
                    ++ numberToString (Z.of_nat (fst itz) + 1)
                    ++ " (" ++ zoneText (snd itz) ++ ")</th>")
                 (combine (seq 0 (List.length tzs)) tzs)).
  split; [| split; [| unfold emptyTable; f_equal; f_equal]].
  - cbn [List.length]. rewrite length_map, length_combine, length_seq.
    rewrite Nat.min_id. reflexivity.
  - intros cell [<- | Hin].
    + exists "Your Time". reflexivity.
    + apply in_map_iff in Hin. destruct Hin as [[i tz] [<- _]]. cbn [fst snd].
      exists ("Lead " ++ numberToString (Z.of_nat i + 1) ++ " (" ++ zoneText tz ++ ")").
      rewrite !append_assoc. reflexivity.
  - cbn [List.length]. rewrite length_map, length_combine, length_seq, Nat.min_id.
    replace (Z.of_nat (S (List.length tzs))) with (1 + Z.of_nat (List.length tzs)) by lia.
    reflexivity.
Qed.

(** C8.  For a request that passed the checks, whose [callDuration] was
    converted and whose zones are valid.  If the search returns no slot,
    the response is a 200 whose table is the head row, with one cell for
    the organizer and one for each resolved participant, followed by the
    single no-overlap row whose [colspan] is the number of those cells;
    its link is empty.  If the search returns slots, the link is the link
    of the first one, and that slot comes from the first accepted candidate
    in the day-then-hour order of the loops (every candidate before it is
    rejected); its link is the cal.com template with the organizer zone,
    [toISO] of the start and the duration as the query parameters [tz],
    [start] and [duration].  In the runnable instance the first slot is
    also the earliest in time: no returned slot starts at an earlier
    instant. *)
Theorem empty_row_or_first_slot_link (L : Luxon) (req : Body) (fuel : nat)
    (dur : Num) :
  let userTz := stringOf (userTimezone req) in
  let tzs := resolvedTzs (stringOf (leadLocations req)) in
  missing (userTimezone req) = false -> missing (leadLocations req) = false ->
  duration (callDuration req) = Ok dur ->
  validTzs userTz tzs = true ->
  (search fuel userTz tzs dur = Some (Ok []) ->
   exists table cells,
     handler fuel req = Some (Json200 table EmptyString) /\
     List.length cells = S (List.length tzs) /\
     (forall cell, In cell cells ->
        exists label,
          cell = html "<th style='padding:8px;border-bottom:1px solid #ccc;'>"
                 ++ label ++ "</th>") /\
     table =
     html "<table style='width:100%;border-collapse:collapse;background:#fff;color:#333;'>"
     ++ "<tr>" ++ String.concat EmptyString cells ++ "</tr>"
     ++ html "<tr><td colspan='" ++ numberToString (Z.of_nat (List.length cells))
     ++ html "' style='padding:12px;color:#ff5252;text-align:center;'>No overlapping slots found for the next 3 days.</td></tr>"
     ++ "</table>" /\
     table = emptyTable tzs) /\
  (forall first rest,
      search fuel userTz tzs dur = Some (Ok (first :: rest)) ->
      handler fuel req = Some (Json200 (buildTable tzs (first :: rest)) (link first)) /\
      exists d hours pre c post start end_ iso,
        dur = Fin d /\ hoursUpTo (hourBound dur) = Some hours /\
        StronglySorted before (candidatesOver hours) /\
        candidatesOver hours = (pre ++ c :: post)%list /\
        candidateWindow userTz d c start end_ /\
        allOk start end_ tzs = true /\
        (forall c' start' end', In c' pre ->
           candidateWindow userTz d c' start' end' ->
           allOk start' end' tzs = false) /\
        toISO start = Ok iso /\
        link first =
        "https://cal.com/book?tz=" ++ encodeURIComponent userTz
        ++ "&start="
        ++ encodeURIComponent (match iso with Some t => t | None => "null" end)
        ++ "&duration=" ++ numToString dur) /\
  (forall d cfg off first rest,
      FixedZones.offsetOf userTz FixedZones.zones = Some off ->
      @findSlots (FixedZones.luxon cfg) userTz tzs d = Ok (first :: rest) ->
      exists c0 start0 end0,
        @candidateWindow (FixedZones.luxon cfg) userTz d c0 start0 end0 /\
        @makeSlot (FixedZones.luxon cfg) userTz tzs d start0 = Ok first /\
        forall slot, In slot (first :: rest) ->
          exists c start end_,
            @candidateWindow (FixedZones.luxon cfg) userTz d c start end_ /\
            @allOk (FixedZones.luxon cfg) start end_ tzs = true /\
            @makeSlot (FixedZones.luxon cfg) userTz tzs d start = Ok slot /\
            FixedZones.ts start0 <= FixedZones.ts start).
Proof.
  intros userTz tzs Hu Hl Hd Hv.
  split; [| split; [| intros d cfg off; apply fixed_zone_first_is_earliest]].
  - intros Hs.
    destruct (emptyTable_cells tzs) as [cells [Hlen [Hcells Heq]]].
    exists (emptyTable tzs), cells.
    split; [| split; [exact Hlen | split; [exact Hcells | split; [exact Heq | reflexivity]]]].
    rewrite (handler_searched fuel req dur Hu Hl Hd Hv). fold userTz tzs.
    rewrite Hs. rewrite buildTable_empty. reflexivity.
  - intros first rest Hs.
    split.
    + rewrite (handler_searched fuel req dur Hu Hl Hd Hv). fold userTz tzs.
      rewrite Hs. reflexivity.
    + destruct (first_pushed userTz tzs fuel dur first rest Hs)
        as [d [hours [pre [c [post [start [end_
             [Hfin [Hhours [Hsplit [Hw [Hok [Hm Hpre]]]]]]]]]]]]].
      apply slotObject_Ok in Hm. destruct Hm as [text [ls [iso [_ [_ [Hiso ->]]]]]].
      exists d, hours, pre, c, post, start, end_, iso.
      split; [exact Hfin |]. split; [exact Hhours |].
      split; [apply candidatesOver_sorted; eapply hoursUpTo_sorted; exact Hhours |].
      repeat split; auto.
Qed.

Lemma empty_row_or_first_slot_link_witness :
  let L := FixedZones.luxon FixedZones.monday in
  let none := stringRequest "UTC" "tokyo, mumbai" "30" in
  let some := stringRequest "Asia/Tokyo" "Mumbai" "180" in
  handler 9 none
  = Some (Json200 (emptyTable [ZName "Asia/Tokyo"; ZName "Asia/Kolkata"]) EmptyString) /\
  exists table,
    handler 9 some =
    Some (Json200 table
      "https://cal.com/book?tz=Asia%2FTokyo&start=2026-11-02T13%3A00%3A00.000%2B09%3A00&duration=180").
Proof.
  intros L none some. split.
  - destruct (proj1 (empty_row_or_first_slot_link L none 9 (Fin 30)
                       eq_refl eq_refl eq_refl eq_refl))
      as [table [cells [Hh [_ [_ [_ ->]]]]]]; [vm_compute; reflexivity |].
    exact Hh.
  - pose (first := mkSlot "Mon, 02 Nov 2026 13:00 (Asia/Tokyo)"
                     ["Mon, 02 Nov 2026 09:30 (Asia/Kolkata)"]
                     "https://cal.com/book?tz=Asia%2FTokyo&start=2026-11-02T13%3A00%3A00.000%2B09%3A00&duration=180").
    assert (Hs : search 9 "Asia/Tokyo" [ZName "Asia/Kolkata"] (Fin 180)
                 = Some (Ok (first :: tl (returned (findSlots "Asia/Tokyo" [ZName "Asia/Kolkata"] 180))))).
    { vm_compute. reflexivity. }
    destruct (proj1 (proj2 (empty_row_or_first_slot_link L some 9 (Fin 180)
                              eq_refl eq_refl eq_refl eq_refl))
                first _ Hs) as [Hh _].
    eexists. exact Hh.
Defined.

(** ** Faults *)

(** In the runnable instance an end that is no instant is rejected by
    every participant. *)
Lemma infinite_duration_pushes_nothing (cfg : FixedZones.Config)
    (userTz : string) (tz : ZoneArg) (tzs : list ZoneArg) (negative : bool)
    (date : FixedZones.ZonedTime) (h : Z) :
  @hourBody (FixedZones.luxon cfg) userTz (tz :: tzs)
            (if negative then NegInf else PosInf) date h = Ok [].
Proof.
  unfold hourBody. simpl set. unfold FixedZones.fzSet.
  assert (Hrej : forall start : FixedZones.ZonedTime,
            @allOk (FixedZones.luxon cfg) start
                   (FixedZones.mkZoned (FixedZones.ts start) None) (tz :: tzs)
            = false).
  { intros start. unfold allOk. cbn [forallb]. apply andb_false_iff. left.
    unfold leadOk. simpl setZone.
    destruct (FixedZones.fzSetZone cfg start tz) as [leadStart | e];
      [| reflexivity].
    cbn [bind]. unfold FixedZones.fzSetZone at 1. cbn [FixedZones.zone bind].
    simpl hour. unfold FixedZones.fzHour at 2. cbn [FixedZones.zone leNum].
    apply andb_false_r. }
  destruct (FixedZones.zone date) as [[name off] |];
    cbn [bind]; destruct negative; cbn [plusDuration]; simpl plusInfinite;
    unfold FixedZones.fzPlusInfinite; cbn [bind FixedZones.ts];
    rewrite Hrej; reflexivity.
Qed.

(** C9, at the requests with [callDuration] a 1 followed by 400 zeros after
    a minus sign, and ["-100000000000000000000"].  Past the field checks
    the first is converted to -Infinity and the zones are valid: the bound
    of the loop over [hour] is +Infinity, every iteration rejects its
    candidate, and the handler gives no response, however long it runs.
    The second is converted to -10^20: the bound is 1666666666666666752,
    above 2^53, where [hour++] leaves [hour] as it is and the condition of
    the loop still holds; the handler runs on, and can only leave the loop
    by an exception, answered with the server-error payload. *)
Theorem huge_negative_duration_never_answers :
  let L := FixedZones.luxon FixedZones.monday in
  let req := stringRequest "Asia/Kolkata" "Tokyo" ("-1" ++ zeros 400) in
  let req2 := stringRequest "Asia/Kolkata" "Tokyo" "-100000000000000000000" in
  (missing (userTimezone req) = false /\ missing (leadLocations req) = false /\
   duration (callDuration req) = Ok NegInf /\
   validTzs "Asia/Kolkata" (resolvedTzs "Tokyo") = true /\
   hourBound NegInf = PosInf /\
   forall fuel, handler fuel req = None) /\
  (duration (callDuration req2) = Ok (Fin (- (10 ^ 20))) /\
   hourBound (Fin (- (10 ^ 20))) = Fin 1666666666666666752 /\
   leBound twoTo53 (Fin 1666666666666666752) = true /\
   increment twoTo53 = twoTo53 /\
   hoursUpTo (Fin 1666666666666666752) = None /\
   forall fuel,
     handler fuel req2 = None \/
     handler fuel req2 = Some (Json200 serverErrorHtml EmptyString)).
Proof.
  intros L req req2.
  assert (Hv : validTzs "Asia/Kolkata" (resolvedTzs "Tokyo") = true)
    by (vm_compute; reflexivity).
  assert (Hr : resolvedTzs "Tokyo" = [ZName "Asia/Tokyo"])
    by (vm_compute; reflexivity).
  assert (Hd : duration (callDuration req) = Ok NegInf)
    by (vm_compute; reflexivity).
  assert (Hd2 : duration (callDuration req2) = Ok (Fin (- (10 ^ 20))))
    by (vm_compute; reflexivity).
  assert (Hb2 : hourBound (Fin (- (10 ^ 20))) = Fin 1666666666666666752)
    by (vm_compute; reflexivity).
  split; [split; [| split; [| split; [| split; [| split]]]] |
          split; [| split; [| split; [| split; [| split]]]]];
    try reflexivity; try assumption.
  - intros fuel.
    rewrite (handler_searched fuel req NegInf eq_refl eq_refl Hd Hv).
    change (stringOf (userTimezone req)) with "Asia/Kolkata".
    change (stringOf (leadLocations req)) with "Tokyo". rewrite Hr.
    subst L.
    rewrite (@search_runs_on (FixedZones.luxon FixedZones.monday) fuel
               "Asia/Kolkata" [ZName "Asia/Tokyo"] NegInf
               (FixedZones.mkZoned (FixedZones.clock FixedZones.monday)
                                   (Some ("UTC", 0)))
               (FixedZones.mkZoned (FixedZones.clock FixedZones.monday)
                                   (Some ("Asia/Kolkata", 330)))
               (FixedZones.mkZoned
                  (FixedZones.clock FixedZones.monday + 0 * 86400000)
                  (Some ("Asia/Kolkata", 330))));
      try reflexivity.
    intros h.
    exact (infinite_duration_pushes_nothing FixedZones.monday "Asia/Kolkata"
             (ZName "Asia/Tokyo") [] true _ h).
  - intros fuel. destruct (handler fuel req2) as [r |] eqn:Hh; [right | left; reflexivity].
    f_equal.
    apply (handler_unbounded fuel req2 (Fin (- (10 ^ 20))) r eq_refl eq_refl Hd2 Hv);
      [rewrite Hb2; reflexivity | exact Hh].
Qed.

(** X16.  Past the two field checks whatever the handler answers is a 200
    with a table text and a link text.  An exception anywhere in the [try]
    block, the conversion of [callDuration] included, is answered with the
    server-error payload and an empty link, the same whatever the message
    of the exception.  When the loop over [hour] can end, fuel for its
    hours brings an answer; when its bound is 2^53 or more, the only answer
    there can be is the server-error payload. *)
Theorem every_answer_is_200 (L : Luxon) (req : Body) (fuel : nat) :
  let userTz := stringOf (userTimezone req) in
  let tzs := resolvedTzs (stringOf (leadLocations req)) in
  missing (userTimezone req) = false -> missing (leadLocations req) = false ->
  (forall r, handler fuel req = Some r ->
     exists table meetingLink, r = Json200 table meetingLink) /\
  (forall e, tryBlock fuel req = Some (Throw e) ->
     handler fuel req = Some (Json200 serverErrorHtml EmptyString)) /\
  (forall e, duration (callDuration req) = Throw e ->
     handler fuel req = Some (Json200 serverErrorHtml EmptyString)) /\
  (forall dur e,
     duration (callDuration req) = Ok dur -> validTzs userTz tzs = true ->
     search fuel userTz tzs dur = Some (Throw e) ->
     handler fuel req = Some (Json200 serverErrorHtml EmptyString)) /\
  (forall dur hours,
     duration (callDuration req) = Ok dur ->
     hoursUpTo (hourBound dur) = Some hours ->
     (List.length hours < fuel)%nat ->
     exists table meetingLink, handler fuel req = Some (Json200 table meetingLink)) /\
  (forall dur r,
     duration (callDuration req) = Ok dur -> validTzs userTz tzs = true ->
     hoursUpTo (hourBound dur) = None ->
     handler fuel req = Some r -> r = Json200 serverErrorHtml EmptyString).
Proof.
  intros userTz tzs Hu Hl.
  split; [| split; [| split; [| split; [| split]]]].
  - intros r. apply answered_is_200; assumption.
  - intros e He. unfold handler. rewrite He. reflexivity.
  - intros e He. apply (handler_unconvertible fuel req e Hu Hl He).
  - intros dur e Hd Hv Hs.
    rewrite (handler_searched fuel req dur Hu Hl Hd Hv). fold userTz tzs.
    rewrite Hs. reflexivity.
  - intros dur hours Hd Hhours Hfuel.
    destruct (validTzs userTz tzs) eqn:Hv.
    + rewrite (handler_searched fuel req dur Hu Hl Hd Hv). fold userTz tzs.
      pose proof (search_returns userTz tzs fuel dur hours Hhours Hfuel) as Hret.
      destruct (search fuel userTz tzs dur) as [[slots | e] |]; eauto.
      contradiction.
    + rewrite (handler_invalid_zone fuel req dur Hu Hl Hd Hv). eauto.
  - intros dur r Hd Hv Hnone.
    apply (handler_unbounded fuel req dur r Hu Hl Hd Hv Hnone).
Qed.

Lemma every_answer_is_200_witness :
  let L := FixedZones.faultyLuxon FixedZones.monday in
  let req := stringRequest "UTC" "UTC" "60" in
  tryBlock 9 req
  = Some (Throw "TypeError: Cannot read properties of undefined (reading 'locale')") /\
  handler 9 req = Some (Json200 serverErrorHtml EmptyString).
Proof.
  intros L req. split; [vm_compute; reflexivity |].
  apply (proj1 (proj2 (every_answer_is_200 L req 9 eq_refl eq_refl))
           "TypeError: Cannot read properties of undefined (reading 'locale')").
  vm_compute. reflexivity.
Defined.

(** ** More on the location tokens *)

Lemma trimEnd_idempotent (s : string) : trimEnd (trimEnd s) = trimEnd s.
Proof.
  induction s as [| c r IH]; simpl; [reflexivity |].
  destruct (trimEnd r) as [| c' r'] eqn:Hr.
  - destruct (isWhiteSpace c) eqn:Hc; simpl; [reflexivity |].
    rewrite Hc. reflexivity.
  - simpl in *. rewrite IH. reflexivity.
Qed.

Lemma trimStart_head (s : string) :
  match trimStart s with
  | EmptyString => True
  | String c _ => isWhiteSpace c = false
  end.
Proof.
  induction s as [| c r IH]; simpl; [exact I |].
  destruct (isWhiteSpace c) eqn:Hc; [exact IH | exact Hc].
Qed.

Lemma trimStart_fixed (s : string) :
  match s with
  | EmptyString => True
  | String c _ => isWhiteSpace c = false
  end -> trimStart s = s.
Proof. destruct s as [| c r]; simpl; [reflexivity | intros ->; reflexivity]. Qed.

Lemma trimEnd_head (s : string) :
  match s with
  | EmptyString => True
  | String c _ => isWhiteSpace c = false
  end ->
  match trimEnd s with
  | EmptyString => True
  | String c _ => isWhiteSpace c = false
  end.
Proof.
  destruct s as [| c r]; simpl; [auto |]. intros Hc.
  destruct (trimEnd r); [rewrite Hc |]; exact Hc.
Qed.

Lemma trim_idempotent (s : string) : trim (trim s) = trim s.
Proof.
  unfold trim.
  rewrite (trimStart_fixed (trimEnd (trimStart s))).
  - apply trimEnd_idempotent.
  - apply trimEnd_head. apply trimStart_head.
Qed.

Lemma contains_trimStart (c : ascii) (s : string) :
  contains c (trimStart s) = true -> contains c s = true.
Proof.
  induction s as [| a r IH]; simpl; [auto |].
  destruct (isWhiteSpace a); [| auto].
  intros H. rewrite (IH H). apply orb_true_r.
Qed.

Lemma contains_trimEnd (c : ascii) (s : string) :
  contains c (trimEnd s) = true -> contains c s = true.
Proof.
  induction s as [| a r IH]; simpl; [auto |].
  destruct (trimEnd r) as [| a' r'] eqn:Hr.
  - destruct (isWhiteSpace a); simpl; [discriminate |].
    rewrite orb_false_r. intros ->. reflexivity.
  - simpl in *. intros H. apply orb_true_iff in H.
    destruct H as [H | H]; [rewrite H; reflexivity |].
    rewrite (IH H). apply orb_true_r.
Qed.

(** X1.  Every token that [leadLocations.split(',').map(s => s.trim())
    .filter(Boolean)] yields is non-empty, is its own trim (no white space
    at either end) and holds no comma. *)
Theorem tokens_are_trimmed_words (locations token : string) :
  In token (leadTzs locations) ->
  token <> EmptyString /\ trim token = token /\ contains "," token = false.
Proof.
  intros Hin. apply leadTzs_tokens in Hin.
  destruct Hin as [Hne [piece [Hp <-]]].
  split; [exact Hne |]. split; [apply trim_idempotent |].
  apply not_true_is_false. intros Hc.
  unfold trim in Hc. apply contains_trimEnd, contains_trimStart in Hc.
  rewrite (split_pieces_have_no_separator _ _ _ Hp) in Hc. discriminate.
Qed.

Lemma tokens_are_trimmed_words_witness :
  trim "Hong Kong" = "Hong Kong" /\ contains "," "Hong Kong" = false.
Proof.
  apply (proj2 (tokens_are_trimmed_words " tokyo ,  Hong Kong ,," "Hong Kong"
                  (or_intror (or_introl eq_refl)))).
Defined.

(** X2.  On the tokens of a request the ['UTC'] fallback of
    [cityToTz[tz.toLowerCase()] || tz || 'UTC'] is never taken: each
    resolved entry is what the table lookup yields, or else the token
    itself, and there are as many entries as tokens. *)
Theorem utc_fallback_is_dead (locations : string) :
  resolvedTzs locations =
  map (fun token =>
         match getProperty cityToTz (toLowerCase token) with
         | Some found => found
         | None => ZName token
         end) (leadTzs locations).
Proof.
  unfold resolvedTzs. apply map_ext_in. intros token Hin.
  apply leadTzs_tokens in Hin. destruct Hin as [Hne _].
  unfold resolveTz.
  destruct (getProperty cityToTz (toLowerCase token)) as [[zone | key] |] eqn:Hget.
  - unfold getProperty in Hget.
    destruct (ownProperty (toLowerCase token) cityToTz) as [z |] eqn:Hown.
    + inversion Hget; subst z.
      pose proof (resolveTz_city token zone Hown) as Hr.
      unfold resolveTz, getProperty in Hr. rewrite Hown in Hr. exact Hr.
    + destruct (existsb _ _); discriminate.
  - reflexivity.
  - unfold tokenOrUTC. destruct token; [contradiction | reflexivity].
Qed.

(** ** How many slots, and for which hours *)


Lemma concat_length_eq_1 {A : Type} (os : list (list A)) :
  Forall (fun o => List.length o = 1%nat) os ->
  List.length (List.concat os) = List.length os.
Proof.
  induction 1 as [| o os' Ho _ IH]; simpl; [reflexivity |].
  rewrite length_app. lia.
Qed.







(** X5.  A [leadLocations] that passes the required-field check but yields
    no token (commas and white space only) is not rejected with a 400:
    whatever is answered is a 200.  No participant zone is left to check,
    so for a [callDuration] converted to an integer from -60 * 2^30 on, and
    fuel for its candidate hours, a search that returns has accepted every
    candidate, one slot per candidate, and with a valid organizer zone the
    response is the table of those slots with no participant column. *)
Theorem no_token_accepts_every_candidate (L : Luxon) (req : Body) (fuel : nat) :
  let userTz := stringOf (userTimezone req) in
  missing (userTimezone req) = false -> missing (leadLocations req) = false ->
  leadTzs (stringOf (leadLocations req)) = [] ->
  (forall r, handler fuel req = Some r ->
     exists table meetingLink, r = Json200 table meetingLink) /\
  (forall d slots,
      duration (callDuration req) = Ok (Fin d) ->
      - (60 * 2 ^ 30) <= d ->
      (List.length (candidateHours d) < fuel)%nat ->
      findSlots userTz [] d = Ok slots ->
      search fuel userTz [] (Fin d) = Some (Ok slots) /\
      List.length slots = List.length (candidates d) /\
      (zoneIsValid (ZName userTz) = true ->
       handler fuel req = Some (Json200 (buildTable [] slots) (meetingLinkOf slots)))).
Proof.
  intros userTz Hu Hl Hnone.
  assert (Hr : resolvedTzs (stringOf (leadLocations req)) = []).
  { unfold resolvedTzs. rewrite Hnone. reflexivity. }
  split.
  - intros r. apply answered_is_200; assumption.
  - intros d slots Hd Hrange Hfuel Hs. split; [| split].
    + rewrite (search_in_range userTz [] fuel d Hrange Hfuel). rewrite Hs.
      reflexivity.
    + apply findSlots_Ok in Hs.
      destruct Hs as [n [z [os [_ [_ [HF ->]]]]]].
      rewrite (Forall2_length HF). apply concat_length_eq_1.
      apply Forall_forall. intros o Ho.
      destruct (Forall2_In_r _ _ _ _ HF Ho) as [c [_ Hc]].
      apply slotAt_Ok in Hc.
      destruct Hc as [date [start [end_ [_ [_ [_ Hcase]]]]]].
      destruct Hcase as [[_ [slot [_ ->]]] | [Hno _]]; [reflexivity |].
      discriminate.
    + intros Hv.
      assert (Hvalid : validTzs (stringOf (userTimezone req))
                         (resolvedTzs (stringOf (leadLocations req))) = true).
      { rewrite Hr. unfold validTzs. cbn [forallb]. fold userTz. rewrite Hv.
        reflexivity. }
      rewrite (handler_in_range fuel req d Hu Hl Hd Hvalid Hrange Hfuel).
      rewrite Hr. fold userTz. rewrite Hs. reflexivity.
Qed.

Lemma no_token_accepts_every_candidate_witness :
  let L := FixedZones.luxon FixedZones.monday in
  let req := stringRequest "Asia/Tokyo" " , ," "120" in
  List.length (returned (findSlots "Asia/Tokyo" [] 120)) = 21%nat /\
  handler 9 req
  = Some (Json200 (buildTable [] (returned (findSlots "Asia/Tokyo" [] 120)))
                  (meetingLinkOf (returned (findSlots "Asia/Tokyo" [] 120)))).
Proof.
  intros L req.
  assert (Hs : findSlots "Asia/Tokyo" [] 120
               = Ok (returned (findSlots "Asia/Tokyo" [] 120))).
  { destruct (findSlots "Asia/Tokyo" [] 120) as [slots | e] eqn:He;
      [reflexivity | vm_compute in He; discriminate]. }
  destruct (proj2 (no_token_accepts_every_candidate L req 9 eq_refl eq_refl eq_refl)
              120 _ eq_refl ltac:(vm_compute; discriminate)
              ltac:(vm_compute; lia) Hs) as [_ [Hlen Hh]].
  split; [exact Hlen | exact (Hh eq_refl)].
Defined.

(** ** POST /generate-mail: which prompts reach the service *)

Lemma trimStart_length (s : string) :
  (String.length (trimStart s) <= String.length s)%nat.
Proof.
  induction s as [| c r IH]; simpl; [lia |].
  destruct (isWhiteSpace c); simpl; lia.
Qed.

Lemma trimEnd_length (s : string) :
  (String.length (trimEnd s) <= String.length s)%nat.
Proof.
  induction s as [| c r IH]; simpl; [lia |].
  destruct (trimEnd r); [destruct (isWhiteSpace c) |]; simpl in *; lia.
Qed.

Lemma trim_length (s : string) :
  (String.length (trim s) <= String.length s)%nat.
Proof.
  unfold trim. pose proof (trimEnd_length (trimStart s)).
  pose proof (trimStart_length s). lia.
Qed.

Lemma length_zero_iff (s : string) :
  (String.length s =? 0)%nat = true <-> s = EmptyString.
Proof.
  destruct s; simpl; split; intros H; try reflexivity; discriminate.
Qed.

(** X6.  The handler consults the service only with the trimmed prompt of a
    request that passed its checks, which is non-empty, its own trim and at
    most 2000 code units long: two services that agree on such prompts get
    the same response.  The length check is on the untrimmed prompt, so a
    prompt longer than 2000 is refused even when its trimmed text is
    short. *)
Theorem mail_service_sees_screened_prompts (post post' : string -> Mail.Upstream)
    (timestamp : string) (userPrompt : JsValue) :
  ((forall p, p <> EmptyString -> trim p = p -> (String.length p <= 2000)%nat ->
      post (Mail.emailPrompt p) = post' (Mail.emailPrompt p)) ->
   Mail.handler post timestamp userPrompt = Mail.handler post' timestamp userPrompt) /\
  (forall s, userPrompt = JString s -> trim s <> EmptyString ->
     (2000 < String.length s)%nat ->
     Mail.handler post timestamp userPrompt
     = Mail.Failure 400 "Email prompt is too long. Please keep it under 2000 characters." None).
Proof.
  split.
  - intros Hagree. unfold Mail.handler.
    destruct (negb (truthy userPrompt) || negb (Mail.isString userPrompt));
      [reflexivity |].
    cbv zeta.
    destruct (String.length (trim (stringOf userPrompt)) =? 0)%nat eqn:Hblank;
      [reflexivity |].
    destruct (2000 <? String.length (stringOf userPrompt))%nat eqn:Hlong;
      [reflexivity |].
    unfold Mail.generateEmailWithGemini. rewrite Hagree; [reflexivity | | |].
    + intros He. apply length_zero_iff in He. rewrite He in Hblank. discriminate.
    + apply trim_idempotent.
    + apply Nat.ltb_ge in Hlong. pose proof (trim_length (stringOf userPrompt)). lia.
  - intros s -> Hne Hlong. unfold Mail.handler. simpl.
    destruct s as [| c r]; [exfalso; apply Hne; reflexivity |]. simpl negb.
    cbv zeta. simpl stringOf.
    destruct (String.length (trim (String c r)) =? 0)%nat eqn:Hblank.
    + apply length_zero_iff in Hblank. contradiction.
    + apply Nat.ltb_lt in Hlong. rewrite Hlong. reflexivity.
Qed.

Lemma length_append (a b : string) :
  String.length (a ++ b) = (String.length a + String.length b)%nat.
Proof. induction a as [| c r IH]; simpl; [reflexivity | rewrite IH; reflexivity]. Qed.

Lemma emailPrompt_of_empty (p : string) :
  Mail.emailPrompt p = Mail.emailPrompt EmptyString -> p = EmptyString.
Proof.
  intros H. apply (f_equal String.length) in H. unfold Mail.emailPrompt in H.
  rewrite !length_append in H. simpl String.length in H.
  destruct p; [reflexivity | simpl in H; lia].
Qed.

Lemma mail_service_sees_screened_prompts_witness :
  let post := fun _ : string =>
    Mail.Rejected (Mail.mkThrown "socket hang up" (Some "ECONNRESET") None) in
  let post' := fun p : string =>
    if String.eqb p (Mail.emailPrompt EmptyString) then Mail.Resolved VNull
    else post p in
  Mail.handler post "2026-11-02T10:15:30.250Z" (JString "  Quarterly update ")
  = Mail.handler post' "2026-11-02T10:15:30.250Z" (JString "  Quarterly update ") /\
  Mail.handler post "2026-11-02T10:15:30.250Z"
    (JString (String.concat EmptyString (repeat "ab " 700)))
  = Mail.Failure 400 "Email prompt is too long. Please keep it under 2000 characters." None.
Proof.
  intros post post'. split.
  - apply (proj1 (mail_service_sees_screened_prompts post post' _ _)).
    intros p Hne _ _. unfold post'.
    destruct (String.eqb (Mail.emailPrompt p) (Mail.emailPrompt EmptyString)) eqn:He;
      [| reflexivity].
    apply String.eqb_eq, emailPrompt_of_empty in He. contradiction.
  - apply (proj2 (mail_service_sees_screened_prompts post post _ _)
             (String.concat EmptyString (repeat "ab " 700)) eq_refl).
    + vm_compute. discriminate.
    + apply Nat.ltb_lt. vm_compute. reflexivity.
Defined.

(** ** POST /generate-mail: from the service's answer to the response *)

Lemma getProp_Throw (v : Json) (key e : string) :
  getProp v key = Throw e ->
  (v = VUndefined /\
   e = "Cannot read properties of undefined (reading '" ++ key ++ "')") \/
  (v = VNull /\
   e = "Cannot read properties of null (reading '" ++ key ++ "')").
Proof.
  destruct v; simpl; intros H; try discriminate; inversion H; auto.
Qed.

Lemma getProp_truthy (v : Json) (key e : string) :
  truthyV v = true -> getProp v key <> Throw e.
Proof.
  intros Ht H. apply getProp_Throw in H.
  destruct H as [[-> _] | [-> _]]; discriminate.
Qed.

Lemma mail_handler_screened (post : string -> Mail.Upstream) (timestamp s : string) :
  trim s <> EmptyString -> (String.length s <= 2000)%nat ->
  Mail.handler post timestamp (JString s) =
  match Mail.generateEmailWithGemini post (trim s) with
  | Ok generatedEmail => Mail.Success generatedEmail timestamp
  | Throw msg => Mail.answerError timestamp msg
  end.
Proof.
  intros Hne Hlen. unfold Mail.handler.
  destruct s as [| c r]; [exfalso; apply Hne; reflexivity |].
  simpl negb. simpl orb. cbv iota zeta. simpl stringOf.
  destruct (String.length (trim (String c r)) =? 0)%nat eqn:Hblank.
  - apply length_zero_iff in Hblank. contradiction.
  - apply Nat.ltb_ge in Hlen. rewrite Hlen. reflexivity.
Qed.

(** X7.  For a request that passed the checks, when the service rejects:
    an error response with status 401 or 403 is answered 500 with the
    configuration message; an error response with status 429 is answered
    with the generic 500 and a timestamp, not with 429, because the
    rethrown message says [Rate limit] and the handler looks for
    [rate limit]; likewise a connection failure ([ENOTFOUND],
    [ECONNREFUSED]) is answered with the generic 500, not 503; a timeout
    ([ETIMEDOUT]) is answered 503. *)
Theorem upstream_failure_status (post : string -> Mail.Upstream)
    (timestamp s : string) (error : Mail.Thrown) :
  trim s <> EmptyString -> (String.length s <= 2000)%nat ->
  post (Mail.emailPrompt (trim s)) = Mail.Rejected error ->
  (forall status data,
      Mail.response error = Some (status, data) -> status = 401 \/ status = 403 ->
      Mail.handler post timestamp (JString s)
      = Mail.Failure 500 "API configuration error. Please check server settings." None) /\
  (forall data,
      Mail.response error = Some (429, data) ->
      Mail.handler post timestamp (JString s)
      = Mail.Failure 500 "Failed to generate email. Please try again." (Some timestamp)) /\
  (Mail.response error = None ->
   Mail.code error = Some "ENOTFOUND" \/ Mail.code error = Some "ECONNREFUSED" ->
   Mail.handler post timestamp (JString s)
   = Mail.Failure 500 "Failed to generate email. Please try again." (Some timestamp)) /\
  (Mail.response error = None -> Mail.code error = Some "ETIMEDOUT" ->
   Mail.handler post timestamp (JString s)
   = Mail.Failure 503 "Service temporarily unavailable. Please try again in a moment." None).
Proof.
  intros Hne Hlen Hpost.
  rewrite (mail_handler_screened post timestamp s Hne Hlen).
  unfold Mail.generateEmailWithGemini. rewrite Hpost. unfold Mail.rethrown.
  repeat split.
  - intros status data -> [-> | ->]; reflexivity.
  - intros data ->. reflexivity.
  - intros -> [-> | ->]; reflexivity.
  - intros -> ->. reflexivity.
Qed.

Lemma upstream_failure_status_witness :
  let tooMany := Mail.mkThrown "Request failed with status code 429" (Some "ERR_BAD_REQUEST")
                   (Some (429, VObject [("error", VObject [("message", VString "Resource has been exhausted")])])) in
  Mail.handler (fun _ => Mail.Rejected tooMany) "2026-11-02T10:15:30.250Z"
               (JString "Follow up with the client")
  = Mail.Failure 500 "Failed to generate email. Please try again."
                 (Some "2026-11-02T10:15:30.250Z").
Proof.
  intros tooMany.
  apply (proj1 (proj2 (upstream_failure_status (fun _ => Mail.Rejected tooMany)
                         "2026-11-02T10:15:30.250Z" "Follow up with the client" tooMany
                         ltac:(discriminate) ltac:(simpl; lia) eq_refl))
           (VObject [("error", VObject [("message", VString "Resource has been exhausted")])])).
  reflexivity.
Defined.

Lemma extractEmail_Ok (data : Json) (email : string) :
  Mail.extractEmail data = Ok email ->
  exists candidates candidate content parts part raw,
    getProp data "candidates" = Ok candidates /\
    getProp candidates "0" = Ok candidate /\
    getProp candidate "content" = Ok content /\
    getProp content "parts" = Ok parts /\
    getProp parts "0" = Ok part /\
    getProp part "text" = Ok (VString raw) /\
    email = trim raw /\ email <> EmptyString.
Proof.
  unfold Mail.extractEmail. intros H.
  destruct (negb (truthyV data)); [discriminate |].
  apply bind_Ok in H. destruct H as [candidates [Hc H]].
  destruct (negb (truthyV candidates)); [discriminate |].
  apply bind_Ok in H. destruct H as [len [_ H]].
  destruct (isZero len); [discriminate |].
  apply bind_Ok in H. destruct H as [candidate [Hcand H]].
  apply bind_Ok in H. destruct H as [content [Hcontent H]].
  destruct (negb (truthyV content)); [discriminate |].
  apply bind_Ok in H. destruct H as [parts [Hparts H]].
  destruct (negb (truthyV parts)); [discriminate |].
  apply bind_Ok in H. destruct H as [partsLen [_ H]].
  destruct (isZero partsLen); [discriminate |].
  apply bind_Ok in H. destruct H as [part [Hpart H]].
  apply bind_Ok in H. destruct H as [text [Htext H]].
  destruct (negb (truthyV text)); [discriminate |].
  apply bind_Ok in H. destruct H as [trimmed [Htrim H]].
  destruct (String.length trimmed =? 0)%nat eqn:Hblank; [discriminate |].
  inversion H; subst email. clear H.
  destruct text; try discriminate. simpl in Htrim. inversion Htrim; subst trimmed.
  exists candidates, candidate, content, parts, part, s.
  repeat split; auto.
  intros He. rewrite He in Hblank. discriminate.
Qed.

(** The messages with which the [try] block of [generateEmailWithGemini]
    can throw once the request resolved. *)
Lemma extractEmail_Throw (data : Json) (msg : string) :
  Mail.extractEmail data = Throw msg ->
  In msg [ "Invalid response from Gemini API";
           "No content generated by Gemini API";
           "Empty response from Gemini API";
           "Cannot read properties of undefined (reading 'content')";
           "Cannot read properties of null (reading 'content')";
           "Cannot read properties of undefined (reading 'text')";
           "Cannot read properties of null (reading 'text')";
           "generatedText.trim is not a function" ].
Proof.
  unfold Mail.extractEmail. intros H.
  destruct (negb (truthyV data)) eqn:Hd; [inversion H; simpl; tauto |].
  apply negb_false_iff in Hd.
  destruct (getProp data "candidates") as [candidates |] eqn:Hc;
    [| exfalso; exact (getProp_truthy _ _ _ Hd Hc)].
  simpl in H.
  destruct (negb (truthyV candidates)) eqn:Hct; [inversion H; simpl; tauto |].
  apply negb_false_iff in Hct.
  destruct (getProp candidates "length") as [len |] eqn:Hlen;
    [| exfalso; exact (getProp_truthy _ _ _ Hct Hlen)].
  simpl in H. destruct (isZero len); [inversion H; simpl; tauto |].
  destruct (getProp candidates "0") as [candidate |] eqn:Hcand;
    [| exfalso; exact (getProp_truthy _ _ _ Hct Hcand)].
  simpl in H.
  destruct (getProp candidate "content") as [content |] eqn:Hcontent.
  2:{ simpl in H. inversion H; subst. apply getProp_Throw in Hcontent.
      destruct Hcontent as [[_ ->] | [_ ->]]; simpl; tauto. }
  simpl in H.
  destruct (negb (truthyV content)) eqn:Hcontentt; [inversion H; simpl; tauto |].
  apply negb_false_iff in Hcontentt.
  destruct (getProp content "parts") as [parts |] eqn:Hparts;
    [| exfalso; exact (getProp_truthy _ _ _ Hcontentt Hparts)].
  simpl in H.
  destruct (negb (truthyV parts)) eqn:Hpt; [inversion H; simpl; tauto |].
  apply negb_false_iff in Hpt.
  destruct (getProp parts "length") as [partsLen |] eqn:Hplen;
    [| exfalso; exact (getProp_truthy _ _ _ Hpt Hplen)].
  simpl in H. destruct (isZero partsLen); [inversion H; simpl; tauto |].
  destruct (getProp parts "0") as [part |] eqn:Hpart;
    [| exfalso; exact (getProp_truthy _ _ _ Hpt Hpart)].
  simpl in H.
  destruct (getProp part "text") as [text |] eqn:Htext.
  2:{ simpl in H. inversion H; subst. apply getProp_Throw in Htext.
      destruct Htext as [[_ ->] | [_ ->]]; simpl; tauto. }
  simpl in H.
  destruct (negb (truthyV text)); [inversion H; simpl; tauto |].
  destruct (Mail.callTrim text) as [trimmed |] eqn:Htrim.
  - simpl in H. destruct (String.length trimmed =? 0)%nat;
      [inversion H; simpl; tauto | discriminate].
  - simpl in H. inversion H; subst.
    destruct text; simpl in Htrim; inversion Htrim; simpl; tauto.
Qed.

(** X8.  For a request that passed the checks, when the service resolves,
    whatever value it resolves with: either the response is the success
    payload, whose text is the trim of the string at
    [candidates[0].content.parts[0].text], is not empty and is its own
    trim, with the timestamp; or it is the generic 500 with the timestamp.
    No shape of the reply leads to 429, to 503 or to the configuration
    error. *)
Theorem resolved_reply_success_or_generic (post : string -> Mail.Upstream)
    (timestamp s : string) (data : Json) :
  trim s <> EmptyString -> (String.length s <= 2000)%nat ->
  post (Mail.emailPrompt (trim s)) = Mail.Resolved data ->
  (exists candidates candidate content parts part raw,
      getProp data "candidates" = Ok candidates /\
      getProp candidates "0" = Ok candidate /\
      getProp candidate "content" = Ok content /\
      getProp content "parts" = Ok parts /\
      getProp parts "0" = Ok part /\
      getProp part "text" = Ok (VString raw) /\
      trim raw <> EmptyString /\ trim (trim raw) = trim raw /\
      Mail.handler post timestamp (JString s) = Mail.Success (trim raw) timestamp) \/
  Mail.handler post timestamp (JString s)
  = Mail.Failure 500 "Failed to generate email. Please try again." (Some timestamp).
Proof.
  intros Hne Hlen Hpost.
  rewrite (mail_handler_screened post timestamp s Hne Hlen).
  unfold Mail.generateEmailWithGemini. rewrite Hpost.
  destruct (Mail.extractEmail data) as [email | msg] eqn:He.
  - left. apply extractEmail_Ok in He.
    destruct He as [candidates [candidate [content [parts [part [raw H]]]]]].
    destruct H as [H1 [H2 [H3 [H4 [H5 [H6 [-> H8]]]]]]].
    exists candidates, candidate, content, parts, part, raw.
    repeat split; auto. apply trim_idempotent.
  - right. apply extractEmail_Throw in He. simpl in He.
    repeat (destruct He as [<- | He]; [reflexivity |]). contradiction.
Qed.

Lemma resolved_reply_success_or_generic_witness :
  let reply := VObject [("candidates",
                 VArray [VObject [("content",
                   VObject [("parts", VArray [VObject [("text", VString "
Subject: Hello

Dear team,
")]]); ("role", VString "model")])]])] in
  let noParts := VObject [("candidates", VArray [VObject [("finishReason", VString "SAFETY")]])] in
  (Mail.handler (fun _ => Mail.Resolved reply) "T" (JString "greet the team")
   = Mail.Success "Subject: Hello

Dear team," "T" \/
   Mail.handler (fun _ => Mail.Resolved reply) "T" (JString "greet the team")
   = Mail.Failure 500 "Failed to generate email. Please try again." (Some "T")) /\
  Mail.handler (fun _ => Mail.Resolved noParts) "T" (JString "greet the team")
  = Mail.Failure 500 "Failed to generate email. Please try again." (Some "T").
Proof.
  intros reply noParts. split.
  - destruct (resolved_reply_success_or_generic (fun _ => Mail.Resolved reply)
                "T" "greet the team" reply ltac:(discriminate) ltac:(simpl; lia) eq_refl)
      as [_ | H]; [left; reflexivity | right; exact H].
  - destruct (resolved_reply_success_or_generic (fun _ => Mail.Resolved noParts)
                "T" "greet the team" noParts ltac:(discriminate) ltac:(simpl; lia) eq_refl)
      as [[c [ca [co [pa [p [raw [_ [_ [_ [_ [_ [_ [_ [_ H]]]]]]]]]]]]]] | H];
      [| exact H].
    vm_compute in H. discriminate.
Defined.

(** ** The JSON text inside a reply *)

Lemma contains_append (c : ascii) (a b : string) :
  contains c (a ++ b) = contains c a || contains c b.
Proof.
  induction a as [| x r IH]; simpl; [reflexivity |].
  rewrite IH. apply orb_assoc.
Qed.

Lemma upToLastClose_None (s : string) :
  Replies.upToLastClose s = None <-> contains "}" s = false.
Proof.
  induction s as [| c r IH]; simpl; [tauto |].
  destruct (Replies.upToLastClose r) as [p |].
  - split; [discriminate |]. intros H. apply orb_false_iff in H.
    destruct H as [_ H]. apply IH in H. discriminate.
  - destruct (Ascii.eqb c "}"); simpl; [split; discriminate |].
    split; [intros _; apply IH; reflexivity | reflexivity].
Qed.

Lemma upToLastClose_Some (s p : string) :
  Replies.upToLastClose s = Some p <->
  exists body post,
    s = body ++ "}" ++ post /\ p = body ++ "}" /\ contains "}" post = false.
Proof.
  revert p. induction s as [| c r IH]; intros p; simpl.
  - split; [discriminate |]. intros [body [post [H _]]].
    destruct body; discriminate.
  - destruct (Replies.upToLastClose r) as [q |] eqn:Hr.
    + split.
      * intros H. inversion H; subst p.
        destruct (proj1 (IH q) eq_refl) as [body [post [-> [-> Hpost]]]].
        exists (String c body), post. auto.
      * intros [body [post [Hs [-> Hpost]]]]. f_equal.
        destruct body as [| b body'].
        -- simpl in Hs. inversion Hs; subst.
           apply upToLastClose_None in Hpost. rewrite Hpost in Hr. discriminate.
        -- simpl in Hs. inversion Hs; subst. simpl. f_equal.
           assert (Hq : Some q = Some (body' ++ "}")).
           { apply IH. exists body', post. auto. }
           inversion Hq. reflexivity.
    + apply upToLastClose_None in Hr. split.
      * destruct (Ascii.eqb c "}") eqn:Hc; [| discriminate].
        intros H. inversion H; subst p. apply Ascii.eqb_eq in Hc. subst c.
        exists EmptyString, r. auto.
      * intros [body [post [Hs [-> Hpost]]]].
        destruct body as [| b body'].
        -- simpl in Hs. inversion Hs; subst. reflexivity.
        -- simpl in Hs. inversion Hs; subst.
           rewrite contains_append in Hr. simpl in Hr.
           rewrite orb_true_r in Hr. discriminate.
Qed.

Lemma matchBraces_Some (s m : string) :
  Replies.matchBraces s = Some m <->
  exists pre body post,
    s = pre ++ m ++ post /\ m = "{" ++ body ++ "}" /\
    contains "{" pre = false /\ contains "}" post = false.
Proof.
  induction s as [| c r IH]; simpl.
  - split; [discriminate |]. intros [pre [body [post [H [-> _]]]]].
    destruct pre; discriminate.
  - destruct (Ascii.eqb c "{") eqn:Hc.
    + apply Ascii.eqb_eq in Hc. subst c. split.
      * destruct (Replies.upToLastClose r) as [p |] eqn:Hr; [| discriminate].
        simpl. intros H. inversion H; subst m.
        apply upToLastClose_Some in Hr.
        destruct Hr as [body [post [-> [-> Hpost]]]].
        exists EmptyString, body, post.
        split; [simpl; rewrite append_assoc; reflexivity | auto].
      * intros [pre [body [post [Hs [-> [Hpre Hpost]]]]]].
        destruct pre as [| x pre'].
        -- simpl in Hs. injection Hs as Hr.
           assert (Hu : Replies.upToLastClose r = Some (body ++ "}")).
           { apply upToLastClose_Some. exists body, post.
             rewrite Hr, append_assoc. auto. }
           rewrite Hu. reflexivity.
        -- simpl in Hs. inversion Hs; subst x. simpl in Hpre. discriminate.
    + rewrite IH. split.
      * intros [pre [body [post [-> [-> [Hpre Hpost]]]]]].
        exists (String c pre), body, post. simpl. rewrite Hc. auto.
      * intros [pre [body [post [Hs [-> [Hpre Hpost]]]]]].
        destruct pre as [| x pre'].
        -- simpl in Hs. inversion Hs; subst c.
           rewrite Ascii.eqb_refl in Hc. discriminate.
        -- simpl in Hs. inversion Hs; subst x. simpl in Hpre.
           apply orb_false_iff in Hpre. destruct Hpre as [_ Hpre].
           exists pre', body, post. auto.
Qed.

Lemma matchBraces_exists (pre mid post : string) :
  Replies.matchBraces (pre ++ "{" ++ mid ++ "}" ++ post) <> None.
Proof.
  assert (Hclose : forall a, Replies.upToLastClose (a ++ String "}" post) <> None).
  { intros a Hu. apply upToLastClose_None in Hu.
    rewrite contains_append in Hu. simpl in Hu.
    rewrite orb_true_r in Hu. discriminate. }
  induction pre as [| c r IH]; simpl.
  - specialize (Hclose mid).
    destruct (Replies.upToLastClose (mid ++ String "}" post)); simpl;
      [discriminate | contradiction].
  - destruct (Ascii.eqb c "{"); [| exact IH].
    specialize (Hclose (r ++ String "{" mid)).
    rewrite append_assoc in Hclose. simpl in Hclose.
    destruct (Replies.upToLastClose (r ++ String "{" (mid ++ String "}" post)));
      simpl; [discriminate | contradiction].
Qed.

(** X9.  [text.match(/{[\s\S]*}/)] gives the text from the first opening
    brace to the last closing brace after it, and null exactly when no
    opening brace has a closing brace after it.  So a helper that does not
    strip fences hands to [JSON.parse] exactly that span of the reply,
    whatever prose surrounds it, and answers with the one parse error when
    [JSON.parse] throws. *)
Theorem match_spans_first_to_last_brace (s : string) :
  (forall m,
      Replies.matchBraces s = Some m <->
      exists pre body post,
        s = pre ++ m ++ post /\ m = "{" ++ body ++ "}" /\
        contains "{" pre = false /\ contains "}" post = false) /\
  (Replies.matchBraces s = None <->
   ~ exists pre mid post, s = pre ++ "{" ++ mid ++ "}" ++ post) /\
  (forall parse m,
      Replies.matchBraces s = Some m ->
      Replies.parseReply parse false (VString s) =
      match parse m with
      | Ok result => Ok result
      | Throw _ => Throw "Failed to parse Gemini response as JSON."
      end).
Proof.
  split; [intros m; apply matchBraces_Some |]. split.
  - split.
    + intros Hnone [pre [mid [post Hs]]]. subst s.
      exact (matchBraces_exists pre mid post Hnone).
    + intros Hno. destruct (Replies.matchBraces s) as [m |] eqn:Hm; [| reflexivity].
      exfalso. apply Hno. apply matchBraces_Some in Hm.
      destruct Hm as [pre [body [post [-> [-> _]]]]].
      exists pre, body, post. rewrite !append_assoc. reflexivity.
  - intros parse m Hm. unfold Replies.parseReply. rewrite Hm. reflexivity.
Qed.

Lemma match_spans_first_to_last_brace_witness :
  let parse := fun t : string =>
    if String.eqb t "{ {1}, 2 }" then Ok (VObject []) else Throw "SyntaxError" in
  Replies.parseReply parse false (VString "Sure! { {1}, 2 } and } more { text")
  = Throw "Failed to parse Gemini response as JSON.".
Proof.
  intros parse.
  rewrite (proj2 (proj2 (match_spans_first_to_last_brace
                           "Sure! { {1}, 2 } and } more { text")) parse
             "{ {1}, 2 } and }" eq_refl).
  reflexivity.
Defined.

(** ** Code fences *)

Lemma stripFences_cons (c : ascii) (r : string) :
  Replies.stripFences 0 (String c r) =
  if Replies.fenceAt (String c r)
  then Replies.stripFences
         (if Replies.jsonAt (Replies.drop 3 (String c r)) then 6 else 2) r
  else String c (Replies.stripFences 0 r).
Proof. reflexivity. Qed.

Lemma fenceAt_cons (c : ascii) (r : string) :
  Replies.fenceAt (String c r) = Ascii.eqb "`" c && startsWith r "``".
Proof. reflexivity. Qed.

Lemma startsWith_pair (c : ascii) (r : string) :
  startsWith (String c r) "``" = Ascii.eqb "`" c && startsWith r "`".
Proof. reflexivity. Qed.

Lemma startsWith_tick (c : ascii) (r : string) :
  startsWith (String c r) "`" = Ascii.eqb "`" c.
Proof. unfold startsWith. apply andb_true_r. Qed.

Lemma startsWith_pair_tick (r : string) :
  startsWith r "`" = false -> startsWith r "``" = false.
Proof.
  destruct r as [| c r']; [reflexivity |].
  rewrite startsWith_tick, startsWith_pair. intros ->. reflexivity.
Qed.

Lemma stripFences_no_tick_first (r : string) :
  startsWith r "`" = false ->
  startsWith (Replies.stripFences 0 r) "`" = false.
Proof.
  destruct r as [| y r'']; [reflexivity |].
  rewrite startsWith_tick. intros Hy.
  rewrite stripFences_cons, fenceAt_cons, Hy. cbn [andb].
  rewrite startsWith_tick. exact Hy.
Qed.

Lemma stripFences_no_pair_after_backtick (r : string) :
  startsWith r "``" = false ->
  startsWith (Replies.stripFences 0 r) "``" = false.
Proof.
  destruct r as [| x r']; [reflexivity |].
  rewrite startsWith_pair. intros Hr.
  rewrite stripFences_cons, fenceAt_cons.
  destruct (Ascii.eqb "`" x) eqn:Hx; cbn [andb] in Hr |- *.
  - rewrite (startsWith_pair_tick r' Hr).
    rewrite startsWith_pair, Hx. cbn [andb].
    apply stripFences_no_tick_first. exact Hr.
  - rewrite startsWith_pair, Hx. reflexivity.
Qed.

Lemma stripFences_no_fence (s : string) :
  forall skip, includes (Replies.stripFences skip s) "```" = false.
Proof.
  induction s as [| c r IH]; intros skip; [reflexivity |].
  destruct skip as [| k]; [| apply IH].
  rewrite stripFences_cons.
  destruct (Replies.fenceAt (String c r)) eqn:Hf; [apply IH |].
  change (includes (String c (Replies.stripFences 0 r)) "```")
    with (startsWith (String c (Replies.stripFences 0 r)) "```"
          || includes (Replies.stripFences 0 r) "```").
  rewrite IH, orb_false_r.
  change (startsWith (String c (Replies.stripFences 0 r)) "```")
    with (Ascii.eqb "`" c && startsWith (Replies.stripFences 0 r) "``").
  rewrite fenceAt_cons in Hf.
  destruct (Ascii.eqb "`" c); [| reflexivity].
  cbn [andb] in Hf |- *. apply stripFences_no_pair_after_backtick. exact Hf.
Qed.

Lemma stripFences_length (s : string) :
  forall skip,
    (String.length (Replies.stripFences skip s) <= String.length s)%nat.
Proof.
  induction s as [| c r IH]; intros skip; [simpl; lia |].
  destruct skip as [| k].
  - rewrite stripFences_cons.
    destruct (Replies.fenceAt (String c r)).
    + specialize (IH (if Replies.jsonAt (Replies.drop 3 (String c r)) then 6 else 2)%nat).
      cbn [String.length]. lia.
    + cbn [String.length]. specialize (IH 0%nat). lia.
  - change (Replies.stripFences (S k) (String c r)) with (Replies.stripFences k r).
    cbn [String.length]. specialize (IH k). lia.
Qed.

Lemma stripFences_without_backtick (s : string) :
  contains "`" s = false -> Replies.stripFences 0 s = s.
Proof.
  induction s as [| c r IH]; [reflexivity |].
  cbn [contains]. intros H. apply orb_false_iff in H. destruct H as [Hc Hr].
  rewrite stripFences_cons, fenceAt_cons, Ascii.eqb_sym, Hc. cbn [andb].
  rewrite (IH Hr). reflexivity.
Qed.

(** X10.  [text.replace(/```json|```/gi, '')] leaves no code fence: the
    result never contains three backticks in a row.  It is never longer
    than the text, and a text without a backtick is returned as it is. *)
Theorem code_fences_are_stripped (text : string) :
  includes (Replies.stripCodeFences text) "```" = false /\
  (String.length (Replies.stripCodeFences text) <= String.length text)%nat /\
  (contains "`" text = false -> Replies.stripCodeFences text = text).
Proof.
  split; [apply stripFences_no_fence |].
  split; [apply stripFences_length | apply stripFences_without_backtick].
Qed.

Lemma code_fences_are_stripped_witness :
  Replies.stripCodeFences "{ x: [1, 2] }" = "{ x: [1, 2] }".
Proof.
  apply (proj2 (proj2 (code_fences_are_stripped "{ x: [1, 2] }"))).
  reflexivity.
Defined.

Example stripCodeFences_runs :
  Replies.stripCodeFences "```JSON{}```" = "{}" /\
  Replies.stripCodeFences "`````json" = "``json" /\
  Replies.stripCodeFences "``` json ```" = " json ".
Proof. repeat split; reflexivity. Qed.

(** ** Message length for LinkedIn *)

Lemma substring0_length (n : nat) (s : string) :
  String.length (substring0 n s) = Nat.min n (String.length s).
Proof.
  revert s. induction n as [| n IH]; intros s; [reflexivity |].
  destruct s as [| c r]; [reflexivity |]. simpl. rewrite IH. reflexivity.
Qed.

Lemma substring0_append (n : nat) (s tail : string) :
  (n <= String.length s)%nat ->
  substring0 n (substring0 n s ++ tail) = substring0 n s.
Proof.
  revert s. induction n as [| n IH]; intros s Hn; [reflexivity |].
  destruct s as [| c r]; [simpl in Hn; lia |].
  simpl. rewrite IH; [reflexivity | simpl in Hn; lia].
Qed.

(** X11.  The text of a LinkedIn message, when it is a string, comes out
    at most 300 code units long: a text of at most 300 is kept as it is; a
    longer one becomes its first 297 code units followed by three dots,
    exactly 300 long. *)
Theorem linkedin_text_fits_300 (text : string) :
  (String.length (Replies.truncateText text) <= 300)%nat /\
  ((String.length text <= 300)%nat -> Replies.truncateText text = text) /\
  ((300 < String.length text)%nat ->
   Replies.truncateText text = substring0 297 text ++ "..." /\
   String.length (Replies.truncateText text) = 300%nat /\
   substring0 297 (Replies.truncateText text) = substring0 297 text).
Proof.
  unfold Replies.truncateText.
  destruct (300 <? String.length text)%nat eqn:Hlong.
  - apply Nat.ltb_lt in Hlong.
    assert (Hlen : String.length (substring0 297 text ++ "...") = 300%nat).
    { rewrite length_append, substring0_length. simpl String.length. lia. }
    split; [lia |]. split; [lia |]. intros _.
    split; [reflexivity |]. split; [exact Hlen |].
    apply substring0_append. lia.
  - apply Nat.ltb_ge in Hlong.
    split; [exact Hlong |]. split; [reflexivity | lia].
Qed.

Lemma linkedin_text_fits_300_witness :
  Replies.truncateText "Hi Dana, saw your post on onboarding."
  = "Hi Dana, saw your post on onboarding." /\
  String.length (Replies.truncateText (String.concat EmptyString (repeat "lorem " 60)))
  = 300%nat.
Proof.
  split.
  - apply (proj1 (proj2 (linkedin_text_fits_300 "Hi Dana, saw your post on onboarding."))).
    simpl. lia.
  - apply (proj2 (proj2 (linkedin_text_fits_300
                           (String.concat EmptyString (repeat "lorem " 60))))).
    apply Nat.ltb_lt. vm_compute. reflexivity.
Defined.

(** ** POST /select-outreach-channels *)

(** X12.  The endpoint checks its three required fields for truthiness
    only.  A missing or empty one gives 400.  When all three are truthy
    but one of them, or a given [leadLocation], is not a string, the
    response is the 500 of the [catch] block, whatever the helper would
    answer, since [trim] is called on it first.  When they are strings,
    white space alone included, the helper receives their trimmed texts
    (an absent [leadLocation] as the empty text) and its result is sent,
    or the same 500 when it throws. *)
Theorem outreach_fields_are_checked_for_truthiness
    (select : string -> string -> string -> string -> Exc Json)
    (leadRole leadLocation productService outreachGoal : JsValue) :
  (truthy leadRole = false \/ truthy productService = false
   \/ truthy outreachGoal = false ->
   Outreach.handler select leadRole leadLocation productService outreachGoal
   = Outreach.Refused 400 "Missing required fields") /\
  (truthy leadRole = true -> truthy productService = true ->
   truthy outreachGoal = true ->
   Mail.isString leadRole = false \/ Mail.isString productService = false
   \/ Mail.isString outreachGoal = false
   \/ (Mail.isString leadLocation = false /\ leadLocation <> JUndefined
       /\ leadLocation <> JNull) ->
   Outreach.handler select leadRole leadLocation productService outreachGoal
   = Outreach.Refused 500 "Failed to get channel recommendations.") /\
  (forall role product goal,
      leadRole = JString role -> productService = JString product ->
      outreachGoal = JString goal ->
      role <> EmptyString -> product <> EmptyString -> goal <> EmptyString ->
      forall location,
        (leadLocation = JString location \/
         ((leadLocation = JUndefined \/ leadLocation = JNull)
          /\ location = EmptyString)) ->
        Outreach.handler select leadRole leadLocation productService outreachGoal
        = match select (trim role) (trim location) (trim product) (trim goal) with
          | Ok result => Outreach.Sent result
          | Throw _ => Outreach.Refused 500 "Failed to get channel recommendations."
          end).
Proof.
  unfold Outreach.handler, Outreach.tryBlock. split; [| split].
  - intros [H | [H | H]]; rewrite H; simpl; rewrite ?orb_true_r; reflexivity.
  - intros Hr Hp Hg Hbad. rewrite Hr, Hp, Hg. simpl.
    destruct leadRole; try discriminate; simpl; try reflexivity.
    destruct leadLocation; simpl;
      try reflexivity;
      destruct productService; try discriminate; simpl; try reflexivity;
      destruct outreachGoal; try discriminate; simpl; try reflexivity;
      exfalso; destruct Hbad as [H | [H | [H | [H1 [H2 H3]]]]];
      try discriminate; try (apply H2; reflexivity); try (apply H3; reflexivity).
  - intros role product goal -> -> -> Hr Hp Hg location Hloc.
    destruct role; [contradiction |]. destruct product; [contradiction |].
    destruct goal; [contradiction |].
    destruct Hloc as [-> | [[-> | ->] ->]]; simpl;
      destruct (select _ _ _ _); reflexivity.
Qed.

Lemma outreach_fields_are_checked_for_truthiness_witness :
  let select := fun role location product goal : string =>
    Ok (VObject [("role", VString role); ("location", VString location)]) in
  Outreach.handler select (JString "CTO") JUndefined (JString "") (JString "demo")
  = Outreach.Refused 400 "Missing required fields" /\
  Outreach.handler select (JNumber 7) JUndefined (JString "CRM") (JString "demo")
  = Outreach.Refused 500 "Failed to get channel recommendations." /\
  Outreach.handler select (JString "   ") JNull (JString " CRM ") (JString "demo")
  = Outreach.Sent (VObject [("role", VString EmptyString); ("location", VString EmptyString)]).
Proof.
  intros select. split; [| split].
  - apply (proj1 (outreach_fields_are_checked_for_truthiness select
                    (JString "CTO") JUndefined (JString "") (JString "demo"))).
    right. left. reflexivity.
  - apply (proj1 (proj2 (outreach_fields_are_checked_for_truthiness select
                    (JNumber 7) JUndefined (JString "CRM") (JString "demo")))
             eq_refl eq_refl eq_refl).
    left. reflexivity.
  - apply (proj2 (proj2 (outreach_fields_are_checked_for_truthiness select
                    (JString "   ") JNull (JString " CRM ") (JString "demo")))
             "   " " CRM " "demo" eq_refl eq_refl eq_refl
             ltac:(discriminate) ltac:(discriminate) ltac:(discriminate)
             EmptyString).
    right. split; [right; reflexivity | reflexivity].
Defined.

(** ** The slots are the accepted candidates, in order *)



(** ** The booking link *)

(** What [encodeURIComponent] writes for one code unit: the unit itself
    when it is unreserved, else escapes made of [%] and hexadecimal digits. *)
Lemma encoded_unit_is_plain (c x : ascii) :
  contains x (if uriUnreserved c then String c EmptyString
              else if code c <? 128 then percentByte (code c)
              else percentByte (192 + code c / 64)
                   ++ percentByte (128 + code c mod 64)) = true ->
  uriUnreserved x = true \/ x = "%"%char.
Proof.
  assert (H : forallb (fun y => uriUnreserved y || Ascii.eqb y "%")
                (list_ascii_of_string
                   (if uriUnreserved c then String c EmptyString
                    else if code c <? 128 then percentByte (code c)
                    else percentByte (192 + code c / 64)
                         ++ percentByte (128 + code c mod 64))) = true).
  { destruct c as [[] [] [] [] [] [] [] []]; vm_compute; reflexivity. }
  revert H.
  generalize (if uriUnreserved c then String c EmptyString
              else if code c <? 128 then percentByte (code c)
              else percentByte (192 + code c / 64)
                   ++ percentByte (128 + code c mod 64)).
  intros s. induction s as [| y s IH]; simpl; [discriminate |].
  intros Hall Hin. apply andb_true_iff in Hall. destruct Hall as [Hy Hs].
  apply orb_true_iff in Hin. destruct Hin as [Hin | Hin].
  - apply Ascii.eqb_eq in Hin. subst y.
    apply orb_true_iff in Hy. destruct Hy as [Hy | Hy]; [left; exact Hy |].
    right. apply Ascii.eqb_eq. exact Hy.
  - auto.
Qed.

Lemma encoded_is_plain (s : string) (x : ascii) :
  contains x (encodeURIComponent s) = true ->
  uriUnreserved x = true \/ x = "%"%char.
Proof.
  induction s as [| c s IH]; [discriminate |].
  change (encodeURIComponent (String c s))
    with ((if uriUnreserved c then String c EmptyString
           else if code c <? 128 then percentByte (code c)
           else percentByte (192 + code c / 64)
                ++ percentByte (128 + code c mod 64))
          ++ encodeURIComponent s).
  rewrite contains_append. intros H. apply orb_true_iff in H.
  destruct H as [H | H]; [eapply encoded_unit_is_plain; exact H | auto].
Qed.

Lemma encoded_plain_is_itself (s : string) :
  (forall x, contains x s = true -> uriUnreserved x = true) ->
  encodeURIComponent s = s.
Proof.
  induction s as [| c s IH]; intros H; [reflexivity |].
  change (encodeURIComponent (String c s))
    with ((if uriUnreserved c then String c EmptyString
           else if code c <? 128 then percentByte (code c)
           else percentByte (192 + code c / 64)
                ++ percentByte (128 + code c mod 64))
          ++ encodeURIComponent s).
  rewrite (H c) by (simpl; rewrite Ascii.eqb_refl; reflexivity).
  rewrite IH; [reflexivity |].
  intros x Hx. apply H. simpl. rewrite Hx. apply orb_true_r.
Qed.

(** X14.  The link of a slot is the fixed address followed by exactly the
    three parameters [tz], [start] and [duration]: the values written for
    [tz] and [start] contain only letters, digits, [- _ . ! ~ * ' ( )] and
    [%], so no text in the organizer's time zone can end a parameter, add
    one or start a fragment; a zone name made of unreserved characters
    only is written as it is, while one with a slash, as in
    [Asia/Kolkata], is not. *)
Theorem booking_link_parameters_are_escaped (userTz : string)
    (iso : option string) (d : Z) :
  exists tz start,
    bookingLink userTz iso d
    = "https://cal.com/book?tz=" ++ tz ++ "&start=" ++ start
      ++ "&duration=" ++ numberToString d /\
    (forall x, contains x tz = true \/ contains x start = true ->
               (uriUnreserved x = true \/ x = "%"%char) /\
               ~ In x ["&"; "="; "?"; "#"; "/"; ":"; "+"; " "; "<"; ">"]%char) /\
    ((forall x, contains x userTz = true -> uriUnreserved x = true) ->
     tz = userTz) /\
    (contains "/" userTz = true -> tz <> userTz).
Proof.
  exists (encodeURIComponent userTz),
         (encodeURIComponent (match iso with Some t => t | None => "null" end)).
  split; [reflexivity |]. split; [| split].
  - intros x Hx.
    assert (Hp : uriUnreserved x = true \/ x = "%"%char)
      by (destruct Hx as [Hx | Hx]; eapply encoded_is_plain; exact Hx).
    split; [exact Hp |].
    intros Hin. simpl in Hin.
    repeat (destruct Hin as [<- | Hin];
            [destruct Hp as [Hp | Hp]; [vm_compute in Hp |]; discriminate |]).
    contradiction.
  - apply encoded_plain_is_itself.
  - intros Hslash Heq.
    assert (Hin : contains "/" (encodeURIComponent userTz) = true)
      by (rewrite Heq; exact Hslash).
    apply encoded_is_plain in Hin.
    destruct Hin as [Hin | Hin]; [vm_compute in Hin |]; discriminate.
Qed.

Example bookingLink_runs :
  bookingLink "Asia/Kolkata&duration=0" (Some "2026-11-02T09:00:00.000+05:30") 45
  = "https://cal.com/book?tz=Asia%2FKolkata%26duration%3D0&start=2026-11-02T09%3A00%3A00.000%2B05%3A30&duration=45".
Proof. vm_compute. reflexivity. Qed.

Lemma booking_link_parameters_are_escaped_witness :
  exists tz start,
    bookingLink "Asia/Kolkata&duration=0" (Some "2026-11-02T09:00:00.000+05:30") 45
    = "https://cal.com/book?tz=" ++ tz ++ "&start=" ++ start ++ "&duration=45" /\
    contains "&" tz = false /\ tz <> "Asia/Kolkata&duration=0".
Proof.
  destruct (booking_link_parameters_are_escaped "Asia/Kolkata&duration=0"
              (Some "2026-11-02T09:00:00.000+05:30") 45)
    as [tz [start [Hlink [Hplain [_ Hslash]]]]].
  exists tz, start. split; [exact Hlink |]. split.
  - destruct (contains "&" tz) eqn:Hc; [| reflexivity].
    destruct (Hplain "&"%char (or_introl Hc)) as [_ Hno].
    exfalso. apply Hno. left. reflexivity.
  - apply Hslash. reflexivity.
Defined.

(** ** The loops of the handler and the lists of days and hours *)

(** X17.  For a [callDuration] converted to an integer from -60 * 2^30 on,
    [duration/60], its ceiling, the bound [17 - ...] and [hour++] are all
    exact in double arithmetic and the array of slots stays far below its
    maximum length: the loop over [hour] visits exactly the candidate
    hours, and with fuel for them the two loops of the handler return what
    [findSlots] describes with lists of days and hours, the response being
    built from it.  Above 480 minutes, the infinite duration included, the
    loop visits no hour, whatever the rounding. *)
Theorem loops_are_the_lists (L : Luxon) (req : Body) (fuel : nat) (d : Z) :
  let userTz := stringOf (userTimezone req) in
  let tzs := resolvedTzs (stringOf (leadLocations req)) in
  missing (userTimezone req) = false -> missing (leadLocations req) = false ->
  duration (callDuration req) = Ok (Fin d) ->
  - (60 * 2 ^ 30) <= d ->
  (List.length (candidateHours d) < fuel)%nat ->
  hoursUpTo (hourBound (Fin d)) = Some (candidateHours d) /\
  (candidateHours d <> [] ->
   toNumber d = Fin d /\ hourBound (Fin d) = Fin (17 - ceilDiv d 60)) /\
  search fuel userTz tzs (Fin d) = Some (findSlots userTz tzs d) /\
  (validTzs userTz tzs = true ->
   handler fuel req =
   Some (match findSlots userTz tzs d with
         | Ok slots => Json200 (buildTable tzs slots) (meetingLinkOf slots)
         | Throw _ => Json200 serverErrorHtml EmptyString
         end)) /\
  (forall dur, exceeds480 dur -> hoursUpTo (hourBound dur) = Some []).
Proof.
  intros userTz tzs Hu Hl Hd Hrange Hfuel.
  split; [| split; [| split; [| split]]].
  - apply hours_are_candidateHours.
    change (60 * 2 ^ 30) with 64424509440 in Hrange.
    change (60 * 2 ^ 48) with 16888498602639360. lia.
  - intros Hne.
    assert (Hsmall : d <= 480).
    { destruct (Z_lt_le_dec 480 d) as [Hbig | Hle]; [exfalso | exact Hle].
      apply Hne. apply candidateHours_empty. exact Hbig. }
    change (60 * 2 ^ 30) with 64424509440 in Hrange. split.
    + apply toNumber_small. rewrite twoTo53_value. lia.
    + apply hourBound_exact. change (60 * 2 ^ 48) with 16888498602639360. lia.
  - apply search_in_range; assumption.
  - intros Hv. apply (handler_in_range fuel req d Hu Hl Hd Hv Hrange Hfuel).
  - intros dur. apply hours_empty_iff.
Qed.

Lemma loops_are_the_lists_witness :
  let L := FixedZones.luxon FixedZones.monday in
  let req := stringRequest "Asia/Kolkata" "tokyo, dubai" "-90" in
  hoursUpTo (hourBound (Fin (-90))) = Some [9; 10; 11; 12; 13; 14; 15; 16; 17; 18] /\
  search 11 "Asia/Kolkata" [ZName "Asia/Tokyo"; ZName "Asia/Dubai"] (Fin (-90))
  = Some (findSlots "Asia/Kolkata" [ZName "Asia/Tokyo"; ZName "Asia/Dubai"] (-90)).
Proof.
  intros L req.
  destruct (loops_are_the_lists L req 11 (-90) eq_refl eq_refl eq_refl
              ltac:(vm_compute; discriminate) ltac:(vm_compute; lia))
    as [Hhours [_ [Hsearch _]]].
  split; [exact Hhours | exact Hsearch].
Defined.
